(** * UTILIDADE.PY: query execution, data cache and order entry

    A shallow embedding of [UTILIDADE.PY]: the database layer
    ([get_db_connection], [run_query], [load_all_data], [refresh_data]),
    the pages that issue queries ([menu_page], [home_page], [orders_page]
    as far as the source goes), the pages that do not
    ([events_calendar_page], [settings_page], [loyalty_program_page]) and
    the helpers [format_currency] and [upload_pdf_to_fileio], followed by
    the properties proved about them.

    The Python code is effectful: it talks to a PostgreSQL server through
    psycopg2, keeps two Streamlit caches and the session state, and writes
    to the page.  All of that is gathered in one record, [World], and every
    function of the database layer becomes a computation in a
    state-and-exception monad over it. *)

From Stdlib Require Import ZArith Lia.
From stdpp Require Import base strings list gmap sorting pretty.

Open Scope string_scope.

(** ** Values exchanged with the database *)

(** A [datetime.datetime] value. *)
Record datetime := mk_datetime {
  year : nat; month : nat; day : nat;
  hour : nat; minute : nat; second : nat; microsecond : nat }.

#[global] Instance datetime_eq_dec : EqDecision datetime.
Proof. solve_decision. Defined.

(** The Python values that occur as query parameters and as cells of the
    fetched tuples. *)
Inductive Value :=
| VNone
| VStr (s : string)
| VInt (z : Z)
| VTime (t : datetime).

#[global] Instance Value_eq_dec : EqDecision Value.
Proof. solve_decision. Defined.

(** A fetched row is a tuple of values. *)
Abbreviation Row := (list Value).

(** Chronological order on time stamps: the fields are compared from the
    year down to the microsecond. *)
Definition datetime_fields (t : datetime) : list nat :=
  [year t; month t; day t; hour t; minute t; second t; microsecond t].

Fixpoint lex_leb (a b : list nat) : bool :=
  match a, b with
  | [], _ => true
  | _ :: _, [] => false
  | x :: a', y :: b' =>
      if (x <? y)%nat then true
      else if (y <? x)%nat then false
      else lex_leb a' b'
  end.

Definition datetime_leb (t u : datetime) : bool :=
  lex_leb (datetime_fields t) (datetime_fields u).

(** A decimal number filled with zeros on the left up to [width] digits,
    as [%02d] and the fields of [strftime] are. *)
Fixpoint zeros (k : nat) : string :=
  match k with
  | O => ""
  | S k' => "0" +:+ zeros k'
  end.

Definition zfill (width : nat) (n : nat) : string :=
  zeros (width - String.length (pretty n)) +:+ pretty n.

Definition pad2 (n : nat) : string := zfill 2 n.
Definition pad4 (n : nat) : string := zfill 4 n.

(** [strftime('%Y-%m-%d %H:%M:%S')]: the microseconds are dropped. *)
Definition strftime (t : datetime) : string :=
  pad4 (year t) +:+ "-" +:+ pad2 (month t) +:+ "-" +:+ pad2 (day t) +:+ " "
  +:+ pad2 (hour t) +:+ ":" +:+ pad2 (minute t) +:+ ":" +:+ pad2 (second t).

(** ** The database schema

    The tables and views the module reads and writes (the columns are the
    ones its statements name). *)

Module Pedido.
Record row := mk {
  Cliente : string; Produto : string; Quantidade : Z;
  Data : datetime; status : string }.
Definition tuple (r : row) : Row :=
  [VStr (Cliente r); VStr (Produto r); VInt (Quantidade r);
   VTime (Data r); VStr (status r)].
End Pedido.

Module Products.
Record row := mk {
  supplier : string; product : string; quantity : Z;
  unit_value : Z; total_value : Z; creation_date : datetime;
  categoria : string; description : string; price : Z }.
End Products.

Module Estoque.
Record row := mk {
  Produto : string; Quantidade : Z; Transacao : string; Data : datetime }.
End Estoque.

Module PedidoProduto.
Record row := mk { Cliente : string; total : Z; status : string }.
End PedidoProduto.

Module StockVsOrders.
Record row := mk {
  product : string; stock_quantity : Z;
  orders_quantity : Z; total_in_stock : Z }.
Definition tuple (r : row) : Row :=
  [VStr (product r); VInt (stock_quantity r);
   VInt (orders_quantity r); VInt (total_in_stock r)].
End StockVsOrders.

Record Database := mk_Database {
  tb_pedido : list Pedido.row;
  tb_products : list Products.row;
  tb_clientes : list string;
  tb_estoque : list Estoque.row;
  vw_pedido_produto : list PedidoProduto.row;
  vw_stock_vs_orders_summary : list StockVsOrders.row }.

(** ** Statement texts

    The statements are the string literals of the module, token for token;
    the runs of white space of the triple-quoted literals are written as
    one space.  [qid] writes a double-quoted SQL identifier. *)

Definition dq : string := String (Ascii.ascii_of_nat 34) EmptyString.
Definition qid (name : string) : string := dq +:+ name +:+ dq.

Definition orders_query : string :=
  "SELECT " +:+ qid "Cliente" +:+ ", " +:+ qid "Produto" +:+ ", "
  +:+ qid "Quantidade" +:+ ", " +:+ qid "Data" +:+ ", status "
  +:+ "FROM public.tb_pedido ORDER BY " +:+ qid "Data" +:+ " DESC".

Definition products_query : string :=
  "SELECT supplier, product, quantity, unit_value, total_value, creation_date "
  +:+ "FROM public.tb_products ORDER BY creation_date DESC".

Definition clients_query : string :=
  "SELECT DISTINCT " +:+ qid "Cliente" +:+ " "
  +:+ "FROM public.tb_pedido ORDER BY " +:+ qid "Cliente".

Definition stock_query : string :=
  "SELECT " +:+ qid "Produto" +:+ ", " +:+ qid "Quantidade" +:+ ", "
  +:+ qid "Transação" +:+ ", " +:+ qid "Data" +:+ " "
  +:+ "FROM public.tb_estoque ORDER BY " +:+ qid "Data" +:+ " DESC".

Definition categories_query : string :=
  "SELECT DISTINCT categoria FROM public.tb_products ORDER BY categoria".

Definition menu_query : string :=
  "SELECT product, description, price FROM public.tb_products WHERE categoria = %s".

Definition client_count_query : string :=
  "SELECT COUNT(DISTINCT " +:+ qid "Cliente" +:+ ") AS client_count "
  +:+ "FROM public.tb_pedido WHERE status = %s".

Definition open_orders_query : string :=
  "SELECT " +:+ qid "Cliente" +:+ ", SUM(" +:+ qid "total" +:+ ") as Total "
  +:+ "FROM public.vw_pedido_produto WHERE status = %s "
  +:+ "GROUP BY " +:+ qid "Cliente" +:+ " ORDER BY " +:+ qid "Cliente" +:+ " DESC".

Definition stock_vs_orders_query : string :=
  "SELECT product, stock_quantity, orders_quantity, total_in_stock "
  +:+ "FROM public.vw_stock_vs_orders_summary".

Definition clientes_query : string :=
  "SELECT nome_completo FROM public.tb_clientes ORDER BY nome_completo".

Definition insert_query : string :=
  "INSERT INTO public.tb_pedido (" +:+ qid "Cliente" +:+ ", " +:+ qid "Produto"
  +:+ ", " +:+ qid "Quantidade" +:+ ", " +:+ qid "Data" +:+ ", status) "
  +:+ "VALUES (%s, %s, %s, %s, 'em aberto')".

(** ** What the server does with a statement

    Orderings: strings are compared byte by byte, time stamps
    chronologically.  The order of rows that compare equal is the one
    [merge_sort] leaves, one of those the server may choose. *)

Definition str_le (a b : string) : Prop := String.leb a b.
Definition str_ge (a b : string) : Prop := String.leb b a.

#[global] Instance str_le_dec a b : Decision (str_le a b).
Proof. unfold str_le. apply _. Defined.
#[global] Instance str_ge_dec a b : Decision (str_ge a b).
Proof. unfold str_ge. apply _. Defined.

(** [ORDER BY key DESC] on a time-stamp column. *)
Definition newest_first {A} (key : A → datetime) (r s : A) : Prop :=
  datetime_leb (key s) (key r).

#[global] Instance newest_first_dec {A} (key : A → datetime) r s :
  Decision (newest_first key r s).
Proof. unfold newest_first. apply _. Defined.

Definition sum_Z (l : list Z) : Z := foldr Z.add 0%Z l.

(** What a cursor holds after [execute]: the rows of a [SELECT], or
    nothing to fetch after a statement that returns no rows. *)
Inductive Cursor :=
| ResultSet (rows : list Row)
| NoResultSet.

(** [execute db q vals] is the cursor and the database as the statement
    leaves them inside its transaction, or [None] when the server refuses
    the statement (a text it cannot run, or parameters that do not fit the
    placeholders). *)
Definition execute (db : Database) (q : string) (vals : list Value)
  : option (Cursor * Database) :=
  if String.eqb q orders_query then
    match vals with
    | [] => Some (ResultSet (Pedido.tuple <$>
                     merge_sort (newest_first Pedido.Data) (tb_pedido db)), db)
    | _ => None
    end
  else if String.eqb q products_query then
    match vals with
    | [] => Some (ResultSet
               ((λ r, [VStr (Products.supplier r); VStr (Products.product r);
                       VInt (Products.quantity r); VInt (Products.unit_value r);
                       VInt (Products.total_value r);
                       VTime (Products.creation_date r)]) <$>
                merge_sort (newest_first Products.creation_date)
                           (tb_products db)), db)
    | _ => None
    end
  else if String.eqb q clients_query then
    match vals with
    | [] => Some (ResultSet
               ((λ c, [VStr c]) <$>
                merge_sort str_le (remove_dups (Pedido.Cliente <$> tb_pedido db))),
               db)
    | _ => None
    end
  else if String.eqb q stock_query then
    match vals with
    | [] => Some (ResultSet
               ((λ r, [VStr (Estoque.Produto r); VInt (Estoque.Quantidade r);
                       VStr (Estoque.Transacao r); VTime (Estoque.Data r)]) <$>
                merge_sort (newest_first Estoque.Data) (tb_estoque db)), db)
    | _ => None
    end
  else if String.eqb q categories_query then
    match vals with
    | [] => Some (ResultSet
               ((λ c, [VStr c]) <$>
                merge_sort str_le
                  (remove_dups (Products.categoria <$> tb_products db))), db)
    | _ => None
    end
  else if String.eqb q menu_query then
    match vals with
    | [VStr cat] =>
        Some (ResultSet
               ((λ r, [VStr (Products.product r); VStr (Products.description r);
                       VInt (Products.price r)]) <$>
                filter (λ r, Products.categoria r = cat) (tb_products db)), db)
    | _ => None
    end
  else if String.eqb q client_count_query then
    match vals with
    | [VStr st] =>
        Some (ResultSet
               [[VInt (Z.of_nat (length (remove_dups (Pedido.Cliente <$>
                   filter (λ r, Pedido.status r = st) (tb_pedido db)))))]], db)
    | _ => None
    end
  else if String.eqb q open_orders_query then
    match vals with
    | [VStr st] =>
        let rows := filter (λ r, PedidoProduto.status r = st)
                           (vw_pedido_produto db) in
        Some (ResultSet
               ((λ c, [VStr c;
                       VInt (sum_Z (PedidoProduto.total <$>
                         filter (λ r, PedidoProduto.Cliente r = c) rows))]) <$>
                merge_sort str_ge
                  (remove_dups (PedidoProduto.Cliente <$> rows))), db)
    | _ => None
    end
  else if String.eqb q stock_vs_orders_query then
    match vals with
    | [] => Some (ResultSet (StockVsOrders.tuple <$>
                              vw_stock_vs_orders_summary db), db)
    | _ => None
    end
  else if String.eqb q clientes_query then
    match vals with
    | [] => Some (ResultSet
               ((λ c, [VStr c]) <$> merge_sort str_le (tb_clientes db)), db)
    | _ => None
    end
  else if String.eqb q insert_query then
    match vals with
    | [VStr c; VStr p; VInt n; VTime t] =>
        Some (NoResultSet,
              mk_Database
                (tb_pedido db ++ [Pedido.mk c p n t "em aberto"])
                (tb_products db) (tb_clientes db) (tb_estoque db)
                (vw_pedido_produto db) (vw_stock_vs_orders_summary db))
    | _ => None
    end
  else None.

(** ** Exceptions, the environment and the state of the process *)

(** The exception classes the module tells apart: [get_db_connection]
    catches [OperationalError] only, [run_query] and [load_all_data] catch
    every [Exception]. *)
Inductive ExnClass :=
| OperationalError
| IntegrityError
| ProgrammingError
| InterfaceError
| KeyError
| IndexError
| AttributeError.

#[global] Instance ExnClass_eq_dec : EqDecision ExnClass.
Proof. solve_decision. Defined.

Record Exn := mk_exn { exn_class : ExnClass; exn_message : string }.

(** The outcome of a Python call: a value, or an exception on its way up. *)
Inductive Res (A : Type) :=
| Return (a : A)
| Raise (e : Exn).
Arguments Return {A} a.
Arguments Raise {A} e.

(** What the module does not control: whether [psycopg2.connect] (with the
    lookups in [st.secrets]) raises; whether the server makes [execute]
    raise on a statement (a constraint violation, a missing table); the
    frame [df.sort_values(column, ascending=False)] returns, pandas leaving
    rows that tie in an order of its own; and whether [convert_df_to_pdf]
    raises on a frame (FPDF refuses text outside latin-1).  On a connection
    that is open [commit], [rollback] and [close] are taken to return, and
    so are the Streamlit calls. *)
Record Env := mk_Env {
  connect_raises : option Exn;
  execute_raises : string → list Value → option Exn;
  sort_values : nat → list Row → list Row;
  pdf_raises : list string → list Row → option Exn }.

(** A driver call, as recorded in the log; [c] names the connection
    object. *)
Inductive Event :=
| Connect (c : nat)
| Execute (c : nat) (q : string) (vals : list Value)
| Commit (c : nat)
| Fetchall (c : nat)
| Rollback (c : nat)
| Close (c : nat).

(** What the Streamlit calls write to the page. *)
Inductive Ui :=
| st_title (s : string)
| st_subheader (s : string)
| st_write (s : string)
| st_markdown (s : string)
| st_success (s : string)
| st_info (s : string)
| st_warning (s : string)
| st_error (s : string)
| st_table (columns : list string) (rows : list Row)
| st_dataframe (columns : list string) (rows : list Row)
| st_download_button (label file_name : string).

(** The snapshot: the dictionary [load_all_data] returns. *)
Abbreviation Data := (gmap string (list Row)).

Record World := mk_World {
  env : Env;
  (** the committed contents of the database *)
  database : Database;
  (** the store of [@st.cache_resource] for [get_db_connection] *)
  connection_cache : option (option nat);
  (** the connection objects made so far; [true] while open *)
  connections : list bool;
  (** the cursor and the uncommitted state of the running transaction *)
  transaction : option (Cursor * Database);
  (** the store of [@st.cache_data] for [load_all_data]: the dictionary
      the stored call returned, with the elements it wrote to the page *)
  data_cache : option (Data * list Ui);
  (** [st.session_state.data] *)
  session_data : Data;
  (** the driver calls made so far *)
  log : list Event;
  (** what was written to the page, in the order of the calls that wrote
      it *)
  page : list Ui }.

Definition set_database (d : Database) (w : World) : World :=
  mk_World (env w) d (connection_cache w) (connections w) (transaction w)
           (data_cache w) (session_data w) (log w) (page w).
Definition set_connection_cache (c : option (option nat)) (w : World) : World :=
  mk_World (env w) (database w) c (connections w) (transaction w)
           (data_cache w) (session_data w) (log w) (page w).
Definition set_connections (l : list bool) (w : World) : World :=
  mk_World (env w) (database w) (connection_cache w) l (transaction w)
           (data_cache w) (session_data w) (log w) (page w).
Definition set_transaction (t : option (Cursor * Database)) (w : World) : World :=
  mk_World (env w) (database w) (connection_cache w) (connections w) t
           (data_cache w) (session_data w) (log w) (page w).
Definition set_data_cache (d : option (Data * list Ui)) (w : World) : World :=
  mk_World (env w) (database w) (connection_cache w) (connections w)
           (transaction w) d (session_data w) (log w) (page w).
Definition set_session_data (d : Data) (w : World) : World :=
  mk_World (env w) (database w) (connection_cache w) (connections w)
           (transaction w) (data_cache w) d (log w) (page w).
Definition set_log (l : list Event) (w : World) : World :=
  mk_World (env w) (database w) (connection_cache w) (connections w)
           (transaction w) (data_cache w) (session_data w) l (page w).
Definition set_page (p : list Ui) (w : World) : World :=
  mk_World (env w) (database w) (connection_cache w) (connections w)
           (transaction w) (data_cache w) (session_data w) (log w) p.

(** ** The monad of the module's functions *)

Definition M (A : Type) : Type := World → Res A * World.

Definition ret {A} (a : A) : M A := λ w, (Return a, w).
Definition raise {A} (e : Exn) : M A := λ w, (Raise e, w).
Definition bind {A B} (m : M A) (k : A → M B) : M B :=
  λ w, match m w with
       | (Return a, w') => k a w'
       | (Raise e, w') => (Raise e, w')
       end.

Notation "x <- m ;; k" := (bind m (λ x, k))
  (at level 100, m at next level, right associativity).
Notation "m ;;; k" := (bind m (λ _, k))
  (at level 100, right associativity).

(** [try: body except Exception as e: handler e] *)
Definition try_except {A} (body : M A) (handler : Exn → M A) : M A :=
  λ w, match body w with
       | (Return a, w') => (Return a, w')
       | (Raise e, w') => handler e w'
       end.

(** [try: body finally: final]: [final] runs on every way out of [body];
    an exception of [final] replaces the outcome of [body]. *)
Definition try_finally {A} (body : M A) (final : M unit) : M A :=
  λ w, match body w with
       | (r, w') =>
           match final w' with
           | (Return _, w'') => (r, w'')
           | (Raise e, w'') => (Raise e, w'')
           end
       end.

Definition emit (e : Event) : M unit :=
  λ w, (Return (), set_log (log w ++ [e]) w).
Definition show (u : Ui) : M unit :=
  λ w, (Return (), set_page (page w ++ [u]) w).

(** ** The driver *)

(** [psycopg2.connect(...)]: a new connection object, open. *)
Definition psycopg2_connect : M nat :=
  λ w, match connect_raises (env w) with
       | Some e => (Raise e, w)
       | None =>
           let c := length (connections w) in
           (Return c,
            set_log (log w ++ [Connect c])
                    (set_connections (connections w ++ [true]) w))
       end.

(** Whether the connection object [c] is open. *)
Definition is_open (c : nat) (w : World) : bool :=
  match connections w !! c with
  | Some true => true
  | _ => false
  end.

(** What psycopg2 raises when a connection that was closed is used. *)
Definition already_closed : Exn :=
  mk_exn InterfaceError "connection already closed".

(** [conn.cursor()]: a connection that was closed gives no cursor.  The
    call is not logged, and neither is leaving the [with] block. *)
Definition conn_cursor (c : nat) : M unit :=
  λ w, if is_open c w then (Return (), w) else (Raise already_closed, w).

(** [cursor.execute(query, values)]: the statement goes to the server
    over the connection of the cursor, if that is open. *)
Definition cursor_execute (c : nat) (q : string) (vals : list Value) : M unit :=
  λ w, if is_open c w then
         (emit (Execute c q vals) ;;;
          λ w, match execute_raises (env w) q vals with
               | Some e => (Raise e, w)
               | None =>
                   match execute (database w) q vals with
                   | None =>
                       (Raise (mk_exn ProgrammingError "statement refused"), w)
                   | Some t => (Return (), set_transaction (Some t) w)
                   end
               end) w
       else (Raise already_closed, w).

(** [conn.commit()]: the state of the transaction becomes the database. *)
Definition conn_commit (c : nat) : M unit :=
  emit (Commit c) ;;;
  λ w, if is_open c w then
         match transaction w with
         | Some (_, db') => (Return (), set_database db' w)
         | None => (Return (), w)
         end
       else (Raise already_closed, w).

(** [cursor.fetchall()] *)
Definition cursor_fetchall (c : nat) : M (list Row) :=
  emit (Fetchall c) ;;;
  λ w, if is_open c w then
         match transaction w with
         | Some (ResultSet rows, _) => (Return rows, w)
         | _ => (Raise (mk_exn ProgrammingError "no results to fetch"), w)
         end
       else (Raise already_closed, w).

(** [conn.rollback()]: raises on a connection that was closed. *)
Definition conn_rollback (c : nat) : M unit :=
  emit (Rollback c) ;;;
  λ w, if is_open c w then (Return (), set_transaction None w)
       else (Raise already_closed, w).

(** [conn.close()]: what was not committed is lost.  Closing a connection
    that is closed already does nothing more. *)
Definition conn_close (c : nat) : M unit :=
  emit (Close c) ;;;
  λ w, (Return (),
        set_transaction None (set_connections (<[c := false]> (connections w)) w)).

(** ** CONEXAO E CONSULTAS AO BANCO *)

Definition connection_error_text : string :=
  "Não foi possível conectar ao banco de dados. Por favor, tente novamente mais tarde.".

(** The elements Streamlit stores with the value of a call of
    [get_db_connection] and writes to the page again on every later call:
    those the stored call wrote.  The call that returned a connection wrote
    nothing and the call that returned [None] wrote the connection error
    (see [get_db_connection_body]), so the stored value tells them. *)
Definition replayed (v : option nat) : list Ui :=
  match v with
  | Some _ => []
  | None => [st_error connection_error_text]
  end.

(** [@st.cache_resource]: the first call that returns stores its value;
    every later call returns the stored value, writes again what the
    stored call wrote and does not run the body.  A call that raises
    stores nothing. *)
Definition cache_resource (body : M (option nat)) : M (option nat) :=
  λ w, match connection_cache w with
       | Some v => (Return v, set_page (page w ++ replayed v) w)
       | None =>
           match body w with
           | (Return v, w') => (Return v, set_connection_cache (Some v) w')
           | (Raise e, w') => (Raise e, w')
           end
       end.

(** The body of [get_db_connection]; [None] is Python's [None]. *)
Definition get_db_connection_body : M (option nat) :=
  try_except
    (conn <- psycopg2_connect ;; ret (Some conn))
    (λ e, if decide (exn_class e = OperationalError)
          then show (st_error connection_error_text) ;;; ret None
          else raise e).

Definition get_db_connection : M (option nat) :=
  cache_resource get_db_connection_body.

(** What [run_query] returns: [None], [True] or the fetched rows. *)
Inductive QueryResult :=
| QNone
| QTrue
| QRows (rows : list Row).

(** [run_query(query, values, commit)]; an omitted [values] is [[]], which
    is also what [values or ()] makes of it. *)
Definition run_query (query : string) (values : list Value) (commit : bool)
  : M QueryResult :=
  conn <- get_db_connection ;;
  match conn with
  | None => ret QNone
  | Some conn =>
      try_finally
        (try_except
           (conn_cursor conn ;;;
            cursor_execute conn query values ;;;
            if commit then
              conn_commit conn ;;; ret QTrue
            else
              rows <- cursor_fetchall conn ;; ret (QRows rows))
           (λ e,
              conn_rollback conn ;;;
              show (st_error ("Erro ao executar a consulta: " +:+ exn_message e)) ;;;
              ret QNone))
        (conn_close conn)
  end.

(** ** CARREGAMENTO E REFRESH DE DADOS *)

(** Python's truth value of a result of [run_query]. *)
Definition truthy (r : QueryResult) : bool :=
  match r with
  | QNone => false
  | QTrue => true
  | QRows [] => false
  | QRows (_ :: _) => true
  end.

(** [r or []] for the result of a read ([commit] is [False] there, so [r]
    is never [True]). *)
Definition or_empty (r : QueryResult) : list Row :=
  match r with
  | QRows rows => rows
  | _ => []
  end.

(** The body of [load_all_data].  [assign key q data k] is the assignment
    [data[key] = run_query(q) or []] followed by the rest [k] of the [try]
    block; when [run_query] raises, the [except] clause reports it and the
    dictionary is returned as it stands. *)
Definition load_all_data_body : M Data :=
  let assign (key q : string) (data : Data) (k : Data → M Data) : M Data :=
    λ w, match run_query q [] false w with
         | (Return r, w') => k (<[key := or_empty r]> data) w'
         | (Raise e, w') =>
             (show (st_error ("Erro ao carregar os dados: " +:+ exn_message e)) ;;;
              ret data) w'
         end in
  assign "orders" orders_query ∅ (λ data,
  assign "products" products_query data (λ data,
  assign "clients" clients_query data (λ data,
  assign "stock" stock_query data ret))).

(** [@st.cache_data]: while there is a stored dictionary it is returned,
    the elements the stored call wrote to the page are written again, and
    the body does not run.  Otherwise the body runs and what it returns is
    stored with the elements it wrote. *)
Definition cache_data (body : M Data) : M Data :=
  λ w, match data_cache w with
       | Some (d, written) => (Return d, set_page (page w ++ written) w)
       | None =>
           match body w with
           | (Return d, w') =>
               (Return d,
                set_data_cache (Some (d, drop (length (page w)) (page w'))) w')
           | (Raise e, w') => (Raise e, w')
           end
       end.

Definition load_all_data : M Data := cache_data load_all_data_body.

(** [load_all_data.clear()] *)
Definition load_all_data_clear : M unit :=
  λ w, (Return (), set_data_cache None w).

Definition refresh_data : M unit :=
  load_all_data_clear ;;;
  data <- load_all_data ;;
  λ w, (Return (), set_session_data data w).

(** ** FUNCOES DE PAGINAS *)

(** Python's truth value of a cell or of a widget's value. *)
Definition value_truthy (v : Value) : bool :=
  match v with
  | VNone => false
  | VStr s => negb (String.eqb s "")
  | VInt z => negb (z =? 0)%Z
  | VTime _ => true
  end.

(** [row[i]]; the rows the statements of the module return have the
    columns the pages read. *)
Definition cell (i : nat) (row : Row) : Value := nth i row VNone.

(** The number in a numeric cell (the counts, quantities and totals are
    integers here). *)
Definition int_of (v : Value) : Z :=
  match v with
  | VInt z => z
  | _ => 0%Z
  end.

(** [str(v)], as an f-string renders a value. *)
Definition py_str (v : Value) : string :=
  match v with
  | VNone => "None"
  | VStr s => s
  | VInt z => pretty z
  | VTime t =>
      if (microsecond t =? 0)%nat then strftime t
      else strftime t +:+ "." +:+ zfill 6 (microsecond t)
  end.

Section Pages.

(** [format_currency] formats a floating-point amount; it is kept as it
    is named, without its arithmetic. *)
Variable format_currency : Value → string.

(** [menu_page]; [selected_category] is what the category select box
    returns. *)
Definition menu_page (selected_category : Value) : M unit :=
  show (st_title "Cardápio") ;;;
  categories <- run_query categories_query [] false ;;
  let category_list :=
    if truthy categories then cell 0 <$> or_empty categories else [] in
  if value_truthy selected_category then
    products <- run_query menu_query [selected_category] false ;;
    if truthy products then
      λ w, (Return (),
            set_page
              (page w ++
               mjoin ((λ product,
                  [st_subheader (py_str (cell 0 product));
                   st_write ("Descrição: " +:+ py_str (cell 1 product));
                   st_write ("Preço: " +:+ format_currency (cell 2 product))])
                 <$> or_empty products)) w)
    else show (st_warning "Nenhum produto encontrado para esta categoria.")
  else ret ().

(** [df.sort_values(column, ascending=False, inplace=True)] on the column
    [i]: the frame pandas leaves. *)
Definition df_sort_values (i : nat) (rows : list Row) : M (list Row) :=
  λ w, (Return (sort_values (env w) i rows), w).

(** [convert_df_to_pdf(df)]: the bytes FPDF makes of the frame are not part
    of the model, that the call may raise is. *)
Definition convert_df_to_pdf (columns : list string) (rows : list Row) : M unit :=
  λ w, match pdf_raises (env w) columns rows with
       | Some e => (Raise e, w)
       | None => (Return (), w)
       end.

(** The [Stock vs. Orders Summary] block of [home_page] (the [try]
    statement that ends the function). *)
Definition stock_vs_orders_summary : M unit :=
  try_except
    (stock_vs_orders_data <- run_query stock_vs_orders_query [] false ;;
     if truthy stock_vs_orders_data then
       let columns :=
         ["Product"; "Stock_Quantity"; "Orders_Quantity"; "Total_in_Stock"] in
       df_stock_vs_orders <- df_sort_values 3 (or_empty stock_vs_orders_data) ;;
       let df_display := (λ r, [cell 0 r; cell 3 r]) <$> df_stock_vs_orders in
       show (st_table ["Product"; "Total_in_Stock"] df_display) ;;;
       let total_stock_value :=
         sum_Z ((λ r, int_of (cell 3 r)) <$> df_stock_vs_orders) in
       show (st_markdown ("**Total Geral (Stock vs. Orders):** "
                          +:+ pretty total_stock_value)) ;;;
       convert_df_to_pdf columns df_stock_vs_orders ;;;
       show (st_subheader "Opções de PDF (Exportar)") ;;;
       show (st_download_button "Baixar PDF" "stock_vs_orders_summary.pdf")
     else
       show (st_info "Não há dados na view vw_stock_vs_orders_summary."))
    (λ e, show (st_error ("Erro ao gerar o resumo Stock vs. Orders: "
                          +:+ exn_message e))).

(** [home_page]; [username] is [st.session_state.get("username")].  The
    notification fills the placeholder that [st.empty()] makes before the
    count query; it is listed when it is written, after what the query
    wrote. *)
Definition home_page (username : option string) : M unit :=
  show (st_title "🎾 Boituva Beach Club 🎾") ;;;
  show (st_write "📍 Av. Do Trabalhador, 1879 — 🏆 5° Open BBC") ;;;
  client_count <- run_query client_count_query [VStr "em aberto"] false ;;
  (if truthy client_count
      && (0 <? int_of (cell 0 (nth 0 (or_empty client_count) [])))%Z
   then show (st_success ("Há "
                +:+ py_str (cell 0 (nth 0 (or_empty client_count) []))
                +:+ " clientes com pedidos em aberto!"))
   else show (st_info "Nenhum cliente com pedido em aberto no momento.")) ;;;
  if decide (username = Some "admin") then
    show (st_markdown "**Open Orders Summary**") ;;;
    open_orders_data <- run_query open_orders_query [VStr "em aberto"] false ;;
    (if truthy open_orders_data then
       let df_open_orders := or_empty open_orders_data in
       let total_open := sum_Z ((λ r, int_of (cell 1 r)) <$> df_open_orders) in
       show (st_table ["Client"; "Total_display"]
               ((λ r, [cell 0 r; VStr (format_currency (cell 1 r))])
                  <$> df_open_orders)) ;;;
       show (st_markdown ("**Total Geral (Open Orders):** "
                          +:+ format_currency (VInt total_open)))
     else show (st_info "Nenhum pedido em aberto encontrado.")) ;;;
    show (st_markdown "**Stock vs. Orders Summary**") ;;;
    stock_vs_orders_summary
  else ret ().

End Pages.

(** *** [orders_page] *)

(** [st.session_state.data.get(key, [])] *)
Definition data_get (key : string) : M (list Row) :=
  λ w, (Return (default [] (session_data w !! key)), w).

(** The options of the product select box. *)
Definition product_list (product_data : list Row) : list Value :=
  match product_data with
  | [] => [VStr "No products available"]
  | _ => VStr "" :: (cell 1 <$> product_data)
  end.

(** The options of the customer select box, from the rows of
    [tb_clientes]. *)
Definition customer_list (clientes : QueryResult) : list Value :=
  if truthy clientes then VStr "" :: (cell 0 <$> or_empty clientes) else [].

(** The order form: the product options, read from the snapshot, the
    query on [tb_clientes] and the customer options made of its rows. *)
Definition order_form : M (list Value * list Value) :=
  product_data <- data_get "products" ;;
  clientes <- run_query clientes_query [] false ;;
  ret (customer_list clientes, product_list product_data).

(** The [if submit_button:] block.  [customer_name], [product] and
    [quantity] are the values of the form's widgets, [now] is what
    [datetime.now()] returns. *)
Definition register_order (submit_button : bool) (customer_name product : Value)
    (quantity : Z) (now : datetime) : M unit :=
  if submit_button then
    if value_truthy customer_name && value_truthy product && (0 <? quantity)%Z
    then
      let timestamp := now in
      success <- run_query insert_query
                   [customer_name; product; VInt quantity; VTime timestamp]
                   true ;;
      if truthy success then
        show (st_success "Order registrado com sucesso!") ;;;
        refresh_data
      else
        show (st_error "Falha ao registrar o pedido.")
    else
      show (st_warning "Por favor, preencha todos os campos corretamente.")
  else ret ().

(** The [unique_key] of a row of the orders data frame; [strftime] needs a
    time stamp in the [Date] column. *)
Definition unique_key (row : Row) : Res string :=
  match cell 3 row with
  | VTime date =>
      Return (py_str (cell 0 row) +:+ "|" +:+ py_str (cell 1 row) +:+ "|"
              +:+ strftime date)
  | _ => Raise (mk_exn AttributeError "strftime")
  end.

(** [df_orders.apply(..., axis=1)]: the key of every row, or the first
    exception. *)
Fixpoint unique_keys (rows : list Row) : Res (list string) :=
  match rows with
  | [] => Return []
  | row :: rest =>
      match unique_key row with
      | Raise e => Raise e
      | Return k =>
          match unique_keys rest with
          | Raise e => Raise e
          | Return ks => Return (k :: ks)
          end
      end
  end.

(** Where the edit-or-delete section ends up: nothing selected, the
    selection refused, or the edit form shown for one row. *)
Inductive Selection :=
| NoSelection
| Refused
| EditForm (selected_row : Row).

(** The section [Edit or Delete an Existing Order], from the computation of
    the keys to the choice of the row; [selected_key] is what the select
    box returns.  The edit form and its two buttons lie in the branch that
    returns [EditForm]. *)
Definition edit_or_delete_section (orders_data : list Row) (selected_key : string)
  : M Selection :=
  show (st_subheader "Edit or Delete an Existing Order") ;;;
  match unique_keys orders_data with
  | Raise e => raise e
  | Return keys =>
      if negb (String.eqb selected_key "") then
        let matching_rows :=
          fst <$> filter (λ rk, snd rk = selected_key) (zip orders_data keys) in
        if (1 <? length matching_rows)%nat then
          show (st_warning
            "Multiple orders found with the same key. Please refine your selection.") ;;;
          ret Refused
        else
          match matching_rows with
          | selected_row :: _ => ret (EditForm selected_row)
          | [] => raise (mk_exn IndexError "single positional indexer is out-of-bounds")
          end
      else ret NoSelection
  end.

(** [orders_page] as far as the choice of the order to edit. *)
Definition orders_page (username : option string)
    (customer_name product : Value) (quantity : Z) (submit_button : bool)
    (now : datetime) (selected_key : string) : M Selection :=
  show (st_title "Orders") ;;;
  show (st_subheader "Registrar novo pedido") ;;;
  _ <- order_form ;;
  register_order submit_button customer_name product quantity now ;;;
  orders_data <- data_get "orders" ;;
  match orders_data with
  | [] => ret NoSelection
  | _ =>
      show (st_subheader "All Orders") ;;;
      let columns := ["Client"; "Product"; "Quantity"; "Date"; "Status"] in
      show (st_dataframe columns orders_data) ;;;
      show (st_download_button "Download Orders CSV" "orders.csv") ;;;
      if decide (username = Some "admin")
      then edit_or_delete_section orders_data selected_key
      else ret NoSelection
  end.

(** ** Notions used in the statements *)

Open Scope list_scope.

(** The driver calls and the page output added between two states. *)
Definition new_events (w w' : World) : list Event :=
  drop (length (log w)) (log w').
Definition new_output (w w' : World) : list Ui :=
  drop (length (page w)) (page w').

(** The statements executed among some driver calls, each with the
    parameters it was given. *)
Definition statements (evs : list Event) : list (string * list Value) :=
  omap (λ ev, match ev with
              | Execute _ q vals => Some (q, vals)
              | _ => None
              end) evs.

Definition is_connect (ev : Event) : bool :=
  match ev with
  | Connect _ => true
  | _ => false
  end.

(** [run_query] on a connection [c] it was handed, in closed form: the
    state [finish] leaves, the four ways the [try] statement ends on an
    open connection, and the one way it ends on a connection that was
    closed: [conn.cursor()] raises, [conn.rollback()] in the handler raises
    again, the connection is closed once more and the exception goes to
    the caller. *)
Definition finish (c : nat) (evs : list Event) (out : list Ui) (db : Database)
    (w : World) : World :=
  mk_World (env w) db (connection_cache w) (<[c := false]> (connections w)) None
           (data_cache w) (session_data w) (log w ++ evs) (page w ++ out).

Definition query_error (e : Exn) : Ui :=
  st_error ("Erro ao executar a consulta: " +:+ exn_message e).

Definition on_connection (c : nat) (q : string) (vals : list Value)
    (commit : bool) (w : World) : Res QueryResult * World :=
  let failed e :=
    (Return QNone,
     finish c [Execute c q vals; Rollback c; Close c] [query_error e]
            (database w) w) in
  if is_open c w then
    match execute_raises (env w) q vals with
    | Some e => failed e
    | None =>
        match execute (database w) q vals with
        | None => failed (mk_exn ProgrammingError "statement refused")
        | Some (cur, db') =>
            if commit then
              (Return QTrue,
               finish c [Execute c q vals; Commit c; Close c] [] db' w)
            else
              match cur with
              | ResultSet rows =>
                  (Return (QRows rows),
                   finish c [Execute c q vals; Fetchall c; Close c] []
                          (database w) w)
              | NoResultSet =>
                  (Return QNone,
                   finish c [Execute c q vals; Fetchall c; Rollback c; Close c]
                          [query_error
                             (mk_exn ProgrammingError "no results to fetch")]
                          (database w) w)
              end
        end
    end
  else
    (Raise already_closed, finish c [Rollback c; Close c] [] (database w) w).

(** [get_db_connection] in closed form: the state after a connection was
    made and stored, after [OperationalError] was caught and [None]
    stored, and after a hit of the cache. *)
Definition connected (w : World) : World :=
  mk_World (env w) (database w) (Some (Some (length (connections w))))
           (connections w ++ [true]) (transaction w) (data_cache w)
           (session_data w) (log w ++ [Connect (length (connections w))])
           (page w).

Definition unreachable (w : World) : World :=
  mk_World (env w) (database w) (Some None) (connections w) (transaction w)
           (data_cache w) (session_data w) (log w)
           (page w ++ [st_error connection_error_text]).

Definition hit (v : option nat) (w : World) : World :=
  set_page (page w ++ replayed v) w.

(** Whether a call of [run_query] made in state [w] gets its statement to
    the server: it is handed a connection, and the connection is open. *)
Definition executes (w : World) : bool :=
  match get_db_connection w with
  | (Return (Some c), w1) => is_open c w1
  | _ => false
  end.

(** The caller of [run_query] gets a value back. *)
Definition returns_to_caller (q : string) (vals : list Value) (commit : bool)
    (w : World) : Prop :=
  ∃ r, (run_query q vals commit w).1 = Return r.

(** The connection a call of [run_query] works on and closes was opened by
    that call. *)
Definition opens_its_connection (q : string) (vals : list Value) (commit : bool)
    (w : World) : Prop :=
  ∀ c, Close c ∈ new_events w (run_query q vals commit w).2 →
       Connect c ∈ new_events w (run_query q vals commit w).2.

(** What a read makes of a statement once it has a connection: the rows,
    or [None] when the statement raised (and was rolled back). *)
Definition answer (e : Env) (db : Database) (q : string) (vals : list Value)
  : QueryResult :=
  match execute_raises e q vals with
  | Some _ => QNone
  | None =>
      match execute db q vals with
      | Some (ResultSet rows, _) => QRows rows
      | _ => QNone
      end
  end.

(** What a call of [run_query] hands to its caller when its statement
    does not get to the server: the exception of the connection attempt,
    [None] when there is no connection, and the exception of the closed
    connection otherwise. *)
Definition idle_result (w : World) : Res QueryResult :=
  match (get_db_connection w).1 with
  | Raise e => Raise e
  | Return None => Return QNone
  | Return (Some _) => Raise already_closed
  end.

(** What [run_query q vals False] hands to its caller in state [w]. *)
Definition read_result (w : World) (q : string) (vals : list Value)
  : Res QueryResult :=
  if executes w then Return (answer (env w) (database w) q vals)
  else idle_result w.

(** The error [load_all_data] reports when one of its queries raises. *)
Definition load_error (e : Exn) : Ui :=
  st_error ("Erro ao carregar os dados: " +:+ exn_message e).

(** The dictionary [load_all_data] builds in state [w], in closed form.
    Without a connection every query returns [None] and every dataset is
    empty.  With a connection the first query closes it and the second
    raises, so the dictionary holds the orders at most; and it holds
    nothing when the first query raised, which it does whenever the
    connection it is handed was closed by an earlier call. *)
Definition snapshot_of (w : World) : Data :=
  if executes w
  then <["orders" := or_empty (answer (env w) (database w) orders_query [])]> ∅
  else
    match (get_db_connection w).1 with
    | Return None =>
        <["stock" := []]>
          (<["clients" := []]> (<["products" := []]> (<["orders" := []]> ∅)))
    | _ => ∅
    end.

(** The statements a fetch of the snapshot executes in state [w]: the
    first of the four, when it gets to the server. *)
Definition fetch_statements (w : World) : list (string * list Value) :=
  if executes w then [(orders_query, [])] else [].

(** What the stock summary is said to do on an empty view: show a table
    without rows and report the total [0]. *)
Definition stock_total_line (n : Z) : Ui :=
  st_markdown ("**Total Geral (Stock vs. Orders):** " +:+ pretty n).

Definition shows_empty_table_and_zero_total (w : World) : Prop :=
  let out := new_output w (stock_vs_orders_summary w).2 in
  (∃ columns, st_table columns [] ∈ out) ∧ stock_total_line 0 ∈ out.

(** The key the edit-or-delete section gives to the row of an order. *)
Definition order_key (o : Pedido.row) : string :=
  Pedido.Cliente o +:+ "|" +:+ Pedido.Produto o +:+ "|"
  +:+ strftime (Pedido.Data o).

(** The exception [cursor.execute] raises on a statement that gets to the
    server, if it does: the one the environment injects, or the server's
    refusal. *)
Definition execution_fails (w : World) (q : string) (vals : list Value)
  : option Exn :=
  match execute_raises (env w) q vals with
  | Some e => Some e
  | None =>
      match execute (database w) q vals with
      | None => Some (mk_exn ProgrammingError "statement refused")
      | Some _ => None
      end
  end.

(** The three constraints of the order form, and what it would mean for
    the page to tell the caller which of them a refused submission
    failed: the constraint could be read off the output, and would be one
    the submission violates. *)
Inductive Constraint :=
| ClientMissing
| ProductMissing
| QuantityNotPositive.

Definition violated (k : Constraint) (customer_name product : Value)
    (quantity : Z) : Prop :=
  match k with
  | ClientMissing => value_truthy customer_name = false
  | ProductMissing => value_truthy product = false
  | QuantityNotPositive => (quantity ≤ 0)%Z
  end.

Definition invalid (customer_name product : Value) (quantity : Z) : Prop :=
  value_truthy customer_name = false ∨ value_truthy product = false
  ∨ (quantity ≤ 0)%Z.

Definition tells_which_constraint (w : World) : Prop :=
  ∃ told : list Ui → Constraint,
    ∀ customer_name product quantity now,
      invalid customer_name product quantity →
      violated
        (told (new_output w
                 (register_order true customer_name product quantity now w).2))
        customer_name product quantity.


(** Every statement the computation [m] executes, in whatever state it is
    run, has its text in [L]. *)
Definition texts_within (L : list string) {A} (m : M A) : Prop :=
  ∀ w, ∃ evs, log (m w).2 = log w ++ evs
              ∧ Forall (λ s : string * list Value, s.1 ∈ L) (statements evs).


(** A driver call that neither opens a connection nor executes a
    statement. *)
Definition quiet (ev : Event) : Prop :=
  match ev with
  | Connect _ | Execute _ _ _ => False
  | _ => True
  end.

(** ** Sample states *)

Definition noon : datetime := mk_datetime 2024 5 17 12 0 0 0.
Definition evening : datetime := mk_datetime 2024 5 17 19 30 0 0.

Definition club_database : Database :=
  mk_Database
    [Pedido.mk "Ana" "Water" 2 noon "em aberto"]
    [Products.mk "Fonte" "Water" 10 2 20 noon "Bebidas" "Still water" 3]
    ["Ana"; "Bia"]
    [Estoque.mk "Water" 10 "Entrada" noon]
    [PedidoProduto.mk "Ana" 6 "em aberto"]
    [StockVsOrders.mk "Water" 10 2 8].

(** One frame [sort_values] may return: the rows by decreasing number in
    the column, rows that tie in the order they had. *)
Definition largest_first (i : nat) (r s : Row) : Prop :=
  (int_of (cell i s) ≤ int_of (cell i r))%Z.

#[local] Instance largest_first_dec i r s : Decision (largest_first i r s).
Proof. unfold largest_first. apply _. Defined.

Definition stable_descending (i : nat) (rows : list Row) : list Row :=
  merge_sort (largest_first i) rows.

(** A server that is reachable and runs every statement it understands; a
    PDF is made of every frame. *)
Definition reliable : Env :=
  mk_Env None (λ _ _, None) stable_descending (λ _ _, None).

(** [st.secrets] lacks the [db] section: the lookup raises [KeyError]. *)
Definition misconfigured : Env :=
  mk_Env (Some (mk_exn KeyError "db")) (λ _ _, None)
         stable_descending (λ _ _, None).

(** A server that refuses the [INSERT] (a constraint is violated). *)
Definition constrained : Env :=
  mk_Env None
    (λ q _, if String.eqb q insert_query
            then Some (mk_exn IntegrityError "violates check constraint")
            else None)
    stable_descending (λ _ _, None).

(** A process that has made no call yet. *)
Definition fresh_process (e : Env) (db : Database) : World :=
  mk_World e db None [] None None ∅ [] [].

(** The process after its first query. *)
Definition after_first_query : World :=
  (run_query orders_query [] false (fresh_process reliable club_database)).2.

(** The club's database with nothing in the stock-vs-orders view. *)
Definition no_stock_database : Database :=
  mk_Database (tb_pedido club_database) (tb_products club_database)
              (tb_clientes club_database) (tb_estoque club_database)
              (vw_pedido_produto club_database) [].

Definition empty_view_process : World :=
  fresh_process reliable no_stock_database.

(** Two orders of the same client for the same product at the same time. *)
Definition first_water : Pedido.row := Pedido.mk "Ana" "Water" 2 noon "em aberto".
Definition second_water : Pedido.row := Pedido.mk "Ana" "Water" 5 noon "em aberto".

(** The parameters of an order of Bia. *)
Definition order_of_bia : list Value :=
  [VStr "Bia"; VStr "Water"; VInt 1; VTime evening].

(** ** UTILIDADES / HELPERS *)

(** The three characters [format_currency] replaces: [,], [.] and [X]. *)
Definition comma : Ascii.ascii := Ascii.ascii_of_nat 44.
Definition point : Ascii.ascii := Ascii.ascii_of_nat 46.
Definition letter_X : Ascii.ascii := Ascii.ascii_of_nat 88.

(** [s.replace(old, new)] for an [old] and a [new] of one character. *)
Fixpoint replace_char (old new : Ascii.ascii) (s : string) : string :=
  match s with
  | EmptyString => EmptyString
  | String a s' =>
      String (if Ascii.eqb a old then new else a) (replace_char old new s')
  end.

(** [format_currency(value)].  [fixed2 value] is the text Python makes
    of [{value:,.2f}]: the digits with a comma between the thousands and a
    point before the two decimals. *)
Definition format_currency (fixed2 : Value → string) (value : Value) : string :=
  replace_char letter_X point
    (replace_char point comma
       (replace_char comma letter_X ("R$ " +:+ fixed2 value))).

(** *** [upload_pdf_to_fileio] *)

(** A decoded JSON document. *)
#[warnings="-register-all"]
Inductive JValue :=
| JNull
| JBool (b : bool)
| JNum (z : Z)
| JStr (s : string)
| JArr (items : list JValue)
| JObj (fields : gmap string JValue).

(** Python's truth value of a decoded JSON document. *)
Definition json_truthy (v : JValue) : bool :=
  match v with
  | JNull => false
  | JBool b => b
  | JNum z => negb (z =? 0)%Z
  | JStr s => negb (String.eqb s "")
  | JArr items => match items with [] => false | _ => true end
  | JObj fields => negb (bool_decide (fields = ∅))
  end.

(** [v.get(key, fallback)]: only a dictionary has [get]. *)
Definition json_get (v : JValue) (key : string) (fallback : JValue)
  : Res JValue :=
  match v with
  | JObj fields => Return (default fallback (fields !! key))
  | _ => Raise (mk_exn AttributeError "object has no attribute 'get'")
  end.

(** What [requests.post] returns: the status code and what
    [response.json()] gives, a document or an exception. *)
Record Response := mk_Response {
  status_code : Z;
  json : Res JValue }.

(** A call whose outcome the environment decides. *)
Definition lift {A} (r : Res A) : M A := λ w, (r, w).

(** [upload_pdf_to_fileio(pdf_bytes)]; [requests_post] is what the
    service answers to the posted file, or the exception of the request. *)
Definition upload_pdf_to_fileio (requests_post : string → Res Response)
    (pdf_bytes : string) : M JValue :=
  try_except
    (response <- lift (requests_post pdf_bytes) ;;
     if (status_code response =? 200)%Z then
       json_resp <- lift (json response) ;;
       success <- lift (json_get json_resp "success" JNull) ;;
       if json_truthy success then
         lift (json_get json_resp "link" (JStr ""))
       else
         show (st_error "Falha no upload do arquivo (file.io não retornou sucesso).") ;;;
         ret (JStr "")
     else
       show (st_error "Erro ao conectar com o serviço file.io.") ;;;
       ret (JStr ""))
    (λ e,
       show (st_error ("Erro ao fazer upload do arquivo: " +:+ exn_message e)) ;;;
       ret (JStr "")).

(** *** [events_calendar_page] *)

(** A [datetime.date] is the number of its day ([toordinal]), in [Z]:
    adding a [timedelta] of [i] days adds [i], dates compare as their
    numbers. *)
Module Evento.
Record row := mk {
  Nome : string; Data : Z; Descricao : string; Inscricao_Aberta : bool }.
End Evento.

(** The inner function [fetch_events]: three events from [start_date] on. *)
Definition fetch_events (start_date end_date : Z) : list Evento.row :=
  [Evento.mk "Torneio de Beach Tennis" (start_date + 0)
     "Torneio aberto com premiação para os três primeiros colocados." true;
   Evento.mk "Aula de Estratégia de Jogo" (start_date + 1)
     "Aula com foco em técnicas avançadas de jogo." true;
   Evento.mk "Noite de Integração" (start_date + 2)
     "Um encontro social para todos os membros do clube." false].

(** [for x in l: body x] *)
Fixpoint for_each {A} (l : list A) (body : A → M unit) : M unit :=
  match l with
  | [] => ret ()
  | x :: l' => body x ;;; for_each l' body
  end.

(** [events_calendar_page].  [start_date] and [end_date] are what the two
    date inputs return, [clicked key] is what the button with that key
    returns, [strftime_dmy] is [strftime('%d/%m/%Y')]. *)
Definition events_calendar_page (strftime_dmy : Z → string)
    (start_date end_date : Z) (clicked : string → bool) : M unit :=
  show (st_title "Calendário de Eventos") ;;;
  if (end_date <? start_date)%Z then
    show (st_error "A data de início deve ser anterior à data de término.")
  else
    let events_df := fetch_events start_date end_date in
    match events_df with
    | _ :: _ =>
        for_each events_df (λ row,
          show (st_subheader (Evento.Nome row +:+ " ("
                              +:+ strftime_dmy (Evento.Data row) +:+ ")")) ;;;
          show (st_write ("Descrição: " +:+ Evento.Descricao row)) ;;;
          if Evento.Inscricao_Aberta row then
            if clicked (Evento.Nome row) then
              show (st_success ("Inscrição confirmada para "
                                +:+ Evento.Nome row +:+ "!"))
            else ret ()
          else
            show (st_info "Inscrições encerradas para este evento."))
    | [] => show (st_write "Não há eventos programados para este período.")
    end.

(** *** [settings_page] and [loyalty_program_page] *)

(** The entries of [st.session_state] these two pages read and write;
    [None] is an entry that is not there. *)
Record Session := mk_Session {
  ss_username : option string;
  ss_theme : option string;
  ss_points : option Z }.

(** [settings_page].  [new_username] is the text of the input (offered
    only when the session has a user name), [theme_choice] the radio
    choice, the two booleans what the two buttons return.  The result is
    the session and what was written to the page. *)
Definition settings_page (new_username : string) (save_username : bool)
    (theme_choice : string) (save_preferences : bool) (s : Session)
  : Session * list Ui :=
  let account :=
    match ss_username s with
    | Some _ =>
        if save_username then
          (mk_Session (Some new_username) (ss_theme s) (ss_points s),
           [st_success "Nome de usuário atualizado!"])
        else (s, [])
    | None => (s, [])
    end in
  let preferences :=
    if save_preferences then
      (mk_Session (ss_username account.1) (Some theme_choice)
                  (ss_points account.1),
       [st_success "Preferências salvas!"])
    else (account.1, []) in
  (preferences.1,
   [st_title "Configurações e Ajustes"; st_subheader "Ajustes de Conta"]
   ++ account.2 ++ [st_subheader "Preferências do Aplicativo"]
   ++ preferences.2).

(** [loyalty_program_page].  [points_earned] is what the number input
    returns, the two booleans what the buttons [Adicionar Pontos] and
    [Resgatar Prêmio] return. *)
Definition loyalty_program_page (points_earned : Z) (add redeem : bool)
    (s : Session) : Session * list Ui :=
  let points0 := default 0%Z (ss_points s) in
  let added :=
    if add then
      ((points0 + points_earned)%Z,
       [st_success ("Pontos adicionados com sucesso! Total de pontos: "
                    +:+ pretty (points0 + points_earned)%Z)])
    else (points0, []) in
  let redeemed :=
    if redeem then
      if (100 <=? added.1)%Z then
        ((added.1 - 100)%Z, [st_success "Prêmio resgatado com sucesso!"])
      else (added.1, [st_error "Pontos insuficientes para resgate."])
    else (added.1, []) in
  (mk_Session (ss_username s) (ss_theme s) (Some redeemed.1),
   [st_title "Programa de Fidelidade";
    st_subheader "Acumule pontos a cada compra!"]
   ++ added.2 ++ redeemed.2).

(** ** Notions used in the further properties *)

(** Whether a character occurs in a string, and a string with every
    character replaced. *)
Fixpoint contains (a : Ascii.ascii) (s : string) : bool :=
  match s with
  | EmptyString => false
  | String b s' => Ascii.eqb b a || contains a s'
  end.

Fixpoint string_map (f : Ascii.ascii → Ascii.ascii) (s : string) : string :=
  match s with
  | EmptyString => EmptyString
  | String a s' => String (f a) (string_map f s')
  end.

(** A comma becomes a point and a point a comma. *)
Definition swap_separators (a : Ascii.ascii) : Ascii.ascii :=
  if Ascii.eqb a comma then point
  else if Ascii.eqb a point then comma
  else a.

(** The confirmation the calendar writes for an event, and the
    confirmations among what a page shows. *)
Definition confirmation (name : string) : Ui :=
  st_success ("Inscrição confirmada para " +:+ name +:+ "!").

Definition is_success (u : Ui) : bool :=
  match u with
  | st_success _ => true
  | _ => false
  end.

Definition is_error (u : Ui) : bool :=
  match u with
  | st_error _ => true
  | _ => false
  end.

(** Everything the computation [m] writes to the page, in whatever state
    it is run, satisfies [P]; every value it returns satisfies [Q]. *)
Definition writes (P : Ui → Prop) {A} (m : M A) : Prop :=
  ∀ w, ∃ out, page (m w).2 = page w ++ out ∧ Forall P out.

Definition yields {A} (Q : A → Prop) (m : M A) : Prop :=
  ∀ w a, (m w).1 = Return a → Q a.

(** The same process in another environment. *)
Definition set_env (e : Env) (w : World) : World :=
  mk_World e (database w) (connection_cache w) (connections w) (transaction w)
           (data_cache w) (session_data w) (log w) (page w).

(** The number of distinct clients that have an order with the given
    status. *)
Definition clients_with_status (st : string) (db : Database) : Z :=
  Z.of_nat (length (remove_dups
    (Pedido.Cliente <$> filter (λ r, Pedido.status r = st) (tb_pedido db)))).

(** What a page without the administrator's parts may show: no table, no
    data frame, no download, no heading of a summary. *)
Definition plain (u : Ui) : Prop :=
  match u with
  | st_title _ | st_write _ | st_success _ | st_info _ | st_error _ => True
  | _ => False
  end.

(** Two time stamps of the same second. *)
Definition same_second (t u : datetime) : Prop :=
  year t = year u ∧ month t = month u ∧ day t = day u
  ∧ hour t = hour u ∧ minute t = minute u ∧ second t = second u.

(** The heading of the edit-or-delete section. *)
Definition edit_heading : Ui :=
  st_subheader "Edit or Delete an Existing Order".

(** The notification of the home page for [n] clients with an open
    order. *)
Definition notification (n : Z) : Ui :=
  if (0 <? n)%Z
  then st_success ("Há " +:+ pretty n +:+ " clientes com pedidos em aberto!")
  else st_info "Nenhum cliente com pedido em aberto no momento.".

(** The two lines every home page starts with. *)
Definition home_heading : list Ui :=
  [st_title "🎾 Boituva Beach Club 🎾";
   st_write "📍 Av. Do Trabalhador, 1879 — 🏆 5° Open BBC"].

(** Run in a state in which no statement gets to the server, the
    computation [m] executes none, leaves the database as it was and ends
    in such a state. *)
Definition idle {A} (m : M A) : Prop :=
  ∀ w, executes w = false →
       (∃ evs, log (m w).2 = log w ++ evs ∧ statements evs = [])
       ∧ database (m w).2 = database w
       ∧ executes (m w).2 = false.

(** What the menu shows when it lists no product. *)
Definition no_product_line (u : Ui) : Prop :=
  u = st_title "Cardápio" ∨ is_error u = true
  ∨ u = st_warning "Nenhum produto encontrado para esta categoria.".

(** The computation [m] gets at most the statement [q] with the parameters
    [vals] to the server, exactly when its first query does get there; it
    leaves the database as it was and ends in a state in which no
    statement gets to the server. *)
Definition first_query (q : string) (vals : list Value) {A} (m : M A) : Prop :=
  ∀ w, (∃ evs, log (m w).2 = log w ++ evs
               ∧ statements evs = (if executes w then [(q, vals)] else []))
       ∧ database (m w).2 = database w
       ∧ executes (m w).2 = false.

(** A computation that changes the page at most and returns. *)
Definition page_only {A} (m : M A) : Prop :=
  ∀ w, ∃ a p, m w = (Return a, set_page p w).

(** ** Further sample states *)

(** An answer of the file-hosting service: a success without a link. *)
Definition success_without_link (_ : string) : Res Response :=
  Return (mk_Response 200 (Return (JObj {["success" := JBool true]}))).

(** A session of an ordinary user with some points. *)
Definition session_of_ana : Session := mk_Session (Some "ana") None (Some 120%Z).

(** A server that cannot be reached. *)
Definition unreachable_server : Env :=
  mk_Env (Some (mk_exn OperationalError "could not connect to server"))
         (λ _ _, None) stable_descending (λ _ _, None).

(** Two orders of Ana for water registered within one second. *)
Definition water_at_noon : Pedido.row :=
  Pedido.mk "Ana" "Water" 1 (mk_datetime 2024 5 17 12 0 0 100) "em aberto".
Definition more_water_at_noon : Pedido.row :=
  Pedido.mk "Ana" "Water" 3 (mk_datetime 2024 5 17 12 0 0 900) "em aberto".
Definition beer_at_noon : Pedido.row :=
  Pedido.mk "Bob" "Beer" 1 (mk_datetime 2024 5 17 12 0 0 100) "em aberto".

(** * Properties *)

Ltac unfold_monad :=
  cbv [run_query get_db_connection cache_resource get_db_connection_body
       try_except try_finally bind ret raise psycopg2_connect conn_cursor
       cursor_execute conn_commit cursor_fetchall conn_rollback conn_close
       emit show
       set_database set_connection_cache set_connections set_transaction
       set_data_cache set_session_data set_log set_page
       env database connection_cache connections transaction data_cache
       session_data log page].

Lemma bind_show_eq {A} u (k : M A) w :
  (show u ;;; k) w = k (set_page (page w ++ [u]) w).
Proof. reflexivity. Qed.

(** ** The connection *)

Lemma set_page_same w : set_page (page w ++ []) w = w.
Proof. destruct w. unfold set_page. simpl. by rewrite app_nil_r. Qed.

Lemma get_db_connection_eq w :
  get_db_connection w =
  match connection_cache w with
  | Some v => (Return v, hit v w)
  | None =>
      match connect_raises (env w) with
      | None => (Return (Some (length (connections w))), connected w)
      | Some e =>
          if decide (exn_class e = OperationalError)
          then (Return None, unreachable w)
          else (Raise e, w)
      end
  end.
Proof.
  destruct w as [en db cc cs tx dc sd lg pg].
  unfold connected, unreachable, hit. unfold_monad.
  destruct cc as [v|]; [reflexivity|].
  destruct (connect_raises en) as [e|]; [|reflexivity].
  destruct (decide (exn_class e = OperationalError)); reflexivity.
Qed.

Lemma get_db_connection_cached w c :
  connection_cache w = Some (Some c) →
  get_db_connection w = (Return (Some c), w).
Proof.
  intros H. rewrite get_db_connection_eq, H. unfold hit. simpl.
  by rewrite set_page_same.
Qed.

(** What a call of [get_db_connection] that returns wrote is what a later
    call writes again. *)
Lemma get_db_connection_body_writes w v w' :
  get_db_connection_body w = (Return v, w') →
  page w' = page w ++ replayed v.
Proof.
  destruct w as [en db cc cs tx dc sd lg pg]. unfold_monad.
  destruct (connect_raises en) as [e|].
  - destruct (decide (exn_class e = OperationalError)); [|discriminate].
    by intros [= <- <-].
  - intros [= <- <-]. simpl. by rewrite app_nil_r.
Qed.

(** What [get_db_connection] leaves alone, and what it stores. *)
Lemma get_db_connection_frame w :
  env (get_db_connection w).2 = env w
  ∧ database (get_db_connection w).2 = database w
  ∧ data_cache (get_db_connection w).2 = data_cache w
  ∧ session_data (get_db_connection w).2 = session_data w
  ∧ (∀ v, (get_db_connection w).1 = Return v →
          connection_cache (get_db_connection w).2 = Some v
          ∧ page (get_db_connection w).2 = page w ++ replayed v)
  ∧ (∀ e, (get_db_connection w).1 = Raise e → get_db_connection w = (Raise e, w))
  ∧ ∃ pre, log (get_db_connection w).2 = log w ++ pre ∧ statements pre = [].
Proof.
  rewrite get_db_connection_eq.
  destruct (connection_cache w) as [v|] eqn:Hc; simpl.
  { do 4 (split; [done|]). split; [by intros ? [= <-]|]. split; [done|].
    exists []. by rewrite app_nil_r. }
  destruct (connect_raises (env w)) as [e|]; simpl.
  - destruct (decide (exn_class e = OperationalError)); simpl.
    + do 4 (split; [done|]). split; [by intros ? [= <-]|]. split; [done|].
      exists []. by rewrite app_nil_r.
    + do 4 (split; [done|]). split; [done|].
      split; [by intros ? [= <-]|]. exists []. by rewrite app_nil_r.
  - do 4 (split; [done|]). split.
    { intros ? [= <-]. simpl. by rewrite app_nil_r. }
    split; [done|]. by eexists.
Qed.

(** ** [run_query] in closed form *)

Lemma run_query_on_connection q vals commit w :
  run_query q vals commit w =
  match get_db_connection w with
  | (Raise e, w1) => (Raise e, w1)
  | (Return None, w1) => (Return QNone, w1)
  | (Return (Some c), w1) => on_connection c q vals commit w1
  end.
Proof.
  unfold run_query at 1, bind at 1.
  destruct (get_db_connection w) as [[[c|]|e] w1]; try reflexivity.
  unfold on_connection, finish, query_error.
  destruct w1 as [en db cc cs tx dc sd lg pg].
  unfold_monad. unfold is_open. simpl.
  destruct (cs !! c) as [[|]|] eqn:Hopen; simpl; rewrite ?Hopen; simpl;
    try (rewrite <- ?List.app_assoc, ?List.app_nil_r; reflexivity).
  destruct (execute_raises en q vals) as [e|]; simpl; rewrite ?Hopen; simpl.
  { rewrite <- ?List.app_assoc. reflexivity. }
  destruct (execute db q vals) as [[cur db']|]; simpl; rewrite ?Hopen; simpl.
  2: { rewrite <- ?List.app_assoc. reflexivity. }
  destruct commit; simpl; rewrite ?Hopen; simpl.
  { rewrite <- ?List.app_assoc, ?List.app_nil_r. reflexivity. }
  destruct cur; simpl; rewrite ?Hopen; simpl;
    rewrite <- ?List.app_assoc, ?List.app_nil_r; reflexivity.
Qed.

Lemma new_events_app w w' evs :
  log w' = log w ++ evs → new_events w w' = evs.
Proof. unfold new_events. intros ->. apply drop_app_length. Qed.

Lemma new_output_app w w' out :
  page w' = page w ++ out → new_output w w' = out.
Proof. unfold new_output. intros ->. apply drop_app_length. Qed.

Lemma statements_app evs evs' :
  statements (evs ++ evs') = statements evs ++ statements evs'.
Proof. apply omap_app. Qed.

Lemma statements_quiet mid : Forall quiet mid → statements mid = [].
Proof.
  induction 1 as [|ev mid Hev _ IH]; [reflexivity|].
  destruct ev; simpl in *; try done.
Qed.

Lemma filter_is_connect_quiet mid :
  Forall quiet mid → filter (λ ev, is_connect ev = true) mid = [].
Proof.
  induction 1 as [|ev mid Hev _ IH]; [reflexivity|].
  rewrite filter_cons_False; [exact IH|].
  destruct ev; simpl in *; try done.
Qed.

(** The state [on_connection] leaves.  On an open connection: the
    statement, then calls that are neither [Connect] nor [Execute], then
    [Close].  On a closed one: no statement. *)
Lemma on_connection_world c q vals commit w :
  ∃ mid out db,
    (on_connection c q vals commit w).2
    = finish c ((if is_open c w then [Execute c q vals] else [])
                ++ mid ++ [Close c]) out db w
    ∧ Forall quiet mid
    ∧ Forall (λ u, is_error u = true) out
    ∧ (commit = false → db = database w)
    ∧ ((on_connection c q vals commit w).1 ≠ Return QTrue → db = database w).
Proof.
  unfold on_connection.
  destruct (is_open c w).
  2: { exists [Rollback c], [], (database w). repeat split; auto.
       repeat constructor. }
  destruct (execute_raises (env w) q vals).
  { exists [Rollback c]. do 2 eexists. repeat split; auto; repeat constructor. }
  destruct (execute (database w) q vals) as [[cur db']|].
  2: { exists [Rollback c]. do 2 eexists. repeat split; auto; repeat constructor. }
  destruct commit.
  { exists [Commit c]. do 2 eexists.
    repeat split; auto; [repeat constructor|done|done]. }
  destruct cur.
  - exists [Fetchall c]. do 2 eexists. repeat split; auto; repeat constructor.
  - exists [Fetchall c; Rollback c]. do 2 eexists.
    repeat split; auto; repeat constructor.
Qed.

(** What [on_connection] returns: on an open connection a value, by the
    commit flag; on a closed one the exception. *)
Lemma on_connection_result c q vals commit w :
  if is_open c w then
    ∃ r, (on_connection c q vals commit w).1 = Return r
         ∧ (r = QNone ∨ (commit = true ∧ r = QTrue)
            ∨ (commit = false ∧ ∃ rows, r = QRows rows))
  else (on_connection c q vals commit w).1 = Raise already_closed.
Proof.
  unfold on_connection.
  destruct (is_open c w); [|reflexivity].
  destruct (execute_raises (env w) q vals); [eexists; split; [done|by left]|].
  destruct (execute (database w) q vals) as [[cur db']|];
    [|eexists; split; [done|by left]].
  destruct commit; [eexists; split; [done|by right; left]|].
  destruct cur; eexists; (split; [done|]); [right; right; eauto|by left].
Qed.

Lemma is_open_closed c cs w :
  connections w = <[c := false]> cs → is_open c w = false.
Proof.
  intros H. unfold is_open. rewrite H.
  destruct (decide (c < length cs)%nat).
  - by rewrite list_lookup_insert_eq.
  - rewrite list_insert_ge by lia. by rewrite lookup_ge_None_2 by lia.
Qed.

Lemma is_open_in_range c w : is_open c w = true → (c < length (connections w))%nat.
Proof.
  unfold is_open. destruct (connections w !! c) as [b|] eqn:H; [|done].
  intros _. by eapply lookup_lt_Some.
Qed.

(** A state change that [get_db_connection] does not look at commutes
    with it. *)
Lemma get_db_connection_set_page p w :
  (get_db_connection (set_page p w)).1 = (get_db_connection w).1
  ∧ executes (set_page p w) = executes w.
Proof.
  unfold executes. rewrite !get_db_connection_eq.
  destruct w as [en db cc cs tx dc sd lg pg]. simpl.
  destruct cc as [[c|]|]; try done.
  destruct (connect_raises en) as [e|]; [|done].
  by destruct (decide (exn_class e = OperationalError)).
Qed.

Lemma get_db_connection_set_data_cache d w :
  get_db_connection (set_data_cache d w)
  = ((get_db_connection w).1, set_data_cache d (get_db_connection w).2).
Proof.
  rewrite !get_db_connection_eq.
  destruct w as [en db cc cs tx dc sd lg pg]. simpl.
  destruct cc as [v|]; [reflexivity|].
  destruct (connect_raises en) as [e|]; [|reflexivity].
  by destruct (decide (exn_class e = OperationalError)).
Qed.

Lemma executes_set_data_cache d w :
  executes (set_data_cache d w) = executes w.
Proof.
  unfold executes. rewrite get_db_connection_set_data_cache.
  by destruct (get_db_connection w) as [[[c|]|e] w1].
Qed.

(** *** What a call of [run_query] does, by whether its statement gets to
    the server *)

(** After any call of [run_query] the next one is handed what this one
    was, and its statement does not get to the server: the connection, if
    there is one, is closed. *)
Lemma run_query_exhausts q vals commit w :
  let w' := (run_query q vals commit w).2 in
  (get_db_connection w').1 = (get_db_connection w).1
  ∧ executes w' = false.
Proof.
  intros w'. subst w'. rewrite run_query_on_connection.
  destruct (get_db_connection_frame w) as (_ & _ & _ & _ & Hcache & Hraise & _).
  unfold executes.
  destruct (get_db_connection w) as [[[c|]|e] w1] eqn:Hg; simpl in *.
  - destruct (Hcache _ eq_refl) as [Hc _].
    destruct (on_connection_world c q vals commit w1)
      as (mid & out & db & -> & _).
    rewrite (get_db_connection_cached _ c) by exact Hc.
    split; [reflexivity|]. by eapply is_open_closed.
  - destruct (Hcache _ eq_refl) as [Hc _].
    by rewrite get_db_connection_eq, Hc.
  - specialize (Hraise _ eq_refl). injection Hraise as <-. by rewrite Hg.
Qed.

(** What the call returns. *)
Lemma run_query_result q vals commit w :
  (run_query q vals commit w).1
  = if executes w
    then Return (match execution_fails w q vals with
                 | Some _ => QNone
                 | None =>
                     if commit then QTrue
                     else answer (env w) (database w) q vals
                 end)
    else idle_result w.
Proof.
  rewrite run_query_on_connection. unfold executes, idle_result.
  destruct (get_db_connection_frame w) as (He & Hd & _).
  destruct (get_db_connection w) as [[[c|]|e] w1]; simpl in *; try reflexivity.
  unfold on_connection, execution_fails, answer. rewrite He, Hd.
  destruct (is_open c w1); [|reflexivity].
  destruct (execute_raises (env w) q vals); [reflexivity|].
  destruct (execute (database w) q vals) as [[cur db']|]; [|reflexivity].
  destruct commit; [reflexivity|]. by destruct cur.
Qed.

(** What it executes: its statement, with the text and the parameters it
    was given, once if the statement gets to the server and not at all
    otherwise. *)
Lemma run_query_statements q vals commit w :
  ∃ evs, log (run_query q vals commit w).2 = log w ++ evs
         ∧ statements evs = (if executes w then [(q, vals)] else [])
         ∧ (connection_cache w ≠ None →
            filter (λ ev, is_connect ev = true) evs = []).
Proof.
  rewrite run_query_on_connection. unfold executes.
  assert (Hg : ∃ pre, log (get_db_connection w).2 = log w ++ pre
                      ∧ Forall quiet (filter (λ ev, is_connect ev = false) pre)
                      ∧ statements pre = []
                      ∧ (connection_cache w ≠ None → pre = [])).
  { rewrite get_db_connection_eq.
    destruct (connection_cache w) as [v|];
      [exists []; simpl; by rewrite app_nil_r|].
    destruct (connect_raises (env w)) as [e|].
    - destruct (decide (exn_class e = OperationalError));
        exists []; simpl; by rewrite app_nil_r.
    - eexists [_]. simpl. repeat split; [constructor|done]. }
  destruct Hg as (pre & Hpre & _ & Hst & Hnone).
  destruct (get_db_connection w) as [[[c|]|e] w1]; simpl in *.
  - destruct (on_connection_world c q vals commit w1)
      as (mid & out & db & -> & Hq & _).
    eexists. simpl. rewrite Hpre, <- app_assoc. split; [reflexivity|].
    rewrite !statements_app, Hst, (statements_quiet mid Hq). simpl.
    split; [by destruct (is_open c w1)|].
    intros Hc. rewrite (Hnone Hc). simpl.
    rewrite !filter_app, (filter_is_connect_quiet mid Hq).
    by destruct (is_open c w1).
  - exists pre. repeat split; auto. intros Hc. by rewrite (Hnone Hc).
  - exists pre. repeat split; auto. intros Hc. by rewrite (Hnone Hc).
Qed.

(** What it leaves alone, and what it writes. *)
Lemma run_query_frame q vals commit w :
  let w' := (run_query q vals commit w).2 in
  env w' = env w
  ∧ data_cache w' = data_cache w
  ∧ session_data w' = session_data w
  ∧ (commit = false → database w' = database w)
  ∧ ((run_query q vals commit w).1 ≠ Return QTrue → database w' = database w)
  ∧ ∃ out, page w' = page w ++ out ∧ Forall (λ u, is_error u = true) out.
Proof.
  intros w'. subst w'. rewrite run_query_on_connection.
  destruct (get_db_connection_frame w) as (He & Hd & Hdc & Hsd & Hcache & _).
  assert (Hpage : ∃ out0, page (get_db_connection w).2 = page w ++ out0
                          ∧ Forall (λ u, is_error u = true) out0).
  { destruct ((get_db_connection w).1) as [v|e] eqn:Hr.
    - destruct (Hcache _ eq_refl) as [_ Hp]. exists (replayed v).
      split; [exact Hp|]. destruct v; repeat constructor.
    - destruct (get_db_connection_frame w) as (_ & _ & _ & _ & _ & Hraise & _).
      rewrite (Hraise _ Hr). exists []. by rewrite app_nil_r. }
  destruct Hpage as (out0 & Hp0 & Hf0).
  destruct (get_db_connection w) as [[[c|]|e] w1]; simpl in *;
    try (do 5 (split; [done|]); by exists out0).
  destruct (on_connection_world c q vals commit w1)
    as (mid & out & db & Hw & _ & Hout & Hread & Hfail).
  rewrite Hw. simpl.
  do 3 (split; [done|]).
  split; [intros Hc; by rewrite Hread|].
  split; [intros Hr; by rewrite Hfail|].
  exists (out0 ++ out). rewrite Hp0, <- app_assoc.
  split; [done|by apply Forall_app].
Qed.

(** A read returns [read_result]. *)
Lemma run_query_read q vals w :
  (run_query q vals false w).1 = read_result w q vals.
Proof.
  rewrite run_query_result. unfold read_result, execution_fails, answer.
  destruct (executes w); [|reflexivity].
  destruct (execute_raises (env w) q vals); [reflexivity|].
  by destruct (execute (database w) q vals) as [[[rows|] db']|].
Qed.

(** A call whose statement does not get to the server: what it returns
    does not depend on the statement, nothing is executed and the database
    is as before. *)
Lemma run_query_idle q vals commit w :
  executes w = false →
  (run_query q vals commit w).1 = idle_result w
  ∧ statements (new_events w (run_query q vals commit w).2) = []
  ∧ database (run_query q vals commit w).2 = database w.
Proof.
  intros Hx. pose proof (run_query_result q vals commit w) as Hr.
  rewrite Hx in Hr. split; [exact Hr|].
  destruct (run_query_statements q vals commit w) as (evs & Hl & Hst & _).
  rewrite Hx in Hst. split; [by rewrite (new_events_app _ _ _ Hl)|].
  destruct (run_query_frame q vals commit w) as (_ & _ & _ & _ & Hdb & _).
  apply Hdb. rewrite Hr. unfold idle_result.
  by destruct ((get_db_connection w).1) as [[?|]|].
Qed.

Lemma executes_fresh_connection w :
  connection_cache w = None → connect_raises (env w) = None →
  executes w = true.
Proof.
  intros Hc He. unfold executes. rewrite get_db_connection_eq, Hc, He.
  unfold is_open, connected. simpl.
  by rewrite lookup_app_r, Nat.sub_diag by lia.
Qed.

Lemma executes_open w c :
  (get_db_connection w).1 = Return (Some c) →
  connections (get_db_connection w).2 !! c = Some true →
  executes w = true.
Proof.
  intros Hc Ho. unfold executes.
  destruct (get_db_connection w) as [r w1]. simpl in *. subst r.
  unfold is_open. by rewrite Ho.
Qed.

(** ** The executor returns to its caller *)

(** C10, as stated, fails when the connection cannot even be attempted:
    with no [db] section in the secrets the [KeyError] of the lookup is not
    an [OperationalError], [get_db_connection] lets it through and
    [run_query], which calls it outside its [try], does too. *)
Lemma run_query_propagates_KeyError :
  (run_query orders_query [] false (fresh_process misconfigured club_database)).1
  = Raise (mk_exn KeyError "db")
  ∧ ¬ returns_to_caller orders_query [] false
        (fresh_process misconfigured club_database).
Proof.
  assert (H : (run_query orders_query [] false
                 (fresh_process misconfigured club_database)).1
              = Raise (mk_exn KeyError "db")) by reflexivity.
  split; [exact H|].
  intros [r Hr]. rewrite H in Hr. discriminate.
Qed.

(** C10 (amended): whenever obtaining the connection does not raise
    anything but [OperationalError] (a connection or [None] is already
    cached, or [psycopg2.connect] returns or raises [OperationalError]),
    and the connection the call is handed, if it is a cached one, is open,
    [run_query] returns to its caller, and what it returns is [None], or
    [True] after a commit, or the fetched rows of a read. *)
Theorem run_query_total q vals commit w :
  (∀ e, connection_cache w = None → connect_raises (env w) = Some e →
        exn_class e = OperationalError) →
  (∀ c, connection_cache w = Some (Some c) → connections w !! c = Some true) →
  ∃ r, (run_query q vals commit w).1 = Return r
       ∧ (r = QNone ∨ (commit = true ∧ r = QTrue)
          ∨ (commit = false ∧ ∃ rows, r = QRows rows)).
Proof.
  intros Hconn Hopen.
  rewrite run_query_on_connection, get_db_connection_eq.
  destruct (connection_cache w) as [[c|]|] eqn:Hcache.
  - pose proof (on_connection_result c q vals commit (hit (Some c) w)) as Hr.
    assert (Ho : is_open c (hit (Some c) w) = true).
    { unfold is_open, hit. simpl. by rewrite (Hopen c eq_refl). }
    by rewrite Ho in Hr.
  - eexists; split; [reflexivity|]. by left.
  - destruct (connect_raises (env w)) as [e|] eqn:He.
    + rewrite decide_True by (by apply Hconn).
      eexists; split; [reflexivity|]. by left.
    + pose proof (on_connection_result (length (connections w)) q vals commit
                    (connected w)) as Hr.
      assert (Ho : is_open (length (connections w)) (connected w) = true).
      { unfold is_open, connected. simpl.
        by rewrite lookup_app_r, Nat.sub_diag by lia. }
      by rewrite Ho in Hr.
Qed.

(** ** The connection of a call *)

(** C2, as stated, fails on the second call of a process: the cache hands
    it the connection the first call opened, and the second call opens
    none. *)
Lemma second_call_opens_no_connection :
  head (log after_first_query) = Some (Connect 0)
  ∧ (get_db_connection after_first_query).1 = Return (Some 0%nat)
  ∧ filter (λ ev, is_connect ev = true)
      (new_events after_first_query
         (run_query clients_query [] false after_first_query).2) = []
  ∧ Close 0 ∈ new_events after_first_query
                (run_query clients_query [] false after_first_query).2
  ∧ ¬ opens_its_connection clients_query [] false after_first_query.
Proof.
  assert (Hev : new_events after_first_query
                  (run_query clients_query [] false after_first_query).2
                = [Rollback 0; Close 0])
    by (vm_compute; reflexivity).
  split; [reflexivity|]. split; [reflexivity|].
  rewrite Hev. split; [reflexivity|].
  split; [apply list_elem_of_In; simpl; auto|].
  intros H. specialize (H 0%nat). rewrite Hev in H.
  assert (Hin : Connect 0 ∈ [Rollback 0; Close 0])
    by (apply H, list_elem_of_In; simpl; auto).
  repeat (apply elem_of_cons in Hin as [Hin|Hin]; [discriminate|]).
  by apply elem_of_nil in Hin.
Qed.

(** C2 (amended): a call of [run_query] that is handed a connection closes
    it on every way out, after a statement that ran and after one that
    raised; but the connection is the one [get_db_connection] has cached
    for the process.  A call that finds a connection in the cache opens
    none and works on the cached object; only a call that finds the cache
    empty opens one, and stores it for the calls that follow. *)
Theorem run_query_connection q vals commit w :
  let w' := (run_query q vals commit w).2 in
  (∀ c, (get_db_connection w).1 = Return (Some c) →
        last (log w') = Some (Close c)
        ∧ connections w' = <[c := false]> (connections (get_db_connection w).2)
        ∧ transaction w' = None)
  ∧ (∀ c, connection_cache w = Some (Some c) →
          (get_db_connection w).1 = Return (Some c)
          ∧ filter (λ ev, is_connect ev = true) (new_events w w') = []
          ∧ length (connections w') = length (connections w)
          ∧ connection_cache w' = Some (Some c))
  ∧ (connection_cache w = None → connect_raises (env w) = None →
     (get_db_connection w).1 = Return (Some (length (connections w)))
     ∧ head (new_events w w') = Some (Connect (length (connections w)))
     ∧ connections w' !! length (connections w) = Some false
     ∧ connection_cache w' = Some (Some (length (connections w)))).
Proof.
  intros w'. subst w'.
  split; [|split].
  - intros c Hc. rewrite run_query_on_connection.
    destruct (get_db_connection w) as [[[c'|]|e] w1]; simpl in Hc; try discriminate.
    injection Hc as ->. simpl.
    destruct (on_connection_world c q vals commit w1) as (mid & out & db & -> & _).
    simpl. repeat split.
    rewrite !app_assoc. apply last_snoc.
  - intros c Hc.
    destruct (run_query_statements q vals commit w) as (evs & Hl & _ & Hnone).
    rewrite (new_events_app _ _ _ Hl), Hnone by (by rewrite Hc).
    rewrite run_query_on_connection, (get_db_connection_cached w c Hc).
    destruct (on_connection_world c q vals commit w) as (mid & out & db & -> & _).
    simpl. rewrite length_insert. auto.
  - intros Hc He. rewrite run_query_on_connection.
    rewrite get_db_connection_eq, Hc, He. simpl.
    destruct (on_connection_world (length (connections w)) q vals commit (connected w))
      as (mid & out & db & -> & _).
    split; [reflexivity|]. unfold new_events. simpl.
    rewrite <- app_assoc, drop_app_length.
    split; [reflexivity|]. split; [|reflexivity].
    rewrite list_lookup_insert_eq by (rewrite length_app; simpl; lia).
    reflexivity.
Qed.

(** ** The load of the snapshot *)

Lemma snapshot_of_ext w w' :
  env w' = env w → database w' = database w →
  (get_db_connection w').1 = (get_db_connection w).1 →
  executes w' = executes w →
  snapshot_of w' = snapshot_of w.
Proof. intros He Hd Hc Hx. unfold snapshot_of. by rewrite He, Hd, Hc, Hx. Qed.

Lemma fetch_statements_ext w w' :
  executes w' = executes w → fetch_statements w' = fetch_statements w.
Proof. intros Hx. unfold fetch_statements. by rewrite Hx. Qed.

(** One assignment [data[key] = run_query(q) or []] of the load made in a
    state in which the statement does not get to the server. *)
Lemma idle_query_step q w :
  executes w = false →
  let run := run_query q [] false w in
  run.1 = idle_result w
  ∧ env run.2 = env w ∧ database run.2 = database w
  ∧ data_cache run.2 = data_cache w ∧ session_data run.2 = session_data w
  ∧ (get_db_connection run.2).1 = (get_db_connection w).1
  ∧ executes run.2 = false
  ∧ (∃ evs, log run.2 = log w ++ evs ∧ statements evs = [])
  ∧ ∃ out, page run.2 = page w ++ out ∧ Forall (λ u, is_error u = true) out.
Proof.
  intros Hx run. subst run.
  destruct (run_query_idle q [] false w Hx) as (Hr & _ & _).
  destruct (run_query_frame q [] false w) as (He & Hdc & Hsd & Hdb & _ & Hout).
  destruct (run_query_exhausts q [] false w) as (Hc & Hx').
  destruct (run_query_statements q [] false w) as (evs & Hl & Hst & _).
  rewrite Hx in Hst. repeat split; eauto.
Qed.

(** [load_all_data]'s body in closed form. *)
Lemma load_all_data_body_spec w :
  let run := load_all_data_body w in
  run.1 = Return (snapshot_of w)
  ∧ env run.2 = env w ∧ database run.2 = database w
  ∧ data_cache run.2 = data_cache w ∧ session_data run.2 = session_data w
  ∧ (get_db_connection run.2).1 = (get_db_connection w).1
  ∧ executes run.2 = false
  ∧ (∃ evs, log run.2 = log w ++ evs ∧ statements evs = fetch_statements w)
  ∧ (∃ out, page run.2 = page w ++ out ∧ Forall (λ u, is_error u = true) out
            ∧ ∀ c, (get_db_connection w).1 = Return (Some c) →
                   load_error already_closed ∈ out).
Proof.
  intros run. subst run.
  unfold load_all_data_body, snapshot_of, fetch_statements. cbv zeta beta.
  pose proof (run_query_read orders_query [] w) as Hr1.
  destruct (run_query_frame orders_query [] false w)
    as (He1 & Hdc1 & Hsd1 & Hdb1 & _ & out1 & Hp1 & Hf1).
  specialize (Hdb1 eq_refl).
  destruct (run_query_exhausts orders_query [] false w) as (Hc1 & Hx1).
  destruct (run_query_statements orders_query [] false w)
    as (evs1 & Hl1 & Hst1 & _).
  destruct (run_query orders_query [] false w) as [r1 w1].
  cbn [fst snd] in *. unfold read_result, idle_result in Hr1.
  (* the error branch, shared by the steps *)
  assert (Hfail : ∀ (e : Exn) (data : Data) wk outk evsk,
            env wk = env w → database wk = database w →
            data_cache wk = data_cache w → session_data wk = session_data w →
            (get_db_connection wk).1 = (get_db_connection w).1 →
            executes wk = false →
            log wk = log w ++ evsk → page wk = page w ++ outk →
            Forall (λ u, is_error u = true) outk →
            let run := (show (load_error e) ;;; ret data) wk in
            run.1 = Return data
            ∧ env run.2 = env w ∧ database run.2 = database w
            ∧ data_cache run.2 = data_cache w ∧ session_data run.2 = session_data w
            ∧ (get_db_connection run.2).1 = (get_db_connection w).1
            ∧ executes run.2 = false
            ∧ log run.2 = log w ++ evsk
            ∧ page run.2 = page w ++ (outk ++ [load_error e])
            ∧ Forall (λ u, is_error u = true) (outk ++ [load_error e])).
  { intros e data wk outk evsk He Hd Hdc Hsd Hc Hx Hl Hp Hf.
    unfold bind, show, ret. cbn [fst snd].
    destruct (get_db_connection_set_page (page wk ++ [load_error e]) wk)
      as [Hc' Hx'].
    repeat split; try done.
    - by rewrite Hc'.
    - by rewrite Hx'.
    - simpl. by rewrite Hp, <- app_assoc.
    - apply Forall_app. split; [done|]. by repeat constructor. }
  destruct r1 as [r1|e1].
  2: { (* the first query raised *)
    destruct (Hfail e1 ∅ w1 out1 evs1) as (R1&R2&R3&R4&R5&R6&R7&R8&R9&R10);
      try done.
    assert (Hx : executes w = false ∧ ∀ c, (get_db_connection w).1 = Return (Some c)
                                            → e1 = already_closed).
    { destruct (executes w); [discriminate|]. split; [done|].
      intros c Hc. rewrite Hc in Hr1. by injection Hr1. }
    destruct Hx as [Hx Hclosed]. rewrite Hx in *.
    change (show (st_error ("Erro ao carregar os dados: " +:+ exn_message e1)))
      with (show (load_error e1)).
    split.
    { rewrite R1. by destruct ((get_db_connection w).1) as [[?|]|]. }
    do 6 (split; [done|]).
    split; [by exists evs1|].
    eexists. split; [exact R9|]. split; [exact R10|].
    intros c Hc. rewrite (Hclosed c Hc).
    apply elem_of_app. right. by apply elem_of_cons; left. }
  (* the first query returned: the second does not get to the server *)
  destruct (idle_query_step products_query w1 Hx1)
    as (Hr2 & He2 & Hd2 & Hdc2 & Hsd2 & Hc2 & Hx2 & (evs2 & Hl2 & Hst2)
        & out2 & Hp2 & Hf2).
  unfold idle_result in Hr2. rewrite Hc1 in Hr2, Hc2.
  destruct (run_query products_query [] false w1) as [r2 w2].
  cbn [fst snd] in *.
  destruct (executes w) eqn:Hx.
  { (* the first was served: the second meets the closed connection *)
    assert (Hsome : ∃ c, (get_db_connection w).1 = Return (Some c)).
    { unfold executes in Hx.
      destruct (get_db_connection w) as [[[c|]|e] w0]; try discriminate.
      by exists c. }
    destruct Hsome as [c Hc]. rewrite Hc in Hr2. subst r2.
    injection Hr1 as ->.
    change (show (st_error ("Erro ao carregar os dados: "
                            +:+ exn_message already_closed)))
      with (show (load_error already_closed)).
    destruct (Hfail already_closed
                (<["orders" := or_empty (answer (env w) (database w) orders_query [])]> ∅)
                w2 (out1 ++ out2) (evs1 ++ evs2))
      as (R1&R2&R3&R4&R5&R6&R7&R8&R9&R10);
      try congruence.
    { by rewrite Hl2, Hl1, <- app_assoc. }
    { by rewrite Hp2, Hp1, <- app_assoc. }
    { by apply Forall_app. }
    split; [exact R1|]. do 6 (split; [done|]).
    split. { eexists. split; [exact R8|]. by rewrite statements_app, Hst1, Hst2. }
    eexists. split; [exact R9|]. split; [exact R10|].
    intros _ _. apply elem_of_app. right. by apply elem_of_cons; left. }
  (* no connection: every query returns [None] *)
  assert (Hnone : (get_db_connection w).1 = Return None ∧ r1 = QNone).
  { destruct ((get_db_connection w).1) as [[c|]|e]; try discriminate.
    by injection Hr1 as <-. }
  destruct Hnone as [Hc ->]. rewrite Hc in *. subst r2.
  destruct (idle_query_step clients_query w2 Hx2)
    as (Hr3 & He3 & Hd3 & Hdc3 & Hsd3 & Hc3 & Hx3 & (evs3 & Hl3 & Hst3)
        & out3 & Hp3 & Hf3).
  unfold idle_result in Hr3. rewrite Hc2 in Hr3, Hc3.
  destruct (run_query clients_query [] false w2) as [r3 w3].
  cbn [fst snd] in *. subst r3.
  destruct (idle_query_step stock_query w3 Hx3)
    as (Hr4 & He4 & Hd4 & Hdc4 & Hsd4 & Hc4 & Hx4 & (evs4 & Hl4 & Hst4)
        & out4 & Hp4 & Hf4).
  unfold idle_result in Hr4. rewrite Hc3 in Hr4, Hc4.
  destruct (run_query stock_query [] false w3) as [r4 w4].
  cbn [fst snd] in *. subst r4.
  unfold ret. cbn [fst snd or_empty].
  split; [reflexivity|].
  split; [congruence|]. split; [congruence|]. split; [congruence|].
  split; [congruence|]. split; [congruence|]. split; [done|].
  split.
  { exists (evs1 ++ evs2 ++ evs3 ++ evs4).
    rewrite Hl4, Hl3, Hl2, Hl1, <- !app_assoc. split; [done|].
    by rewrite !statements_app, Hst1, Hst2, Hst3, Hst4. }
  exists (out1 ++ out2 ++ out3 ++ out4).
  rewrite Hp4, Hp3, Hp2, Hp1, <- !app_assoc. split; [done|].
  split; [by repeat (apply Forall_app; split)|]. intros c [=].
Qed.

Lemma get_db_connection_set_session_data d w :
  get_db_connection (set_session_data d w)
  = ((get_db_connection w).1, set_session_data d (get_db_connection w).2).
Proof.
  rewrite !get_db_connection_eq.
  destruct w as [en db cc cs tx dc sd lg pg]. simpl.
  destruct cc as [v|]; [reflexivity|].
  destruct (connect_raises en) as [e|]; [|reflexivity].
  by destruct (decide (exn_class e = OperationalError)).
Qed.

Lemma executes_set_session_data d w :
  executes (set_session_data d w) = executes w.
Proof.
  unfold executes. rewrite get_db_connection_set_session_data.
  by destruct (get_db_connection w) as [[[c|]|e] w1].
Qed.

(** [refresh_data] in closed form: it returns, the session and the cache
    hold the dictionary the load builds, the database is as before, and
    the next query does not get to the server. *)
Lemma refresh_data_spec w :
  let run := refresh_data w in
  run.1 = Return ()
  ∧ session_data run.2 = snapshot_of w
  ∧ data_cache run.2 = Some (snapshot_of w, new_output w run.2)
  ∧ env run.2 = env w ∧ database run.2 = database w
  ∧ (get_db_connection run.2).1 = (get_db_connection w).1
  ∧ executes run.2 = false
  ∧ (∃ evs, log run.2 = log w ++ evs ∧ statements evs = fetch_statements w)
  ∧ (∃ out, page run.2 = page w ++ out ∧ Forall (λ u, is_error u = true) out
            ∧ ∀ c, (get_db_connection w).1 = Return (Some c) →
                   load_error already_closed ∈ out).
Proof.
  intros run. subst run.
  unfold refresh_data, bind, load_all_data_clear, load_all_data, cache_data.
  cbn [fst snd data_cache set_data_cache].
  set (w0 := set_data_cache None w).
  destruct (load_all_data_body_spec w0)
    as (Hr & He & Hd & _ & Hsd & Hc & Hx & (evs & Hl & Hst) & out & Hp & Hf & Hin).
  assert (Hsnap : snapshot_of w0 = snapshot_of w).
  { apply snapshot_of_ext; try reflexivity.
    - unfold w0. by rewrite get_db_connection_set_data_cache.
    - apply executes_set_data_cache. }
  assert (Hc0 : (get_db_connection w0).1 = (get_db_connection w).1)
    by (unfold w0; by rewrite get_db_connection_set_data_cache).
  rewrite (fetch_statements_ext w w0) in Hst by apply executes_set_data_cache.
  destruct (load_all_data_body w0) as [r w1]. cbn [fst snd] in *. subst r.
  cbn [fst snd session_data set_session_data data_cache set_data_cache env
       database log page].
  rewrite Hsnap. change (page w0) with (page w) in *.
  change (log w0) with (log w) in *.
  split; [reflexivity|]. split; [reflexivity|].
  split. { unfold new_output. reflexivity. }
  split; [exact He|]. split; [exact Hd|].
  split. { rewrite get_db_connection_set_session_data,
             get_db_connection_set_data_cache. simpl. congruence. }
  split. { by rewrite executes_set_session_data, executes_set_data_cache. }
  split; [by exists evs|].
  exists out. split; [exact Hp|]. split; [exact Hf|].
  intros c Hc'. apply (Hin c). congruence.
Qed.

(** ** What the load leaves out *)

(** C5: the claim fails on the code.  Whenever the load is handed a
    connection its second query is refused on the connection the first one
    closed, the exception ends the load, and the dictionary has no dataset
    of products, clients or stock, neither empty nor filled by its own
    query; the error is reported. *)
Theorem load_stops_at_the_second_query w c :
  (get_db_connection w).1 = Return (Some c) →
  let data := session_data (refresh_data w).2 in
  (load_all_data_body w).1 = Return data
  ∧ data !! "products" = None
  ∧ data !! "clients" = None
  ∧ data !! "stock" = None
  ∧ statements (new_events w (refresh_data w).2)
    = (if executes w then [(orders_query, [])] else [])
  ∧ load_error already_closed ∈ new_output w (refresh_data w).2.
Proof.
  intros Hc data. subst data.
  destruct (load_all_data_body_spec w) as (Hr & _).
  destruct (refresh_data_spec w)
    as (_ & Hs & _ & _ & _ & _ & _ & (evs & Hl & Hst) & out & Hp & _ & Hin).
  rewrite Hs. split; [exact Hr|].
  assert (Hkeys : ∀ key, key ≠ "orders" → snapshot_of w !! key = None).
  { intros key Hk. unfold snapshot_of. rewrite Hc.
    destruct (executes w); [|done]. by rewrite lookup_insert_ne. }
  do 3 (split; [by apply Hkeys|]).
  rewrite (new_events_app _ _ _ Hl), (new_output_app _ _ _ Hp).
  split; [exact Hst|]. by apply (Hin c).
Qed.

(** C7: the claim fails on the code.  From a state in which the first
    query gets to the server, the first reload stores the orders and the
    second, which finds the connection closed, stores an empty dictionary:
    the two snapshots differ, and the second call executes no query. *)
Theorem second_refresh_loses_the_orders w :
  executes w = true →
  let w1 := (refresh_data w).2 in
  let w2 := (refresh_data w1).2 in
  session_data w1
  = <["orders" := or_empty (answer (env w) (database w) orders_query [])]> ∅
  ∧ session_data w2 = ∅
  ∧ (∃ rows, session_data w1 !! "orders" = Some rows)
  ∧ session_data w2 !! "orders" = None
  ∧ statements (new_events w w1) = [(orders_query, [])]
  ∧ statements (new_events w1 w2) = [].
Proof.
  intros Hx w1 w2. subst w1 w2.
  destruct (refresh_data_spec w)
    as (_ & Hs1 & _ & _ & _ & Hc1 & Hx1 & (evs1 & Hl1 & Hst1) & _).
  destruct (refresh_data_spec (refresh_data w).2)
    as (_ & Hs2 & _ & _ & _ & _ & _ & (evs2 & Hl2 & Hst2) & _).
  assert (Hsome : ∃ c, (get_db_connection w).1 = Return (Some c)).
  { unfold executes in Hx.
    destruct (get_db_connection w) as [[[c|]|e] w0]; try discriminate.
    by exists c. }
  destruct Hsome as [c Hc].
  assert (H1 : snapshot_of w
               = <["orders" := or_empty (answer (env w) (database w)
                                           orders_query [])]> ∅)
    by (unfold snapshot_of; by rewrite Hx).
  assert (H2 : snapshot_of (refresh_data w).2 = ∅)
    by (unfold snapshot_of; by rewrite Hx1, Hc1, Hc).
  rewrite Hs2, Hs1, H1, H2.
  rewrite (new_events_app _ _ _ Hl1), (new_events_app _ _ _ Hl2), Hst1, Hst2.
  unfold fetch_statements. rewrite Hx, Hx1.
  split; [done|]. split; [done|].
  split; [eexists; apply lookup_insert_eq|]. done.
Qed.

(** ** The clients dataset and the customer list *)

Lemma execute_clients_query db :
  execute db clients_query []
  = Some (ResultSet ((λ c, [VStr c]) <$>
            merge_sort str_le (remove_dups (Pedido.Cliente <$> tb_pedido db))),
          db).
Proof. reflexivity. Qed.

Lemma execute_clientes_query db :
  execute db clientes_query []
  = Some (ResultSet ((λ c, [VStr c]) <$> merge_sort str_le (tb_clientes db)), db).
Proof. reflexivity. Qed.

Lemma execute_orders_query db :
  execute db orders_query []
  = Some (ResultSet (Pedido.tuple <$>
            merge_sort (newest_first Pedido.Data) (tb_pedido db)), db).
Proof. reflexivity. Qed.

Lemma customer_list_rows names name :
  name ∈ names →
  VStr name ∈ customer_list (QRows ((λ c, [VStr c]) <$> names)).
Proof.
  intros Hn. destruct names as [|x l]; [by apply elem_of_nil in Hn|].
  change (VStr name ∈ VStr "" :: (cell 0 <$> ((λ c, [VStr c]) <$> (x :: l)))).
  apply elem_of_cons; right. apply list_elem_of_fmap.
  exists [VStr name]. split; [done|].
  by apply (list_elem_of_fmap_2 (λ c, [VStr c])).
Qed.

Lemma order_form_customers w :
  executes w = true →
  execute_raises (env w) clientes_query [] = None →
  ∃ products,
    (order_form w).1
    = Return (customer_list
                (QRows ((λ c, [VStr c]) <$> merge_sort str_le
                                              (tb_clientes (database w)))),
              products).
Proof.
  intros Hx He. unfold order_form, bind, data_get, ret. simpl.
  pose proof (run_query_read clientes_query [] w) as Hr.
  destruct (run_query clientes_query [] false w) as [r w1]. simpl in Hr.
  unfold read_result in Hr. rewrite Hx in Hr. subst r.
  unfold answer. rewrite He, execute_clientes_query. eauto.
Qed.

(** C9: the claim fails on the code.  The statement of the [clients]
    dataset reads the column [Cliente] of [tb_pedido] and the order form
    reads [tb_clientes], as the claim says; but the statement of the
    dataset is the third of the load and the load never gets to it:
    whenever a connection is handed over, the snapshot has no [clients]
    dataset at all, whatever orders the table holds.  The form, when its
    query is the one that gets to the server, offers every client of
    [tb_clientes]. *)
Theorem clients_dataset_is_never_loaded w c :
  (get_db_connection w).1 = Return (Some c) →
  session_data (refresh_data w).2 !! "clients" = None
  ∧ (∀ q vals, (q, vals) ∈ statements (new_events w (refresh_data w).2) →
               q ≠ clients_query)
  ∧ (executes w = true →
     execute_raises (env w) clientes_query [] = None →
     ∃ customers products,
       (order_form w).1 = Return (customers, products)
       ∧ ∀ name, name ∈ tb_clientes (database w) → VStr name ∈ customers).
Proof.
  intros Hc.
  destruct (refresh_data_spec w)
    as (_ & Hs & _ & _ & _ & _ & _ & (evs & Hl & Hst) & _).
  split; [|split].
  - rewrite Hs. unfold snapshot_of. rewrite Hc.
    destruct (executes w); [|done]. by rewrite lookup_insert_ne.
  - intros q vals. rewrite (new_events_app _ _ _ Hl), Hst.
    unfold fetch_statements. destruct (executes w).
    + intros Hin. apply list_elem_of_singleton in Hin. by injection Hin as -> _.
    + intros Hin. by apply elem_of_nil in Hin.
  - intros Hx He. destruct (order_form_customers w Hx He) as (products & Hform).
    eexists _, products. split; [exact Hform|].
    intros name Hn. apply customer_list_rows.
    by rewrite merge_sort_Permutation.
Qed.

(** ** The stock summary of the home page *)

Lemma run_query_rows_page q vals w rows :
  (run_query q vals false w).1 = Return (QRows rows) →
  page (run_query q vals false w).2 = page w.
Proof.
  rewrite run_query_on_connection.
  destruct (get_db_connection_frame w) as (_ & _ & _ & _ & Hcache & _).
  destruct (get_db_connection w) as [[[c|]|e] w1]; simpl in *; try discriminate.
  destruct (Hcache _ eq_refl) as [_ Hp]. simpl in Hp. rewrite app_nil_r in Hp.
  unfold on_connection.
  destruct (is_open c w1); [|discriminate].
  destruct (execute_raises (env w1) q vals); [discriminate|].
  destruct (execute (database w1) q vals) as [[[rs|] db']|]; try discriminate.
  intros _. simpl. by rewrite app_nil_r.
Qed.

(** C8, as stated, fails: on a view without rows the summary shows no
    table and reports no total; the page gets one notice. *)
Lemma empty_view_shows_no_total :
  (run_query stock_vs_orders_query [] false empty_view_process).1
  = Return (QRows [])
  ∧ new_output empty_view_process (stock_vs_orders_summary empty_view_process).2
    = [st_info "Não há dados na view vw_stock_vs_orders_summary."]
  ∧ ¬ shows_empty_table_and_zero_total empty_view_process.
Proof.
  assert (Hout : new_output empty_view_process
                   (stock_vs_orders_summary empty_view_process).2
                 = [st_info "Não há dados na view vw_stock_vs_orders_summary."])
    by (vm_compute; reflexivity).
  split; [vm_compute; reflexivity|]. split; [exact Hout|].
  unfold shows_empty_table_and_zero_total. rewrite Hout.
  intros [_ H]. apply elem_of_cons in H as [H|H]; [discriminate|].
  by apply elem_of_nil in H.
Qed.

(** C8 (amended): when the query on the stock-vs-orders view returns zero
    rows, the summary returns without an error and writes one thing to the
    page, the notice that the view has no data: no table, no total. *)
Theorem empty_view_gives_notice w :
  (run_query stock_vs_orders_query [] false w).1 = Return (QRows []) →
  (stock_vs_orders_summary w).1 = Return ()
  ∧ new_output w (stock_vs_orders_summary w).2
    = [st_info "Não há dados na view vw_stock_vs_orders_summary."]
  ∧ (∀ columns rows, st_table columns rows ∉ new_output w (stock_vs_orders_summary w).2)
  ∧ (∀ n, stock_total_line n ∉ new_output w (stock_vs_orders_summary w).2)
  ∧ (∀ s, st_error s ∉ new_output w (stock_vs_orders_summary w).2).
Proof.
  intros Hq. pose proof (run_query_rows_page _ _ _ _ Hq) as Hp.
  unfold stock_vs_orders_summary, try_except, bind.
  destruct (run_query stock_vs_orders_query [] false w) as [r w1].
  simpl in Hq, Hp. subst r. simpl.
  unfold new_output. simpl. rewrite Hp, drop_app_length.
  repeat split; intros; intros H;
    (apply elem_of_cons in H as [H|H]; [discriminate|by apply elem_of_nil in H]).
Qed.

(** ** The choice of the order to edit or delete *)

Lemma unique_key_tuple o : unique_key (Pedido.tuple o) = Return (order_key o).
Proof. reflexivity. Qed.

Lemma unique_keys_tuples l :
  unique_keys (Pedido.tuple <$> l) = Return (order_key <$> l).
Proof.
  induction l as [|o l IH]; [reflexivity|].
  change (Pedido.tuple <$> o :: l) with (Pedido.tuple o :: (Pedido.tuple <$> l)).
  cbn [unique_keys]. by rewrite unique_key_tuple, IH.
Qed.

Lemma order_key_not_empty o : String.eqb (order_key o) "" = false.
Proof. unfold order_key. by destruct (Pedido.Cliente o). Qed.

Lemma matching_rows_length l key :
  length (filter (λ rk : Row * string, rk.2 = key)
                 (zip (Pedido.tuple <$> l) (order_key <$> l)))
  = length (filter (λ o, order_key o = key) l).
Proof.
  induction l as [|o l IH]; [reflexivity|].
  change (zip (Pedido.tuple <$> o :: l) (order_key <$> o :: l))
    with ((Pedido.tuple o, order_key o)
          :: zip (Pedido.tuple <$> l) (order_key <$> l)).
  rewrite !filter_cons. simpl.
  destruct (decide (order_key o = key)); simpl; by rewrite IH.
Qed.

(** C4: when two (or more) rows of the cached orders dataset carry the
    same client, product and time stamp, choosing their key in the
    edit-or-delete section is refused with a warning: the edit form is not
    reached, no statement is executed (no driver call is made at all), and
    the snapshot, its cache and the database are as before. *)
Theorem ambiguous_key_is_refused w before o1 between o2 after :
  Pedido.Cliente o1 = Pedido.Cliente o2 →
  Pedido.Produto o1 = Pedido.Produto o2 →
  Pedido.Data o1 = Pedido.Data o2 →
  let orders_data :=
    Pedido.tuple <$> (before ++ o1 :: between ++ o2 :: after) in
  let run := edit_or_delete_section orders_data (order_key o1) w in
  unique_key (Pedido.tuple o1) = Return (order_key o1)
  ∧ run.1 = Return Refused
  ∧ new_output w run.2
    = [st_subheader "Edit or Delete an Existing Order";
       st_warning "Multiple orders found with the same key. Please refine your selection."]
  ∧ log run.2 = log w
  ∧ session_data run.2 = session_data w
  ∧ data_cache run.2 = data_cache w
  ∧ database run.2 = database w.
Proof.
  intros Hc Hp Hd orders_data run. subst orders_data run.
  split; [reflexivity|].
  assert (Hkey : order_key o2 = order_key o1)
    by (unfold order_key; by rewrite Hc, Hp, Hd).
  unfold edit_or_delete_section, bind, show, ret.
  rewrite unique_keys_tuples. cbn [fst snd].
  rewrite order_key_not_empty. cbn [negb].
  rewrite length_fmap, matching_rows_length.
  assert (Hlen : (1 <? length (filter (λ o, order_key o = order_key o1)
                         (before ++ o1 :: between ++ o2 :: after)))%nat = true).
  { apply Nat.ltb_lt.
    rewrite filter_app, filter_cons_True, filter_app, filter_cons_True by done.
    rewrite length_app. simpl. rewrite length_app. simpl. lia. }
  rewrite Hlen. simpl.
  unfold new_output. simpl. rewrite <- app_assoc, drop_app_length. done.
Qed.


(** ** Mutations *)

Lemma is_open_lookup c w : connections w !! c = Some true → is_open c w = true.
Proof. intros H. unfold is_open. by rewrite H. Qed.

Lemma run_query_commit_fails q vals w c e :
  (get_db_connection w).1 = Return (Some c) →
  connections (get_db_connection w).2 !! c = Some true →
  execution_fails w q vals = Some e →
  run_query q vals true w
  = (Return QNone,
     finish c [Execute c q vals; Rollback c; Close c] [query_error e]
            (database w) (get_db_connection w).2).
Proof.
  intros Hc Ho Hf. rewrite run_query_on_connection.
  destruct (get_db_connection_frame w) as (He & Hd & _).
  destruct (get_db_connection w) as [r w1]. simpl in *. subst r.
  unfold on_connection, execution_fails in *.
  rewrite (is_open_lookup _ _ Ho), He, Hd.
  destruct (execute_raises (env w) q vals) as [e'|].
  { by injection Hf as ->. }
  destruct (execute (database w) q vals) as [[cur db']|]; [discriminate|].
  by injection Hf as <-.
Qed.

Lemma run_query_commit_succeeds q vals w :
  (run_query q vals true w).1 = Return QTrue →
  ∃ c cur db',
    (get_db_connection w).1 = Return (Some c)
    ∧ executes w = true
    ∧ execute (database w) q vals = Some (cur, db')
    ∧ run_query q vals true w
      = (Return QTrue,
         finish c [Execute c q vals; Commit c; Close c] [] db'
                (get_db_connection w).2).
Proof.
  rewrite run_query_on_connection. unfold executes.
  destruct (get_db_connection_frame w) as (He & Hd & _).
  destruct (get_db_connection w) as [[[c|]|e] w1]; simpl in *; try discriminate.
  unfold on_connection. rewrite He, Hd.
  destruct (is_open c w1); [|discriminate].
  destruct (execute_raises (env w) q vals); [discriminate|].
  destruct (execute (database w) q vals) as [[cur db']|]; [|discriminate].
  intros _. by exists c, cur, db'.
Qed.

(** A valid submission whose [INSERT] gets to the server and raises: the
    failure is reported and nothing else happens. *)
Lemma register_order_fails w c customer_name product quantity now e :
  value_truthy customer_name = true → value_truthy product = true →
  (0 < quantity)%Z →
  (get_db_connection w).1 = Return (Some c) →
  connections (get_db_connection w).2 !! c = Some true →
  execution_fails w insert_query
    [customer_name; product; VInt quantity; VTime now] = Some e →
  register_order true customer_name product quantity now w
  = (Return (),
     set_page
       (page (get_db_connection w).2
        ++ [query_error e] ++ [st_error "Falha ao registrar o pedido."])
       (finish c
          [Execute c insert_query
             [customer_name; product; VInt quantity; VTime now];
           Rollback c; Close c]
          [query_error e] (database w) (get_db_connection w).2)).
Proof.
  intros Hcn Hpn Hq Hc Ho Hf.
  unfold register_order. rewrite Hcn, Hpn. simpl.
  assert ((0 <? quantity)%Z = true) as -> by (by apply Z.ltb_lt).
  unfold bind. rewrite (run_query_commit_fails _ _ w c e Hc Ho Hf). simpl.
  unfold show, set_page. simpl. by rewrite <- app_assoc.
Qed.

(** A call of [run_query] that is handed a connection an earlier call
    closed. *)
Lemma run_query_closed q vals commit w c :
  (get_db_connection w).1 = Return (Some c) →
  is_open c (get_db_connection w).2 = false →
  run_query q vals commit w
  = (Raise already_closed,
     finish c [Rollback c; Close c] [] (database w) (get_db_connection w).2).
Proof.
  intros Hc Ho. rewrite run_query_on_connection.
  destruct (get_db_connection_frame w) as (_ & Hd & _).
  destruct (get_db_connection w) as [r w1]. simpl in *. subst r.
  unfold on_connection. by rewrite Ho, Hd.
Qed.

(** A valid submission whose [INSERT] is handed a closed connection: the
    exception of [run_query] ends the block. *)
Lemma register_order_closed w c customer_name product quantity now :
  value_truthy customer_name = true → value_truthy product = true →
  (0 < quantity)%Z →
  (get_db_connection w).1 = Return (Some c) →
  is_open c (get_db_connection w).2 = false →
  register_order true customer_name product quantity now w
  = (Raise already_closed,
     finish c [Rollback c; Close c] [] (database w) (get_db_connection w).2).
Proof.
  intros Hcn Hpn Hq Hc Ho.
  unfold register_order. rewrite Hcn, Hpn. simpl.
  assert ((0 <? quantity)%Z = true) as -> by (by apply Z.ltb_lt).
  unfold bind. by rewrite (run_query_closed _ _ _ w c Hc Ho).
Qed.

(** C3: the claim fails on the code.  A mutation whose statement gets to
    the server over an open connection and raises there is contained as
    the claim says: it is rolled back on the connection it ran on,
    [run_query] returns [None] and writes the error to the page, the order
    form reports the failure of the registration, and no reload follows.
    But a mutation that is handed the cached connection after an earlier
    call closed it fails before its statement is sent, and that failure is
    not contained: [conn.cursor()] raises, [conn.rollback()] in the handler
    raises again, [run_query] returns nothing and reports nothing, and the
    order form ends in the exception without reporting the failure.  In
    both cases neither the database nor the snapshot, in the session or in
    the cache, changes. *)
Theorem failed_mutation_cases w c q vals :
  (get_db_connection w).1 = Return (Some c) →
  let w1 := (get_db_connection w).2 in
  let run := run_query q vals true w in
  (∀ e, connections w1 !! c = Some true →
        execution_fails w q vals = Some e →
        (run.1 = Return QNone
         ∧ new_events w1 run.2 = [Execute c q vals; Rollback c; Close c]
         ∧ new_output w1 run.2 = [query_error e]
         ∧ database run.2 = database w
         ∧ data_cache run.2 = data_cache w
         ∧ session_data run.2 = session_data w)
        ∧ ∀ customer_name product quantity now,
            q = insert_query →
            vals = [customer_name; product; VInt quantity; VTime now] →
            value_truthy customer_name = true → value_truthy product = true →
            (0 < quantity)%Z →
            let submit :=
              register_order true customer_name product quantity now w in
            submit.1 = Return ()
            ∧ new_output w1 submit.2
              = [query_error e; st_error "Falha ao registrar o pedido."]
            ∧ statements (new_events w submit.2) = [(insert_query, vals)]
            ∧ database submit.2 = database w
            ∧ data_cache submit.2 = data_cache w
            ∧ session_data submit.2 = session_data w)
  ∧ (is_open c w1 = false →
     (run.1 = Raise already_closed
      ∧ new_events w1 run.2 = [Rollback c; Close c]
      ∧ new_output w1 run.2 = []
      ∧ database run.2 = database w
      ∧ data_cache run.2 = data_cache w
      ∧ session_data run.2 = session_data w)
     ∧ ∀ customer_name product quantity now,
         value_truthy customer_name = true → value_truthy product = true →
         (0 < quantity)%Z →
         let submit :=
           register_order true customer_name product quantity now w in
         submit.1 = Raise already_closed
         ∧ new_output w1 submit.2 = []
         ∧ statements (new_events w submit.2) = []
         ∧ database submit.2 = database w
         ∧ data_cache submit.2 = data_cache w
         ∧ session_data submit.2 = session_data w).
Proof.
  intros Hc w1 run. subst w1 run.
  destruct (get_db_connection_frame w)
    as (He & Hd & Hdc & Hsd & _ & _ & pre & Hlog & Hpre).
  split.
  - intros e Ho Hf.
    rewrite (run_query_commit_fails q vals w c e Hc Ho Hf).
    split.
    { unfold new_events, new_output. simpl. rewrite !drop_app_length. done. }
    intros customer_name product quantity now -> -> Hcn Hpn Hq submit.
    subst submit.
    rewrite (register_order_fails w c _ _ _ _ e Hcn Hpn Hq Hc Ho Hf).
    unfold new_events, new_output. simpl.
    rewrite drop_app_length, Hlog, <- app_assoc, drop_app_length.
    rewrite statements_app, Hpre. done.
  - intros Ho.
    rewrite (run_query_closed q vals true w c Hc Ho).
    split.
    { unfold new_events, new_output. simpl. rewrite !drop_app_length. done. }
    intros customer_name product quantity now Hcn Hpn Hq submit. subst submit.
    rewrite (register_order_closed w c _ _ _ _ Hcn Hpn Hq Hc Ho).
    unfold new_events, new_output. simpl.
    rewrite drop_app_length, Hlog, <- app_assoc, drop_app_length.
    rewrite statements_app, Hpre. done.
Qed.

(** ** Registering an order *)

Lemma execute_insert_query db client product quantity now :
  execute db insert_query [VStr client; VStr product; VInt quantity; VTime now]
  = Some (NoResultSet,
          mk_Database
            (tb_pedido db ++ [Pedido.mk client product quantity now "em aberto"])
            (tb_products db) (tb_clientes db) (tb_estoque db)
            (vw_pedido_produto db) (vw_stock_vs_orders_summary db)).
Proof. reflexivity. Qed.

Lemma value_truthy_VStr s : s ≠ "" → value_truthy (VStr s) = true.
Proof. intros Hs. simpl. by apply negb_true_iff, String.eqb_neq. Qed.

Lemma register_order_invalid w customer_name product quantity now :
  invalid customer_name product quantity →
  register_order true customer_name product quantity now w
  = (Return (),
     set_page (page w ++
               [st_warning "Por favor, preencha todos os campos corretamente."]) w).
Proof.
  intros Hinv. unfold register_order.
  assert (value_truthy customer_name && value_truthy product
          && (0 <? quantity)%Z = false) as ->; [|reflexivity].
  destruct Hinv as [->| [->|Hq]]; [reflexivity|by rewrite andb_false_r|].
  rewrite andb_false_iff. right. apply Z.ltb_ge. exact Hq.
Qed.

(** C1, as stated, fails in its last part: a refused submission gets one
    and the same warning whichever constraint it failed, so the page does
    not tell which one it was. *)
Lemma warning_does_not_tell_constraint :
  new_output (fresh_process reliable club_database)
    (register_order true (VStr "") (VStr "Water") 2 noon
       (fresh_process reliable club_database)).2
  = new_output (fresh_process reliable club_database)
      (register_order true (VStr "Ana") (VStr "Water") 0 noon
         (fresh_process reliable club_database)).2
  ∧ ¬ tells_which_constraint (fresh_process reliable club_database).
Proof.
  split; [reflexivity|].
  intros [told H].
  pose proof (H (VStr "") (VStr "Water") 2%Z noon) as HA.
  pose proof (H (VStr "Ana") (VStr "Water") 0%Z noon) as HC.
  rewrite register_order_invalid in HA, HC;
    try (unfold invalid; simpl; auto; right; right; lia).
  unfold new_output in HA, HC. simpl in HA, HC.
  destruct (told _).
  - assert (Hv : violated ClientMissing (VStr "Ana") (VStr "Water") 0)
      by (apply HC; unfold invalid; right; right; lia).
    discriminate Hv.
  - assert (Hv : violated ProductMissing (VStr "") (VStr "Water") 2)
      by (apply HA; unfold invalid; by left).
    discriminate Hv.
  - assert (Hv : violated QuantityNotPositive (VStr "") (VStr "Water") 2)
      by (apply HA; unfold invalid; by left).
    simpl in Hv. lia.
Qed.


(** C1 (amended).  A submission with a client, a product and a quantity of
    at least one hands one [INSERT] to [run_query]: the fixed text
    [insert_query] with the submitted values and the submission time as
    parameters, to be committed.  No other [INSERT] is executed, and this
    one is once, when it gets to the server.  When [run_query] returns
    [True] the row is in [tb_pedido] with status [em aberto] and that time,
    the success is written and [refresh_data] runs: the cache holds what
    the session holds.  When it returns [None] the failure is written and
    neither the cache nor the session changes.  A submission
    without a client, without a product or with a quantity below one makes
    no driver call and changes neither the database nor the snapshot; the
    page gets the same warning in all three cases, which says that the
    fields are to be filled in correctly, not which constraint failed. *)
Theorem register_order_spec w quantity now :
  (∀ client product,
     client ≠ "" → product ≠ "" → (1 ≤ quantity)%Z →
     let vals := [VStr client; VStr product; VInt quantity; VTime now] in
     let new_row := Pedido.mk client product quantity now "em aberto" in
     let insert := run_query insert_query vals true w in
     let submit :=
       register_order true (VStr client) (VStr product) quantity now w in
     filter (λ s, s.1 = insert_query) (statements (new_events w submit.2))
     = (if executes w then [(insert_query, vals)] else [])
     ∧ (insert.1 = Return QTrue →
        submit
        = refresh_data
            (set_page (page insert.2 ++ [st_success "Order registrado com sucesso!"])
                      insert.2)
        ∧ submit.1 = Return ()
        ∧ tb_pedido (database submit.2) = tb_pedido (database w) ++ [new_row]
        ∧ st_success "Order registrado com sucesso!" ∈ new_output w submit.2
        ∧ ∃ written, data_cache submit.2 = Some (session_data submit.2, written))
     ∧ (insert.1 = Return QNone →
        submit.1 = Return ()
        ∧ st_error "Falha ao registrar o pedido." ∈ new_output w submit.2
        ∧ database submit.2 = database w
        ∧ data_cache submit.2 = data_cache w
        ∧ session_data submit.2 = session_data w))
  ∧ (∀ customer_name product,
       invalid customer_name product quantity →
       let submit := register_order true customer_name product quantity now w in
       submit.1 = Return ()
       ∧ new_output w submit.2
         = [st_warning "Por favor, preencha todos os campos corretamente."]
       ∧ log submit.2 = log w
       ∧ database submit.2 = database w
       ∧ data_cache submit.2 = data_cache w
       ∧ session_data submit.2 = session_data w).
Proof.
  split.
  2: { intros customer_name product Hinv submit. subst submit.
       rewrite register_order_invalid by done.
       unfold new_output. simpl. by rewrite drop_app_length. }
  intros client product Hcl Hpr Hq vals new_row insert submit.
  assert (Hsub : submit
                 = (success <- run_query insert_query vals true ;;
                    if truthy success then
                      show (st_success "Order registrado com sucesso!") ;;;
                      refresh_data
                    else show (st_error "Falha ao registrar o pedido.")) w).
  { subst submit. unfold register_order.
    rewrite !value_truthy_VStr by done. simpl.
    by assert ((0 <? quantity)%Z = true) as -> by (apply Z.ltb_lt; lia). }
  assert (Hcase : submit
                  = match insert with
                    | (Return success, wi) =>
                        (if truthy success then
                           show (st_success "Order registrado com sucesso!") ;;;
                           refresh_data
                         else show (st_error "Falha ao registrar o pedido.")) wi
                    | (Raise e, wi) => (Raise e, wi)
                    end)
    by (rewrite Hsub; reflexivity).
  clear Hsub.
  destruct (run_query_statements insert_query vals true w)
    as (evs & Hl & Hst & _).
  destruct (run_query_frame insert_query vals true w)
    as (He & Hdc & Hsd & _ & Hdb & out & Hp & _).
  destruct (run_query_exhausts insert_query vals true w) as (_ & Hx').
  fold insert in Hl, He, Hdc, Hsd, Hdb, Hp, Hx'.
  split; [|split].
  - rewrite Hcase.
    destruct insert as [[r|e] wi] eqn:Hi; cbn [fst snd] in *.
    2: { unfold new_events. rewrite Hl, drop_app_length, Hst.
         by destruct (executes w); [rewrite filter_cons_True|]. }
    assert (Hreload : ∀ u,
              statements
                (new_events w (refresh_data (set_page (page wi ++ [u]) wi)).2)
              = (if executes w then [(insert_query, vals)] else [])).
    { intros u.
      destruct (refresh_data_spec (set_page (page wi ++ [u]) wi))
        as (_ & _ & _ & _ & _ & _ & _ & (evs' & Hl' & Hst') & _).
      unfold fetch_statements in Hst'.
      rewrite (proj2 (get_db_connection_set_page _ wi)), Hx' in Hst'.
      cbn [log set_page] in Hl'.
      rewrite (new_events_app _ _ (evs ++ evs'))
        by (by rewrite Hl', Hl, <- app_assoc).
      by rewrite statements_app, Hst, Hst', app_nil_r. }
    assert (Hplain : ∀ u,
              statements (new_events w (show u wi).2)
              = (if executes w then [(insert_query, vals)] else [])).
    { intros u. unfold show, new_events. cbn [snd log set_page].
      by rewrite Hl, drop_app_length, Hst. }
    destruct r as [| |[|row rows]]; cbn [truthy];
      rewrite ?bind_show_eq, ?Hreload, ?Hplain;
      by destruct (executes w); [rewrite filter_cons_True|].
  - intros Htrue.
    destruct (run_query_commit_succeeds insert_query vals w Htrue)
      as (c & cur & db' & Hc & Hx & Hexec & Hrun).
    unfold vals in Hexec. rewrite execute_insert_query in Hexec.
    injection Hexec as _ <-.
    assert (Hsub' : submit
                    = refresh_data
                        (set_page (page insert.2
                                   ++ [st_success "Order registrado com sucesso!"])
                                  insert.2)).
    { rewrite Hcase.
      destruct insert as [r wi]. cbn [fst snd] in *. subst r.
      cbn [truthy]. by rewrite bind_show_eq. }
    split; [exact Hsub'|]. rewrite Hsub'.
    destruct (refresh_data_spec
                (set_page (page insert.2
                           ++ [st_success "Order registrado com sucesso!"])
                          insert.2))
      as (Hr & Hs & Hcache & _ & Hd & _ & _ & _ & out' & Hp' & _).
    split; [exact Hr|]. split.
    { rewrite Hd. cbn [database set_page]. subst insert. by rewrite Hrun. }
    split.
    { cbn [page set_page] in Hp'.
      rewrite (new_output_app _ _ ((out ++ [st_success "Order registrado com sucesso!"])
                                   ++ out'))
        by (by rewrite Hp', Hp, <- !app_assoc).
      apply elem_of_app. left. apply elem_of_app. right.
      by apply elem_of_cons; left. }
    eexists. rewrite Hs. exact Hcache.
  - intros Hnone. rewrite Hcase.
    destruct insert as [r wi]. cbn [fst snd] in *. subst r.
    cbn [truthy]. unfold show. cbn [fst snd database data_cache session_data
                                     set_page page].
    split; [reflexivity|]. split.
    { unfold new_output. cbn [page set_page].
      rewrite Hp, <- app_assoc, drop_app_length.
      apply elem_of_app. right. by apply elem_of_cons; left. }
    split; [by apply Hdb|]. done.
Qed.

(** ** Statement texts *)

Section TextsWithin.
Context (L : list string).









End TextsWithin.








(** The statements of the menu: the query of the categories, when it gets
    to the server; the query of the products is made on the connection
    the first one closed. *)
Lemma menu_page_statements format_currency selected_category w :
  statements (new_events w (menu_page format_currency selected_category w).2)
  = (if executes w then [(categories_query, [])] else []).
Proof.
  unfold menu_page. rewrite bind_show_eq.
  set (w0 := set_page _ w).
  assert (Hx0 : executes w0 = executes w)
    by apply get_db_connection_set_page.
  destruct (run_query_statements categories_query [] false w0)
    as (e1 & Hl1 & Hst1 & _).
  destruct (run_query_exhausts categories_query [] false w0) as (_ & Hx1).
  rewrite Hx0 in Hst1. change (log w0) with (log w) in Hl1.
  unfold bind at 1.
  destruct (run_query categories_query [] false w0) as [[r1|e] w1];
    cbn [fst snd] in *.
  2: { by rewrite (new_events_app _ _ _ Hl1). }
  destruct (value_truthy selected_category).
  2: { unfold ret. cbn [snd]. by rewrite (new_events_app _ _ _ Hl1). }
  destruct (run_query_statements menu_query [selected_category] false w1)
    as (e2 & Hl2 & Hst2 & _).
  rewrite Hx1 in Hst2.
  unfold bind at 1.
  destruct (run_query menu_query [selected_category] false w1) as [[r2|e] w2];
    cbn [fst snd] in *.
  2: { rewrite (new_events_app _ _ (e1 ++ e2))
         by (by rewrite Hl2, Hl1, <- app_assoc).
       by rewrite statements_app, Hst1, Hst2, app_nil_r. }
  assert (Hlog : ∀ wf, log wf = log w2 →
            statements (new_events w wf)
            = (if executes w then [(categories_query, [])] else [])).
  { intros wf Hwf.
    rewrite (new_events_app _ _ (e1 ++ e2))
      by (by rewrite Hwf, Hl2, Hl1, <- app_assoc).
    by rewrite statements_app, Hst1, Hst2, app_nil_r. }
  destruct (truthy r2); by apply Hlog.
Qed.



(** X1: once a call of [run_query] was handed a connection, the cache of
    [get_db_connection] holds that connection and the connection is
    closed; the next call of the process is handed this closed
    connection. *)
Theorem cached_connection_is_closed q vals commit w c :
  (get_db_connection w).1 = Return (Some c) →
  (c < length (connections (get_db_connection w).2))%nat →
  let w' := (run_query q vals commit w).2 in
  connection_cache w' = Some (Some c)
  ∧ connections w' !! c = Some false
  ∧ (get_db_connection w').1 = Return (Some c).
Proof.
  intros Hc Hlen w'. subst w'.
  destruct (get_db_connection_frame w) as (_ & _ & _ & _ & Hcache & _).
  destruct (Hcache _ Hc) as [Hcc _].
  rewrite run_query_on_connection.
  destruct (get_db_connection w) as [r w1]. simpl in *. subst r.
  destruct (on_connection_world c q vals commit w1) as (mid & out & db & -> & _).
  simpl. split; [exact Hcc|]. split.
  - by apply list_lookup_insert_eq.
  - rewrite get_db_connection_eq. simpl. by rewrite Hcc.
Qed.

(** ** The theorems at work on the sample states *)

Lemma register_order_spec_witness :
  (register_order true (VStr "Bia") (VStr "Water") 1 evening
     (fresh_process reliable club_database)).1 = Return ()
  ∧ tb_pedido (database
      (register_order true (VStr "Bia") (VStr "Water") 1 evening
         (fresh_process reliable club_database)).2)
    = tb_pedido club_database ++ [Pedido.mk "Bia" "Water" 1 evening "em aberto"]
  ∧ filter (λ s, s.1 = insert_query)
      (statements
         (new_events (fresh_process reliable club_database)
            (register_order true (VStr "Bia") (VStr "Water") 1 evening
               (fresh_process reliable club_database)).2))
    = [(insert_query, [VStr "Bia"; VStr "Water"; VInt 1; VTime evening])]
  ∧ log (register_order true (VStr "Bia") (VStr "") 1 evening
           (fresh_process reliable club_database)).2 = [].
Proof.
  destruct (register_order_spec (fresh_process reliable club_database) 1 evening)
    as [Hvalid Hinvalid].
  destruct (Hvalid "Bia" "Water") as (Hst & Hsuccess & _);
    [discriminate|discriminate|lia|].
  destruct Hsuccess as (_ & Hr & Hdb & _); [reflexivity|].
  destruct (Hinvalid (VStr "Bia") (VStr "")) as (_ & _ & Hlog & _);
    [right; left; reflexivity|].
  split; [exact Hr|]. split; [exact Hdb|]. split; [exact Hst|exact Hlog].
Defined.

Lemma run_query_connection_witness :
  connection_cache after_first_query = Some (Some 0%nat)
  ∧ filter (λ ev, is_connect ev = true)
      (new_events after_first_query
         (run_query clients_query [] false after_first_query).2) = []
  ∧ last (log (run_query clients_query [] false after_first_query).2)
    = Some (Close 0).
Proof.
  destruct (run_query_connection clients_query [] false after_first_query)
    as (Hclose & Hhit & _).
  destruct (Hhit 0%nat) as (Hconn & Hnone & _); [reflexivity|].
  destruct (Hclose 0%nat Hconn) as (Hlast & _).
  split; [reflexivity|]. split; [exact Hnone|exact Hlast].
Defined.

Lemma failed_mutation_cases_witness :
  ((run_query insert_query order_of_bia true
      (fresh_process constrained club_database)).1 = Return QNone
   ∧ new_output (get_db_connection (fresh_process constrained club_database)).2
       (register_order true (VStr "Bia") (VStr "Water") 1 evening
          (fresh_process constrained club_database)).2
     = [query_error (mk_exn IntegrityError "violates check constraint");
        st_error "Falha ao registrar o pedido."])
  ∧ (run_query insert_query order_of_bia true after_first_query).1
    = Raise already_closed
  ∧ (register_order true (VStr "Bia") (VStr "Water") 1 evening
       after_first_query).1 = Raise already_closed
  ∧ new_output (get_db_connection after_first_query).2
      (register_order true (VStr "Bia") (VStr "Water") 1 evening
         after_first_query).2 = [].
Proof.
  split.
  - destruct (failed_mutation_cases
                (fresh_process constrained club_database) 0%nat insert_query
                order_of_bia eq_refl) as [Hopen _].
    destruct (Hopen (mk_exn IntegrityError "violates check constraint")
                eq_refl eq_refl) as [(Hr & _) Hsubmit].
    destruct (Hsubmit (VStr "Bia") (VStr "Water") 1%Z evening)
      as (_ & Hout & _);
      [reflexivity|reflexivity|reflexivity|reflexivity|lia|].
    split; [exact Hr|exact Hout].
  - destruct (failed_mutation_cases after_first_query 0%nat insert_query
                order_of_bia eq_refl) as [_ Hclosed].
    destruct (Hclosed eq_refl) as [(Hr & _) Hsubmit].
    destruct (Hsubmit (VStr "Bia") (VStr "Water") 1%Z evening)
      as (Hs & Hout & _); [reflexivity|reflexivity|lia|].
    split; [exact Hr|]. split; [exact Hs|exact Hout].
Defined.

Lemma ambiguous_key_is_refused_witness :
  (edit_or_delete_section (Pedido.tuple <$> [first_water; second_water])
     (order_key first_water) (fresh_process reliable club_database)).1
  = Return Refused
  ∧ log (edit_or_delete_section (Pedido.tuple <$> [first_water; second_water])
           (order_key first_water) (fresh_process reliable club_database)).2
    = [].
Proof.
  destruct (ambiguous_key_is_refused (fresh_process reliable club_database)
              [] first_water [] second_water [])
    as (_ & Hr & _ & Hlog & _); [reflexivity|reflexivity|reflexivity|].
  split; [exact Hr|exact Hlog].
Defined.

Lemma load_stops_at_the_second_query_witness :
  session_data (refresh_data (fresh_process reliable club_database)).2
    !! "orders"
  = Some [Pedido.tuple (Pedido.mk "Ana" "Water" 2 noon "em aberto")]
  ∧ session_data (refresh_data (fresh_process reliable club_database)).2
      !! "products" = None
  ∧ session_data (refresh_data (fresh_process reliable club_database)).2
      !! "clients" = None
  ∧ session_data (refresh_data (fresh_process reliable club_database)).2
      !! "stock" = None
  ∧ statements
      (new_events (fresh_process reliable club_database)
         (refresh_data (fresh_process reliable club_database)).2)
    = [(orders_query, [])].
Proof.
  destruct (load_stops_at_the_second_query
              (fresh_process reliable club_database) 0%nat)
    as (_ & Hp & Hc & Hs & Hst & _); [reflexivity|].
  split; [|split; [exact Hp|split; [exact Hc|split; [exact Hs|exact Hst]]]].
  destruct (refresh_data_spec (fresh_process reliable club_database))
    as (_ & -> & _).
  reflexivity.
Defined.


Lemma second_refresh_loses_the_orders_witness :
  session_data (refresh_data (fresh_process reliable club_database)).2
    !! "orders"
  = Some [Pedido.tuple (Pedido.mk "Ana" "Water" 2 noon "em aberto")]
  ∧ session_data
      (refresh_data (refresh_data (fresh_process reliable club_database)).2).2
    = ∅.
Proof.
  destruct (second_refresh_loses_the_orders
              (fresh_process reliable club_database))
    as (H1 & H2 & _); [reflexivity|].
  split; [|exact H2]. rewrite H1. reflexivity.
Defined.

Lemma empty_view_gives_notice_witness :
  (stock_vs_orders_summary empty_view_process).1 = Return ()
  ∧ new_output empty_view_process (stock_vs_orders_summary empty_view_process).2
    = [st_info "Não há dados na view vw_stock_vs_orders_summary."].
Proof.
  destruct (empty_view_gives_notice empty_view_process) as (Hr & Hout & _);
    [reflexivity|].
  split; [exact Hr|exact Hout].
Defined.

Lemma clients_dataset_is_never_loaded_witness :
  Pedido.Cliente <$> tb_pedido club_database = ["Ana"]
  ∧ session_data (refresh_data (fresh_process reliable club_database)).2
      !! "clients" = None
  ∧ ∃ customers products,
      (order_form (fresh_process reliable club_database)).1
      = Return (customers, products)
      ∧ VStr "Bia" ∈ customers.
Proof.
  destruct (clients_dataset_is_never_loaded
              (fresh_process reliable club_database) 0%nat)
    as (Hdata & _ & Hform); [reflexivity|].
  destruct Hform as (customers & products & Hform & Hall);
    [reflexivity|reflexivity|].
  split; [reflexivity|]. split; [exact Hdata|].
  exists customers, products. split; [exact Hform|].
  apply Hall. apply list_elem_of_In. simpl. auto.
Defined.

Lemma run_query_total_witness :
  ∃ r, (run_query insert_query [VStr "Bia"; VStr "Water"; VInt 1; VTime evening]
          true (fresh_process reliable club_database)).1 = Return r
       ∧ (r = QNone ∨ (true = true ∧ r = QTrue)
          ∨ (true = false ∧ ∃ rows, r = QRows rows)).
Proof.
  apply (run_query_total insert_query
           [VStr "Bia"; VStr "Water"; VInt 1; VTime evening] true
           (fresh_process reliable club_database)).
  - intros e _ He. simpl in He. discriminate.
  - intros c Hc. simpl in Hc. discriminate.
Defined.

Lemma cached_connection_is_closed_witness :
  connection_cache after_first_query = Some (Some 0%nat)
  ∧ connections after_first_query !! 0%nat = Some false
  ∧ (get_db_connection after_first_query).1 = Return (Some 0%nat).
Proof.
  apply (cached_connection_is_closed orders_query [] false
           (fresh_process reliable club_database) 0%nat).
  - reflexivity.
  - simpl. lia.
Defined.

(** * Further properties of the module *)

(** ** [format_currency] *)

Lemma replace_chain_swaps t :
  contains letter_X t = false →
  replace_char letter_X point
    (replace_char point comma (replace_char comma letter_X t))
  = string_map swap_separators t.
Proof.
  induction t as [|a t IH]; [reflexivity|].
  cbn [contains replace_char string_map].
  intros H. apply orb_false_iff in H as [Ha Ht].
  rewrite (IH Ht). f_equal. unfold swap_separators.
  destruct (Ascii.eqb_spec a comma) as [->|Hc]; [reflexivity|].
  destruct (Ascii.eqb_spec a point) as [->|Hp]; [reflexivity|].
  by rewrite Ha.
Qed.

(** X2: when the text Python makes of the amount holds no letter X (a
    number's text never does), [format_currency] returns [R$ ] followed
    by that text with every comma turned into a point and every point into
    a comma, all other characters kept. *)
Theorem format_currency_swaps_separators fixed2 value :
  contains letter_X (fixed2 value) = false →
  format_currency fixed2 value
  = "R$ " +:+ string_map swap_separators (fixed2 value).
Proof.
  intros H. unfold format_currency.
  change (replace_char comma letter_X ("R$ " +:+ fixed2 value))
    with ("R$ " +:+ replace_char comma letter_X (fixed2 value)).
  change (replace_char point comma
            ("R$ " +:+ replace_char comma letter_X (fixed2 value)))
    with ("R$ " +:+ replace_char point comma
                      (replace_char comma letter_X (fixed2 value))).
  change (replace_char letter_X point
            ("R$ " +:+ replace_char point comma
                         (replace_char comma letter_X (fixed2 value))))
    with ("R$ " +:+ replace_char letter_X point
                      (replace_char point comma
                         (replace_char comma letter_X (fixed2 value)))).
  by rewrite replace_chain_swaps.
Qed.

Lemma format_currency_swaps_separators_witness :
  format_currency (λ _, "1,234.56") (VInt 0) = "R$ 1.234,56".
Proof.
  rewrite (format_currency_swaps_separators (λ _, "1,234.56") (VInt 0));
    reflexivity.
Defined.

(** ** [upload_pdf_to_fileio] *)

(** X4: [upload_pdf_to_fileio] never raises and makes no driver call.  It
    returns something else than the empty string only when the request
    returned status 200 with a dictionary whose [success] is true and whose
    [link] is what is returned, and then nothing is written to the page; in
    every other case where something is written it is one error message,
    and the empty string is returned. *)
Theorem upload_pdf_to_fileio_outcomes requests_post pdf_bytes w :
  ∃ link out,
    upload_pdf_to_fileio requests_post pdf_bytes w
    = (Return link, set_page (page w ++ out) w)
    ∧ (link ≠ JStr "" →
       out = []
       ∧ ∃ response fields success,
           requests_post pdf_bytes = Return response
           ∧ status_code response = 200%Z
           ∧ json response = Return (JObj fields)
           ∧ fields !! "success" = Some success
           ∧ json_truthy success = true
           ∧ fields !! "link" = Some link)
    ∧ (out ≠ [] → link = JStr "" ∧ ∃ message, out = [st_error message]).
Proof.
  unfold upload_pdf_to_fileio, try_except, bind, lift, show, ret.
  assert (Hsame : set_page (page w ++ []) w = w)
    by (destruct w; unfold set_page; simpl; by rewrite app_nil_r).
  destruct (requests_post pdf_bytes) as [[status body]|e] eqn:Hpost; simpl.
  2: { eexists _, [_]. split; [reflexivity|]. split; [done|]. eauto. }
  destruct (Z.eqb_spec status 200) as [->|Hstatus]; simpl.
  2: { eexists _, [_]. split; [reflexivity|]. split; [done|]. eauto. }
  destruct body as [doc|e]; simpl.
  2: { eexists _, [_]. split; [reflexivity|]. split; [done|]. eauto. }
  destruct doc as [| | | | |fields]; simpl;
    try (eexists _, [_]; split; [reflexivity|]; split; [done|]; eauto).
  destruct (fields !! "success") as [success|] eqn:Hsuccess; simpl.
  2: { eexists _, [_]. split; [reflexivity|]. split; [done|]. eauto. }
  destruct (json_truthy success) eqn:Htruthy; simpl.
  2: { eexists _, [_]. split; [reflexivity|]. split; [done|]. eauto. }
  exists (default (JStr "") (fields !! "link")), [].
  split; [by rewrite Hsame|]. split; [|done].
  intros Hlink. split; [reflexivity|].
  exists (mk_Response 200 (Return (JObj fields))), fields, success.
  repeat split; try done.
  destruct (fields !! "link"); [reflexivity|]. by destruct Hlink.
Qed.

(** X5: when the service answers with status 200 and a dictionary whose
    [success] is true but which has no [link], [upload_pdf_to_fileio]
    returns the empty string and writes nothing: the missing link is not
    reported as a failure. *)
Theorem upload_without_link_is_silent requests_post pdf_bytes w response
    fields success :
  requests_post pdf_bytes = Return response →
  status_code response = 200%Z →
  json response = Return (JObj fields) →
  fields !! "success" = Some success →
  json_truthy success = true →
  fields !! "link" = None →
  upload_pdf_to_fileio requests_post pdf_bytes w = (Return (JStr ""), w).
Proof.
  intros Hpost Hstatus Hjson Hsuccess Htruthy Hlink.
  unfold upload_pdf_to_fileio, try_except, bind, lift, show, ret.
  rewrite Hpost. cbn [status_code json]. rewrite Hstatus, Hjson.
  cbn [Z.eqb Pos.eqb json_get]. rewrite Hsuccess.
  cbn [default from_option id]. rewrite Htruthy, Hlink. reflexivity.
Qed.

Lemma upload_without_link_is_silent_witness :
  upload_pdf_to_fileio success_without_link "%PDF"
    (fresh_process reliable club_database)
  = (Return (JStr ""), fresh_process reliable club_database).
Proof.
  apply (upload_without_link_is_silent success_without_link "%PDF" _
           (mk_Response 200 (Return (JObj {["success" := JBool true]})))
           {["success" := JBool true]} (JBool true));
    reflexivity.
Defined.

(** ** [events_calendar_page] *)

(** X6: with a start date after the end date the calendar shows its title
    and one error, and no event.  Otherwise it shows the three events, on
    the start date and the two days after it, whatever the end date is:
    the page is the same for any two end dates from the start date on, so
    the third event is shown on the second day after the start even when
    the range ends before it.  The notice that no events are scheduled is
    never written. *)
Theorem events_ignore_end_date strftime_dmy start_date end_date clicked w :
  let run := events_calendar_page strftime_dmy start_date end_date clicked w in
  ((end_date < start_date)%Z →
   new_output w run.2
   = [st_title "Calendário de Eventos";
      st_error "A data de início deve ser anterior à data de término."])
  ∧ ((start_date ≤ end_date)%Z →
     run = events_calendar_page strftime_dmy start_date start_date clicked w
     ∧ st_subheader ("Noite de Integração ("
                     +:+ strftime_dmy (start_date + 2)%Z +:+ ")")
       ∈ new_output w run.2)
  ∧ st_write "Não há eventos programados para este período."
    ∉ new_output w run.2.
Proof.
  intros run. subst run. unfold events_calendar_page.
  rewrite (proj2 (Z.ltb_ge start_date start_date)) by lia.
  destruct (Z.ltb_spec end_date start_date) as [Hlt|Hle].
  - split; [|split].
    + intros _. unfold new_output, bind, show. simpl.
      by rewrite <- app_assoc, drop_app_length.
    + lia.
    + unfold new_output, bind, show. simpl.
      rewrite <- app_assoc, drop_app_length.
      intros H. repeat (apply elem_of_cons in H as [H|H]; [discriminate|]).
      by apply elem_of_nil in H.
  - split; [lia|]. split.
    + intros _. split; [reflexivity|].
      unfold new_output, bind, show, ret, for_each, fetch_events. simpl.
      destruct (clicked "Torneio de Beach Tennis"),
               (clicked "Aula de Estratégia de Jogo"); simpl;
        rewrite <- ?app_assoc, drop_app_length;
        apply list_elem_of_In; simpl; auto 20.
    + unfold new_output, bind, show, ret, for_each, fetch_events. simpl.
      destruct (clicked "Torneio de Beach Tennis"),
               (clicked "Aula de Estratégia de Jogo"); simpl;
        rewrite <- ?app_assoc, drop_app_length;
        intros H;
        repeat (apply elem_of_cons in H as [H|H]; [discriminate|]);
        by apply elem_of_nil in H.
Qed.

Lemma events_ignore_end_date_witness :
  st_subheader ("Noite de Integração (" +:+ pretty 102%Z +:+ ")")
  ∈ new_output (fresh_process reliable club_database)
      (events_calendar_page pretty 100 100 (λ _, false)
         (fresh_process reliable club_database)).2.
Proof.
  destruct (events_ignore_end_date pretty 100 100 (λ _, false)
              (fresh_process reliable club_database)) as (_ & Hshown & _).
  destruct Hshown as [_ Hin]; [lia|]. exact Hin.
Defined.

(** X7: the confirmations the calendar writes are those of the events
    that are open for registration and whose button was clicked, in the
    order of the events; the third event, closed for registration, is
    never confirmed, and with a start date after the end date nothing
    is. *)
Theorem events_confirm_open_clicked strftime_dmy start_date end_date clicked w :
  filter (λ u, is_success u = true)
    (new_output w
       (events_calendar_page strftime_dmy start_date end_date clicked w).2)
  = if (end_date <? start_date)%Z then []
    else confirmation <$>
           filter (λ name, clicked name = true)
             ["Torneio de Beach Tennis"; "Aula de Estratégia de Jogo"].
Proof.
  unfold events_calendar_page.
  destruct (end_date <? start_date)%Z.
  - unfold new_output, bind, show. simpl.
    by rewrite <- app_assoc, drop_app_length.
  - unfold new_output, bind, show, ret, for_each, fetch_events. simpl.
    rewrite !filter_cons. simpl.
    destruct (clicked "Torneio de Beach Tennis") eqn:H1,
             (clicked "Aula de Estratégia de Jogo") eqn:H2; simpl;
      rewrite <- ?app_assoc, drop_app_length; reflexivity.
Qed.

(** ** [settings_page] and [loyalty_program_page] *)

(** X8: [settings_page] changes the user name only when the session has
    one and its button was pressed, the theme only when its button was
    pressed, and never the points; a session without a user name does not
    get one. *)
Theorem settings_page_changes new_username save_username theme_choice
    save_preferences s :
  let s' := (settings_page new_username save_username theme_choice
               save_preferences s).1 in
  ss_username s'
  = (if save_username then
       match ss_username s with
       | Some _ => Some new_username
       | None => None
       end
     else ss_username s)
  ∧ ss_theme s' = (if save_preferences then Some theme_choice else ss_theme s)
  ∧ ss_points s' = ss_points s
  ∧ (ss_username s = None → ss_username s' = None).
Proof.
  unfold settings_page.
  destruct (ss_username s) eqn:Hu, save_username, save_preferences; simpl;
    rewrite ?Hu; done.
Qed.

(** X9: the points of the loyalty page never go below zero: from a
    session whose points are not negative (or absent), and a number of
    points to add that is not negative, the page leaves the points it had,
    plus the added ones if the add button was pressed, minus 100 if the
    redeem button was pressed and at least 100 were there; the error about
    insufficient points is written exactly when the redeem button was
    pressed with fewer than 100. *)
Theorem loyalty_points_stay_nonnegative points_earned add redeem s :
  (0 ≤ default 0 (ss_points s))%Z →
  (0 ≤ points_earned)%Z →
  let run := loyalty_program_page points_earned add redeem s in
  let total := (default 0 (ss_points s)
                + if add then points_earned else 0)%Z in
  ss_points run.1
  = Some (if redeem && (100 <=? total)%Z then total - 100 else total)%Z
  ∧ (∃ points, ss_points run.1 = Some points ∧ 0 ≤ points)%Z
  ∧ (st_error "Pontos insuficientes para resgate." ∈ run.2
     ↔ redeem = true ∧ (total < 100)%Z)
  ∧ ss_username run.1 = ss_username s ∧ ss_theme run.1 = ss_theme s.
Proof.
  intros Hp He run total. subst run total.
  set (base := default 0%Z (ss_points s)) in *.
  set (total := (base + (if add then points_earned else 0))%Z).
  assert (Hrun : loyalty_program_page points_earned add redeem s
                 = (mk_Session (ss_username s) (ss_theme s)
                      (Some (if redeem && (100 <=? total)%Z
                             then total - 100 else total)%Z),
                    [st_title "Programa de Fidelidade";
                     st_subheader "Acumule pontos a cada compra!"]
                    ++ (if add
                        then [st_success
                                ("Pontos adicionados com sucesso! Total de pontos: "
                                 +:+ pretty total)]
                        else [])
                    ++ (if redeem
                        then if (100 <=? total)%Z
                             then [st_success "Prêmio resgatado com sucesso!"]
                             else [st_error "Pontos insuficientes para resgate."]
                        else []))).
  { unfold loyalty_program_page. fold base. subst total.
    destruct add, redeem; cbn [fst snd andb]; rewrite ?Z.add_0_r;
      try (destruct (100 <=? _)%Z); reflexivity. }
  rewrite Hrun. cbn [fst snd ss_points ss_username ss_theme].
  split; [reflexivity|]. split; [|split; [|done]].
  - eexists. split; [reflexivity|].
    assert (0 ≤ total)%Z by (subst total; destruct add; lia).
    destruct redeem; cbn [andb]; [|done].
    destruct (Z.leb_spec 100 total); lia.
  - split.
    + intros Hmem.
      apply elem_of_cons in Hmem as [Hmem|Hmem]; [discriminate|].
      apply elem_of_cons in Hmem as [Hmem|Hmem]; [discriminate|].
      apply elem_of_app in Hmem as [Hmem|Hmem].
      { destruct add; [|by apply elem_of_nil in Hmem].
        apply elem_of_cons in Hmem as [Hmem|Hmem]; [discriminate|].
        by apply elem_of_nil in Hmem. }
      destruct redeem; [|by apply elem_of_nil in Hmem].
      destruct (Z.leb_spec 100 total).
      * apply elem_of_cons in Hmem as [Hmem|Hmem]; [discriminate|].
        by apply elem_of_nil in Hmem.
      * done.
    + intros [-> Hlt].
      do 2 (apply elem_of_cons; right). apply elem_of_app. right.
      destruct (Z.leb_spec 100 total); [lia|]. by apply elem_of_cons; left.
Qed.

Lemma loyalty_points_stay_nonnegative_witness :
  ss_points (loyalty_program_page 30 true true session_of_ana).1 = Some 50%Z.
Proof.
  destruct (loyalty_points_stay_nonnegative 30 true true session_of_ana)
    as (Hpoints & _); [simpl; lia|lia|].
  exact Hpoints.
Defined.

(** ** The choice of an order, further *)

Lemma matching_rows_tuples l key :
  (fst <$> filter (λ rk : Row * string, rk.2 = key)
             (zip (Pedido.tuple <$> l) (order_key <$> l)))
  = Pedido.tuple <$> filter (λ o, order_key o = key) l.
Proof.
  induction l as [|o l IH]; [reflexivity|].
  change (zip (Pedido.tuple <$> o :: l) (order_key <$> o :: l))
    with ((Pedido.tuple o, order_key o)
          :: zip (Pedido.tuple <$> l) (order_key <$> l)).
  rewrite !filter_cons. cbn [snd].
  destruct (decide (order_key o = key)); rewrite ?fmap_cons, IH; reflexivity.
Qed.

Lemma filter_none {A} (P : A → Prop) `{∀ x, Decision (P x)} (l : list A) :
  (∀ x, x ∈ l → ¬ P x) → filter P l = [].
Proof.
  induction l as [|x l IH]; [reflexivity|]. intros Hall.
  rewrite filter_cons_False by (apply Hall; by apply elem_of_cons; left).
  apply IH. intros y Hy. apply Hall. by apply elem_of_cons; right.
Qed.

(** The section in closed form, by the orders whose key is the selected
    one. *)
Lemma edit_or_delete_section_eq orders o w :
  edit_or_delete_section (Pedido.tuple <$> orders) (order_key o) w
  = match filter (λ o', order_key o' = order_key o) orders with
    | [] => (Raise (mk_exn IndexError "single positional indexer is out-of-bounds"),
             set_page (page w ++ [edit_heading]) w)
    | [only] => (Return (EditForm (Pedido.tuple only)),
                 set_page (page w ++ [edit_heading]) w)
    | _ :: _ :: _ =>
        (Return Refused,
         set_page
           (page w ++
            [edit_heading;
             st_warning "Multiple orders found with the same key. Please refine your selection."])
           w)
    end.
Proof.
  unfold edit_or_delete_section, bind, show, ret, raise, edit_heading.
  rewrite unique_keys_tuples. cbn [fst snd].
  rewrite order_key_not_empty. cbn [negb].
  rewrite matching_rows_tuples.
  destruct (filter (λ o', order_key o' = order_key o) orders) as [|a [|b l]];
    [reflexivity|reflexivity|].
  rewrite !fmap_cons. cbn [length Nat.ltb Nat.leb].
  unfold set_page. simpl. by rewrite <- app_assoc.
Qed.

(** X13: when exactly one order of the cached dataset has the selected
    key, the edit-or-delete section selects the row of that order, the one
    whose key it is, for the edit form; it makes no driver call and writes
    only its heading. *)
Theorem unique_key_selects_its_order w before o after :
  (∀ o', o' ∈ before ++ after → order_key o' ≠ order_key o) →
  edit_or_delete_section (Pedido.tuple <$> (before ++ o :: after))
    (order_key o) w
  = (Return (EditForm (Pedido.tuple o)), set_page (page w ++ [edit_heading]) w).
Proof.
  intros Hothers. rewrite edit_or_delete_section_eq.
  rewrite filter_app, filter_cons_True by done.
  rewrite !filter_none; [reflexivity| |];
    intros o' Ho'; apply Hothers, elem_of_app; auto.
Qed.

Lemma unique_key_selects_its_order_witness :
  (edit_or_delete_section
     (Pedido.tuple <$> [beer_at_noon; water_at_noon])
     (order_key water_at_noon) (fresh_process reliable club_database)).1
  = Return (EditForm (Pedido.tuple water_at_noon)).
Proof.
  refine (f_equal fst
            (unique_key_selects_its_order (fresh_process reliable club_database)
               [beer_at_noon] water_at_noon [] _)).
  intros o' Ho'. rewrite app_nil_r in Ho'.
  apply list_elem_of_singleton in Ho' as ->. discriminate.
Defined.

Lemma strftime_same_second t u : same_second t u → strftime t = strftime u.
Proof.
  intros (Hy & Hmo & Hd & Hh & Hmi & Hs). unfold strftime.
  by rewrite Hy, Hmo, Hd, Hh, Hmi, Hs.
Qed.

(** X14: the key of an order is formatted to the second.  Two orders of
    one client for one product whose time stamps lie in the same second
    (they may differ in quantity, status and microseconds) have the same
    key, and choosing that key is refused: neither of the two can be
    reached by the edit form, and no driver call is made. *)
Theorem same_second_orders_are_ambiguous w before o1 between o2 after :
  Pedido.Cliente o1 = Pedido.Cliente o2 →
  Pedido.Produto o1 = Pedido.Produto o2 →
  same_second (Pedido.Data o1) (Pedido.Data o2) →
  let run :=
    edit_or_delete_section
      (Pedido.tuple <$> (before ++ o1 :: between ++ o2 :: after))
      (order_key o1) w in
  order_key o1 = order_key o2
  ∧ run.1 = Return Refused
  ∧ log run.2 = log w
  ∧ database run.2 = database w.
Proof.
  intros Hc Hp Hs run. subst run.
  assert (Hkey : order_key o2 = order_key o1).
  { unfold order_key. by rewrite Hc, Hp, (strftime_same_second _ _ Hs). }
  split; [done|].
  rewrite edit_or_delete_section_eq.
  rewrite filter_app, filter_cons_True, filter_app, filter_cons_True by done.
  destruct (filter _ before) as [|a [|b l]]; simpl;
    try destruct (filter _ between) as [|a' [|b' l']]; simpl; done.
Qed.

Lemma same_second_orders_are_ambiguous_witness :
  water_at_noon ≠ more_water_at_noon
  ∧ (edit_or_delete_section
       (Pedido.tuple <$> [water_at_noon; more_water_at_noon])
       (order_key water_at_noon) (fresh_process reliable club_database)).1
    = Return Refused.
Proof.
  split; [discriminate|].
  destruct (same_second_orders_are_ambiguous
              (fresh_process reliable club_database)
              [] water_at_noon [] more_water_at_noon [])
    as (_ & Hr & _); [reflexivity|reflexivity|by repeat split|].
  exact Hr.
Defined.

(** ** What the pages write *)

Lemma writes_new_output (P : Ui → Prop) {A} (m : M A) w :
  writes P m → Forall P (new_output w (m w).2).
Proof.
  intros Hm. destruct (Hm w) as (out & Hp & Hf).
  unfold new_output. by rewrite Hp, drop_app_length.
Qed.

Lemma texts_within_new_events L {A} (m : M A) w :
  texts_within L m →
  Forall (λ s : string * list Value, s.1 ∈ L) (statements (new_events w (m w).2)).
Proof.
  intros Hm. destruct (Hm w) as (evs & Hl & Hf).
  unfold new_events. by rewrite Hl, drop_app_length.
Qed.

Section Writes.
Context (P : Ui → Prop).

Lemma writes_quiet {A} (m : M A) :
  (∀ w, page (m w).2 = page w) → writes P m.
Proof.
  intros H w. exists []. rewrite app_nil_r. split; [apply H|constructor].
Qed.

Lemma writes_ret {A} (a : A) : writes P (ret a).
Proof. by apply writes_quiet. Qed.

Lemma writes_raise {A} e : writes P (@raise A e).
Proof. by apply writes_quiet. Qed.

Lemma writes_data_get key : writes P (data_get key).
Proof. by apply writes_quiet. Qed.

Lemma writes_show u : P u → writes P (show u).
Proof. intros Hu w. exists [u]. split; [reflexivity|by constructor]. Qed.

Lemma writes_bind {A B} (m : M A) (k : A → M B) :
  writes P m → (∀ a, writes P (k a)) → writes P (bind m k).
Proof.
  intros Hm Hk w. unfold bind.
  destruct (Hm w) as (o1 & Hp1 & Hf1).
  destruct (m w) as [[a|e] w1]; simpl in Hp1.
  - destruct (Hk a w1) as (o2 & Hp2 & Hf2).
    exists (o1 ++ o2). rewrite Hp2, Hp1, <- app_assoc. split; [done|].
    by apply Forall_app.
  - by exists o1.
Qed.

Lemma writes_try_except {A} (m : M A) (h : Exn → M A) :
  writes P m → (∀ e, writes P (h e)) → writes P (try_except m h).
Proof.
  intros Hm Hh w. unfold try_except.
  destruct (Hm w) as (o1 & Hp1 & Hf1).
  destruct (m w) as [[a|e] w1]; simpl in Hp1.
  - by exists o1.
  - destruct (Hh e w1) as (o2 & Hp2 & Hf2).
    exists (o1 ++ o2). rewrite Hp2, Hp1, <- app_assoc. split; [done|].
    by apply Forall_app.
Qed.

Hypothesis errors_allowed : ∀ u, is_error u = true → P u.

Lemma writes_run_query q vals commit : writes P (run_query q vals commit).
Proof.
  intros w. destruct (run_query_frame q vals commit w)
    as (_ & _ & _ & _ & _ & out & Hp & Hf).
  exists out. split; [exact Hp|].
  eapply Forall_impl; [exact Hf|]. exact errors_allowed.
Qed.

Lemma writes_refresh_data : writes P refresh_data.
Proof.
  intros w. destruct (refresh_data_spec w)
    as (_ & _ & _ & _ & _ & _ & _ & _ & out & Hp & Hf & _).
  exists out. split; [exact Hp|].
  eapply Forall_impl; [exact Hf|]. exact errors_allowed.
Qed.

End Writes.

(** ** The orders page *)

Lemma yields_ret {A} (Q : A → Prop) a : Q a → yields Q (ret a).
Proof. intros Ha w b [= <-]. exact Ha. Qed.

Lemma yields_bind {A B} (Q : B → Prop) (m : M A) (k : A → M B) :
  (∀ a, yields Q (k a)) → yields Q (bind m k).
Proof.
  intros Hk w b. unfold bind.
  destruct (m w) as [[a|e] w1]; [apply Hk|discriminate].
Qed.

Lemma orders_page_yields username customer_name product quantity submit_button
    now selected_key :
  username ≠ Some "admin" →
  yields (λ sel, sel = NoSelection)
    (orders_page username customer_name product quantity submit_button now
                 selected_key).
Proof.
  intros Hu. unfold orders_page.
  do 4 (apply yields_bind; intros _).
  apply yields_bind. intros orders_data.
  destruct orders_data as [|row rows]; [by apply yields_ret|].
  do 3 (apply yields_bind; intros _).
  rewrite decide_False by done. by apply yields_ret.
Qed.

Lemma orders_page_writes username customer_name product quantity submit_button
    now selected_key :
  username ≠ Some "admin" →
  writes (λ u, u ≠ edit_heading)
    (orders_page username customer_name product quantity submit_button now
                 selected_key).
Proof.
  intros Hu.
  assert (Herr : ∀ u, is_error u = true → u ≠ edit_heading)
    by (intros [] ?; done).
  unfold orders_page, order_form, register_order.
  do 2 (apply writes_bind; [by apply writes_show|intros _]).
  apply writes_bind.
  { apply writes_bind; [apply writes_data_get|intros product_data].
    apply writes_bind; [by apply writes_run_query|intros clientes].
    apply writes_ret. }
  intros _. apply writes_bind.
  { destruct submit_button; [|apply writes_ret].
    destruct (_ && _); [|by apply writes_show].
    apply writes_bind; [by apply writes_run_query|intros success].
    destruct (truthy success); [|by apply writes_show].
    apply writes_bind; [by apply writes_show|intros _].
    by apply writes_refresh_data. }
  intros _. apply writes_bind; [apply writes_data_get|intros orders_data].
  destruct orders_data as [|row rows]; [apply writes_ret|].
  do 3 (apply writes_bind; [by apply writes_show|intros _]).
  rewrite decide_False by done. apply writes_ret.
Qed.

(** X19: for every user other than [admin] the orders page never reaches
    the edit-or-delete section, whatever is submitted, whatever key is
    selected and whatever the server does: the heading of the section is
    not written, and when the page returns no order is selected or
    refused. *)
Theorem orders_page_hides_edit_section username customer_name product quantity
    submit_button now selected_key w :
  username ≠ Some "admin" →
  let run := orders_page username customer_name product quantity submit_button
               now selected_key w in
  Forall (λ u, u ≠ edit_heading) (new_output w run.2)
  ∧ (∀ sel, run.1 = Return sel → sel = NoSelection).
Proof.
  intros Hu run. subst run. split.
  - by apply writes_new_output, orders_page_writes.
  - intros sel Hsel.
    by apply (orders_page_yields username customer_name product quantity
                submit_button now selected_key Hu w).
Qed.

Lemma orders_page_hides_edit_section_witness :
  Forall (λ u, u ≠ edit_heading)
    (new_output after_first_query
       (orders_page (Some "ana") (VStr "Ana") (VStr "Water") 1 true noon
          (order_key first_water) after_first_query).2).
Proof.
  apply (orders_page_hides_edit_section (Some "ana") (VStr "Ana") (VStr "Water")
           1 true noon (order_key first_water) after_first_query).
  discriminate.
Defined.

(** ** What [run_query] leaves alone, and what it loses *)

(** X10: [run_query] never touches the snapshot: after any call, also a
    committed mutation, the session's data and the cache of
    [load_all_data] are what they were, so [load_all_data] keeps returning
    the dictionary stored before, without a driver call, writing again
    what the stored load wrote, until [refresh_data] is called; and a call
    with [commit] false leaves the database as it was. *)
Theorem run_query_keeps_snapshot q vals commit w :
  let w' := (run_query q vals commit w).2 in
  data_cache w' = data_cache w
  ∧ session_data w' = session_data w
  ∧ (commit = false → database w' = database w)
  ∧ ∀ stored written,
      data_cache w = Some (stored, written) →
      (load_all_data w').1 = Return stored
      ∧ log (load_all_data w').2 = log w'
      ∧ database (load_all_data w').2 = database w'
      ∧ new_output w' (load_all_data w').2 = written.
Proof.
  intros w'. subst w'.
  destruct (run_query_frame q vals commit w) as (_ & Hdc & Hsd & Hdb & _).
  split; [exact Hdc|]. split; [exact Hsd|]. split; [exact Hdb|].
  intros stored written Hs. unfold load_all_data, cache_data.
  rewrite Hdc, Hs. cbn [fst snd log database set_page].
  do 3 (split; [reflexivity|]).
  unfold new_output. cbn [page set_page]. apply drop_app_length.
Qed.

(** X11: an [INSERT] run with [commit] false is lost: when it gets to the
    server, over an open connection, and the server executes it,
    [run_query] fetches from a cursor that has nothing to fetch, rolls
    back, reports the error and returns [None], and the table is as
    before. *)
Theorem insert_without_commit_is_lost w c client product quantity now :
  (get_db_connection w).1 = Return (Some c) →
  connections (get_db_connection w).2 !! c = Some true →
  let vals := [VStr client; VStr product; VInt quantity; VTime now] in
  execute_raises (env w) insert_query vals = None →
  let run := run_query insert_query vals false w in
  run.1 = Return QNone
  ∧ database run.2 = database w
  ∧ new_events (get_db_connection w).2 run.2
    = [Execute c insert_query vals; Fetchall c; Rollback c; Close c]
  ∧ new_output (get_db_connection w).2 run.2
    = [query_error (mk_exn ProgrammingError "no results to fetch")].
Proof.
  intros Hc Ho vals Hex run. subst run vals.
  rewrite run_query_on_connection.
  destruct (get_db_connection_frame w) as (He & Hd & _).
  destruct (get_db_connection w) as [r w1]. simpl in *. subst r.
  unfold on_connection.
  rewrite (is_open_lookup _ _ Ho), He, Hex, Hd, execute_insert_query.
  unfold new_events, new_output. simpl. rewrite !drop_app_length.
  done.
Qed.

Lemma insert_without_commit_is_lost_witness :
  (run_query insert_query order_of_bia false
     (fresh_process reliable club_database)).1 = Return QNone
  ∧ database (run_query insert_query order_of_bia false
                (fresh_process reliable club_database)).2 = club_database.
Proof.
  destruct (insert_without_commit_is_lost
              (fresh_process reliable club_database) 0%nat
              "Bia" "Water" 1 evening) as (Hr & Hdb & _);
    [reflexivity|reflexivity|reflexivity|].
  split; [exact Hr|exact Hdb].
Defined.

(** X12: a failed connection is remembered.  When the cache is empty and
    [psycopg2.connect] raises [OperationalError], the call returns [None]
    and [None] is what the cache holds from then on: every later call of
    [run_query], in whatever environment (also with a server that has
    become reachable), returns [None] without a driver call, and the
    connection error is written to the page once more each time. *)
Theorem connection_failure_is_cached q vals commit w e :
  connection_cache w = None →
  connect_raises (env w) = Some e →
  exn_class e = OperationalError →
  let w1 := (run_query q vals commit w).2 in
  (run_query q vals commit w).1 = Return QNone
  ∧ new_output w w1 = [st_error connection_error_text]
  ∧ ∀ env' q' vals' commit',
      run_query q' vals' commit' (set_env env' w1)
      = (Return QNone,
         set_page (page w1 ++ [st_error connection_error_text])
                  (set_env env' w1)).
Proof.
  intros Hc He Hclass w1. subst w1.
  rewrite run_query_on_connection, get_db_connection_eq, Hc, He.
  rewrite decide_True by done. simpl.
  split; [reflexivity|]. split.
  { unfold new_output. simpl. by rewrite drop_app_length. }
  intros env' q' vals' commit'.
  rewrite run_query_on_connection, get_db_connection_eq. reflexivity.
Qed.

Lemma connection_failure_is_cached_witness :
  (run_query orders_query [] false
     (set_env reliable
        (run_query orders_query [] false
           (fresh_process unreachable_server club_database)).2)).1
  = Return QNone
  ∧ log (run_query orders_query [] false
           (set_env reliable
              (run_query orders_query [] false
                 (fresh_process unreachable_server club_database)).2)).2
    = [].
Proof.
  destruct (connection_failure_is_cached orders_query [] false
              (fresh_process unreachable_server club_database)
              (mk_exn OperationalError "could not connect to server"))
    as (_ & _ & Hlater); [reflexivity|reflexivity|reflexivity|].
  rewrite Hlater. split; reflexivity.
Defined.

(** X23: after a call of [run_query] that was handed a connection, every
    later call of the process raises [InterfaceError]: it is handed the
    cached connection, which is closed; [conn.cursor()] raises, and so
    does [conn.rollback()] in the handler.  The statement does not get to
    the server, nothing is written to the page, and the database is as it
    was. *)
Theorem later_calls_raise q vals commit w c :
  (get_db_connection w).1 = Return (Some c) →
  let w' := (run_query q vals commit w).2 in
  ∀ q' vals' commit',
    let later := run_query q' vals' commit' w' in
    later.1 = Raise already_closed
    ∧ new_events w' later.2 = [Rollback c; Close c]
    ∧ new_output w' later.2 = []
    ∧ database later.2 = database w'.
Proof.
  intros Hc w' q' vals' commit' later. subst later w'.
  destruct (get_db_connection_frame w) as (_ & _ & _ & _ & Hcache & _).
  destruct (Hcache _ Hc) as [Hcc _].
  destruct (run_query_exhausts q vals commit w) as (Hc' & Hx').
  assert (Hcached : connection_cache (run_query q vals commit w).2
                    = Some (Some c)).
  { rewrite run_query_on_connection.
    destruct (get_db_connection w) as [r w1]. simpl in *. subst r.
    by destruct (on_connection_world c q vals commit w1)
      as (mid & out & db & -> & _). }
  set (w' := (run_query q vals commit w).2) in *.
  assert (Hclosed : is_open c w' = false).
  { unfold executes in Hx'.
    by rewrite (get_db_connection_cached w' c Hcached) in Hx'. }
  rewrite run_query_on_connection, (get_db_connection_cached w' c Hcached).
  unfold on_connection. rewrite Hclosed.
  unfold new_events, new_output. simpl.
  rewrite !drop_app_length. done.
Qed.

Lemma later_calls_raise_witness :
  (run_query clients_query [] false after_first_query).1 = Raise already_closed
  ∧ new_events after_first_query
      (run_query clients_query [] false after_first_query).2
    = [Rollback 0; Close 0].
Proof.
  destruct (later_calls_raise orders_query [] false
              (fresh_process reliable club_database) 0%nat eq_refl
              clients_query [] false) as (Hr & Hev & _).
  split; [exact Hr|exact Hev].
Defined.

(** ** The home page *)

Lemma is_error_plain u : is_error u = true → plain u.
Proof. by destruct u. Qed.

Lemma home_page_writes_plain format_currency username :
  username ≠ Some "admin" → writes plain (home_page format_currency username).
Proof.
  intros Hu. unfold home_page.
  do 2 (apply writes_bind; [by apply writes_show|intros _]).
  apply writes_bind; [apply writes_run_query, is_error_plain|intros cc].
  apply writes_bind; [destruct (_ && _); by apply writes_show|intros _].
  rewrite decide_False by done. apply writes_ret.
Qed.

Lemma home_page_for_users format_currency username w :
  username ≠ Some "admin" →
  home_page format_currency username w
  = match run_query client_count_query [VStr "em aberto"] false
            (set_page (page w ++ home_heading) w) with
    | (Return cc, w1) =>
        (Return (),
         set_page
           (page w1 ++
            [if truthy cc && (0 <? int_of (cell 0 (nth 0 (or_empty cc) [])))%Z
             then st_success ("Há "
                    +:+ py_str (cell 0 (nth 0 (or_empty cc) []))
                    +:+ " clientes com pedidos em aberto!")
             else st_info "Nenhum cliente com pedido em aberto no momento."])
           w1)
    | (Raise e, w1) => (Raise e, w1)
    end.
Proof.
  intros Hu. unfold home_page. rewrite decide_False by done.
  rewrite !bind_show_eq.
  assert (Hw0 : set_page
                  (page (set_page (page w ++ [st_title "🎾 Boituva Beach Club 🎾"]) w)
                   ++ [st_write "📍 Av. Do Trabalhador, 1879 — 🏆 5° Open BBC"])
                  (set_page (page w ++ [st_title "🎾 Boituva Beach Club 🎾"]) w)
                = set_page (page w ++ home_heading) w).
  { unfold set_page, home_heading. simpl. by rewrite <- app_assoc. }
  rewrite Hw0. unfold bind at 1.
  destruct (run_query _ _ _ _) as [[cc|e] w1]; [|reflexivity].
  unfold bind, ret.
  destruct (truthy cc && _); reflexivity.
Qed.

Lemma executes_shown2 w p q : executes (set_page q (set_page p w)) = executes w.
Proof.
  rewrite (proj2 (get_db_connection_set_page q _)).
  apply get_db_connection_set_page.
Qed.

(** X15: for every user other than [admin] (and for a session without a
    user name) the home page shows no table, no download and no heading
    of a summary, only its title, the address line, error messages and the
    notification; the only statement it can execute is the count of
    clients with an open order, with the status as its parameter, and the
    database is left as it was.  This holds whatever the server does. *)
Theorem home_page_hides_admin_parts format_currency username w :
  username ≠ Some "admin" →
  let w' := (home_page format_currency username w).2 in
  Forall plain (new_output w w')
  ∧ statements (new_events w w')
    = (if executes w then [(client_count_query, [VStr "em aberto"])] else [])
  ∧ database w' = database w.
Proof.
  intros Hu w'. subst w'.
  split; [by apply writes_new_output, home_page_writes_plain|].
  rewrite home_page_for_users by done.
  set (w0 := set_page (page w ++ home_heading) w).
  destruct (run_query_statements client_count_query [VStr "em aberto"] false w0)
    as (evs & Hl & Hst & _).
  destruct (run_query_frame client_count_query [VStr "em aberto"] false w0)
    as (_ & _ & _ & Hdb & _).
  specialize (Hdb eq_refl).
  assert (Hx0 : executes w0 = executes w) by apply get_db_connection_set_page.
  rewrite Hx0 in Hst.
  change (log w0) with (log w) in Hl. change (database w0) with (database w) in Hdb.
  destruct (run_query _ _ _ w0) as [[cc|e] w1];
    cbn [fst snd] in *; unfold new_events; cbn [log set_page];
    by rewrite Hl, drop_app_length, Hst.
Qed.

Lemma home_page_hides_admin_parts_witness :
  Forall plain
    (new_output (fresh_process reliable club_database)
       (home_page py_str (Some "ana") (fresh_process reliable club_database)).2)
  ∧ statements
      (new_events (fresh_process reliable club_database)
         (home_page py_str (Some "ana") (fresh_process reliable club_database)).2)
    = [(client_count_query, [VStr "em aberto"])].
Proof.
  destruct (home_page_hides_admin_parts py_str (Some "ana")
              (fresh_process reliable club_database))
    as (Hout & Hst & _); [discriminate|].
  split; [exact Hout|exact Hst].
Defined.

Ltac writes_steps :=
  repeat first
    [ apply writes_ret | apply writes_raise | apply writes_data_get
    | apply writes_show; done
    | apply writes_run_query; done
    | apply writes_refresh_data; done
    | apply writes_bind; [|intros ?]
    | apply writes_try_except; [|intros ?]
    | apply writes_quiet; intros ?; unfold convert_df_to_pdf;
      by destruct (pdf_raises _ _ _)
    | by apply writes_quiet
    | match goal with |- writes _ (if ?b then _ else _) => destruct b end ].

Lemma execute_client_count_query db st :
  execute db client_count_query [VStr st]
  = Some (ResultSet [[VInt (clients_with_status st db)]], db).
Proof. reflexivity. Qed.

(** X16: when the count gets to the server, over an open connection, and
    the server answers it, the home page of every user starts with the
    title, the address line and the notification, and the notification
    tells the number of distinct clients that have an order with status
    [em aberto]: the success message with that number when there is one,
    the notice that nobody has an open order when there is none.  For a
    user other than [admin] nothing follows. *)
Theorem home_page_counts_open_clients format_currency username w c :
  (get_db_connection w).1 = Return (Some c) →
  connections (get_db_connection w).2 !! c = Some true →
  execute_raises (env w) client_count_query [VStr "em aberto"] = None →
  ∃ rest,
    new_output w (home_page format_currency username w).2
    = home_heading
      ++ notification (clients_with_status "em aberto" (database w)) :: rest
    ∧ (username ≠ Some "admin" → rest = []).
Proof.
  intros Hc Ho He. pose proof (executes_open w c Hc Ho) as Hx.
  unfold home_page. rewrite !bind_show_eq.
  set (w0 := set_page _ (set_page _ w)).
  assert (Hp0 : page w0 = page w ++ home_heading).
  { unfold w0, home_heading. simpl. by rewrite <- app_assoc. }
  assert (Hx0 : executes w0 = true) by (unfold w0; by rewrite executes_shown2).
  pose proof (run_query_read client_count_query [VStr "em aberto"] w0) as Hr.
  unfold read_result, answer in Hr. rewrite Hx0 in Hr.
  change (env w0) with (env w) in Hr. rewrite He in Hr.
  rewrite execute_client_count_query in Hr.
  change (database w0) with (database w) in Hr.
  pose proof (run_query_rows_page _ _ w0 _ Hr) as Hp1.
  rewrite Hp0 in Hp1.
  unfold bind at 1.
  destruct (run_query client_count_query [VStr "em aberto"] false w0)
    as [r w1].
  cbn [fst snd] in Hr, Hp1. subst r.
  set (n := clients_with_status "em aberto" (database w)).
  unfold bind at 1.
  cbn [truthy andb or_empty nth cell int_of py_str].
  assert (Hshow : (if (0 <? n)%Z
                   then show (st_success ("Há " +:+ pretty n
                                 +:+ " clientes com pedidos em aberto!"))
                   else show (st_info "Nenhum cliente com pedido em aberto no momento."))
                  = show (notification n)).
  { unfold notification. by destruct (0 <? n)%Z. }
  rewrite Hshow. unfold show at 1.
  set (w2 := set_page _ w1).
  assert (Hp2 : page w2 = page w ++ home_heading ++ [notification n]).
  { unfold w2. simpl. by rewrite Hp1, <- app_assoc. }
  destruct (decide (username = Some "admin")) as [Hadmin|Hother].
  - match goal with
    | |- context [snd (?m w2)] =>
        assert (Hw : writes (λ _, True) m)
          by (unfold stock_vs_orders_summary, df_sort_values; writes_steps)
    end.
    destruct (Hw w2) as (rest & Hrest & _).
    exists rest. split; [|done].
    unfold new_output. rewrite Hrest, Hp2, <- !app_assoc, drop_app_length.
    reflexivity.
  - exists []. split; [|done].
    unfold new_output, ret. cbn [snd]. by rewrite Hp2, drop_app_length.
Qed.

Lemma home_page_counts_open_clients_witness :
  new_output (fresh_process reliable club_database)
    (home_page py_str (Some "ana") (fresh_process reliable club_database)).2
  = home_heading ++ [st_success "Há 1 clientes com pedidos em aberto!"].
Proof.
  destruct (home_page_counts_open_clients py_str (Some "ana")
              (fresh_process reliable club_database) 0)
    as (rest & Hout & Hrest); [reflexivity|reflexivity|reflexivity|].
  rewrite Hout, Hrest by discriminate. reflexivity.
Defined.

(** ** After the first query *)

Lemma set_page_id w : set_page (page w) w = w.
Proof. by destruct w. Qed.

Lemma idle_page_only {A} (m : M A) : page_only m → idle m.
Proof.
  intros Hm w Hx. destruct (Hm w) as (a & p & ->). cbn [snd].
  split; [exists []; by rewrite app_nil_r|]. split; [reflexivity|].
  by rewrite (proj2 (get_db_connection_set_page p w)).
Qed.

Lemma page_only_ret {A} (a : A) : page_only (ret a).
Proof. intros w. exists a, (page w). unfold ret. by rewrite set_page_id. Qed.

Lemma page_only_show u : page_only (show u).
Proof. intros w. by eexists _, _. Qed.

Lemma page_only_data_get key : page_only (data_get key).
Proof.
  intros w. eexists _, (page w). unfold data_get. by rewrite set_page_id.
Qed.

Lemma page_only_df_sort_values i rows : page_only (df_sort_values i rows).
Proof.
  intros w. eexists _, (page w). unfold df_sort_values. by rewrite set_page_id.
Qed.

Lemma idle_raise {A} e : idle (@raise A e).
Proof.
  intros w Hx. split; [exists []; by rewrite app_nil_r|]. by split.
Qed.

Lemma idle_convert_df_to_pdf columns rows : idle (convert_df_to_pdf columns rows).
Proof.
  intros w Hx. unfold convert_df_to_pdf.
  destruct (pdf_raises (env w) columns rows);
    (split; [exists []; by rewrite app_nil_r|]; by split).
Qed.

Lemma idle_bind {A B} (m : M A) (k : A → M B) :
  idle m → (∀ a, idle (k a)) → idle (bind m k).
Proof.
  intros Hm Hk w Hx. unfold bind.
  destruct (Hm w Hx) as ((e1 & Hl1 & Hs1) & Hd1 & Hx1).
  destruct (m w) as [[a|e] w1]; cbn [fst snd] in *.
  - destruct (Hk a w1 Hx1) as ((e2 & Hl2 & Hs2) & Hd2 & Hx2).
    split; [|split; [congruence|exact Hx2]].
    exists (e1 ++ e2). rewrite Hl2, Hl1, <- app_assoc. split; [done|].
    by rewrite statements_app, Hs1, Hs2.
  - split; [by exists e1|]. by split.
Qed.

Lemma idle_try_except {A} (m : M A) (h : Exn → M A) :
  idle m → (∀ e, idle (h e)) → idle (try_except m h).
Proof.
  intros Hm Hh w Hx. unfold try_except.
  destruct (Hm w Hx) as ((e1 & Hl1 & Hs1) & Hd1 & Hx1).
  destruct (m w) as [[a|e] w1]; cbn [fst snd] in *.
  - split; [by exists e1|]. by split.
  - destruct (Hh e w1 Hx1) as ((e2 & Hl2 & Hs2) & Hd2 & Hx2).
    split; [|split; [congruence|exact Hx2]].
    exists (e1 ++ e2). rewrite Hl2, Hl1, <- app_assoc. split; [done|].
    by rewrite statements_app, Hs1, Hs2.
Qed.

Lemma idle_run_query q vals commit : idle (run_query q vals commit).
Proof.
  intros w Hx.
  destruct (run_query_statements q vals commit w) as (evs & Hl & Hst & _).
  destruct (run_query_idle q vals commit w Hx) as (_ & _ & Hdb).
  destruct (run_query_exhausts q vals commit w) as (_ & Hx').
  rewrite Hx in Hst. split; [by exists evs|]. by split.
Qed.

Lemma idle_refresh_data : idle refresh_data.
Proof.
  intros w Hx.
  destruct (refresh_data_spec w)
    as (_ & _ & _ & _ & Hd & _ & Hx' & (evs & Hl & Hst) & _).
  unfold fetch_statements in Hst. rewrite Hx in Hst.
  split; [by exists evs|]. by split.
Qed.

Ltac idle_steps :=
  repeat first
    [ apply idle_raise | apply idle_run_query | apply idle_refresh_data
    | apply idle_convert_df_to_pdf
    | apply idle_page_only;
      first [ apply page_only_ret | apply page_only_show
            | apply page_only_data_get | apply page_only_df_sort_values
            | by (intros ?; eexists _, _) ]
    | apply idle_bind; [|intros ?]
    | apply idle_try_except; [|intros ?]
    | match goal with |- idle (if ?b then _ else _) => destruct b end
    | match goal with |- idle (match ?l with [] => _ | _ :: _ => _ end) =>
        destruct l end
    | match goal with |- idle (match ?r with Return _ => _ | Raise _ => _ end) =>
        destruct r end ].

Lemma first_query_run_query q vals :
  first_query q vals (run_query q vals false).
Proof.
  intros w.
  destruct (run_query_statements q vals false w) as (evs & Hl & Hst & _).
  destruct (run_query_frame q vals false w) as (_ & _ & _ & Hdb & _).
  destruct (run_query_exhausts q vals false w) as (_ & Hx').
  split; [by exists evs|]. split; [by apply Hdb|exact Hx'].
Qed.

Lemma first_query_bind {A B} q vals (m : M A) (k : A → M B) :
  first_query q vals m → (∀ a, idle (k a)) → first_query q vals (bind m k).
Proof.
  intros Hm Hk w. unfold bind.
  destruct (Hm w) as ((e1 & Hl1 & Hs1) & Hd1 & Hx1).
  destruct (m w) as [[a|e] w1]; cbn [fst snd] in *.
  - destruct (Hk a w1 Hx1) as ((e2 & Hl2 & Hs2) & Hd2 & Hx2).
    split; [|split; [congruence|exact Hx2]].
    exists (e1 ++ e2). rewrite Hl2, Hl1, <- app_assoc. split; [done|].
    by rewrite statements_app, Hs1, Hs2, app_nil_r.
  - split; [by exists e1|]. by split.
Qed.

Lemma first_query_after {A B} q vals (m : M A) (k : A → M B) :
  page_only m → (∀ a, first_query q vals (k a)) → first_query q vals (bind m k).
Proof.
  intros Hm Hk w. unfold bind. destruct (Hm w) as (a & p & ->).
  destruct (Hk a (set_page p w)) as ((evs & Hl & Hs) & Hd & Hx).
  rewrite (proj2 (get_db_connection_set_page p w)) in Hs.
  split; [by exists evs|]. by split.
Qed.

Lemma edit_or_delete_section_idle orders_data selected_key :
  idle (edit_or_delete_section orders_data selected_key).
Proof. unfold edit_or_delete_section. idle_steps. Qed.

Lemma register_order_idle submit_button customer_name product quantity now :
  idle (register_order submit_button customer_name product quantity now).
Proof. unfold register_order. idle_steps. Qed.

Lemma orders_page_first_query username customer_name product quantity
    submit_button now selected_key :
  first_query clientes_query []
    (orders_page username customer_name product quantity submit_button now
                 selected_key).
Proof.
  unfold orders_page, order_form.
  do 2 (apply first_query_after; [apply page_only_show|intros _]).
  apply first_query_bind.
  { apply first_query_after; [apply page_only_data_get|intros product_data].
    apply first_query_bind; [apply first_query_run_query|intros clientes].
    apply idle_page_only, page_only_ret. }
  intros _. apply idle_bind; [apply register_order_idle|intros _].
  apply idle_bind; [apply idle_page_only, page_only_data_get|intros orders_data].
  destruct orders_data as [|row rows]; [apply idle_page_only, page_only_ret|].
  do 3 (apply idle_bind; [apply idle_page_only, page_only_show|intros _]).
  destruct (decide (username = Some "admin"));
    [apply edit_or_delete_section_idle|apply idle_page_only, page_only_ret].
Qed.

(** X20: the orders page never executes the [INSERT].  Whatever is
    submitted and whoever the user is, the only statement the page can get
    to the server is the query of the form on [tb_clientes], the first it
    makes: the [INSERT] of a valid submission is made on the connection
    that query closed (or on none), so no order is stored and the database
    is as it was. *)
Theorem orders_page_never_inserts username customer_name product quantity
    submit_button now selected_key w :
  let run := orders_page username customer_name product quantity submit_button
               now selected_key w in
  statements (new_events w run.2)
  = (if executes w then [(clientes_query, [])] else [])
  ∧ database run.2 = database w.
Proof.
  intros run. subst run.
  destruct (orders_page_first_query username customer_name product quantity
              submit_button now selected_key w)
    as ((evs & Hl & Hst) & Hd & _).
  by rewrite (new_events_app _ _ _ Hl).
Qed.

(** ** The menu *)

Lemma idle_result_cases w :
  executes w = false →
  (∀ c, (get_db_connection w).1 = Return (Some c) →
        idle_result w = Raise already_closed)
  ∧ ((∃ e, idle_result w = Raise e) ∨ idle_result w = Return QNone).
Proof.
  intros Hx. unfold idle_result.
  destruct ((get_db_connection w).1) as [[c|]|e]; (split; [by intros ? [=]|]);
    eauto.
Qed.

(** X18: the menu never lists a product.  The query of the products of
    the chosen category is the second the page makes: it is made on the
    connection the query of the categories closed, or on none.  So the page
    shows its title, errors and at most the warning that the category has
    no product, whatever [tb_products] holds; and whenever a connection is
    handed over the page ends in [InterfaceError]. *)
Theorem menu_page_never_lists_products format_currency category w :
  value_truthy category = true →
  let run := menu_page format_currency category w in
  Forall no_product_line (new_output w run.2)
  ∧ (∀ c, (get_db_connection w).1 = Return (Some c) →
          run.1 = Raise already_closed)
  ∧ statements (new_events w run.2)
    = (if executes w then [(categories_query, [])] else []).
Proof.
  intros Hcat run. subst run.
  split; [|split; [|apply menu_page_statements]].
  - unfold menu_page. rewrite Hcat, bind_show_eq.
    set (w0 := set_page _ w).
    destruct (run_query_frame categories_query [] false w0)
      as (_ & _ & _ & _ & _ & o1 & Hp1 & Hf1).
    destruct (run_query_exhausts categories_query [] false w0) as (_ & Hx1).
    change (page w0) with (page w ++ [st_title "Cardápio"]) in Hp1.
    assert (Herr : ∀ out, Forall (λ u, is_error u = true) out →
                          Forall no_product_line out).
    { intros out Hout. eapply Forall_impl; [exact Hout|].
      intros u Hu. right. by left. }
    unfold bind at 1.
    destruct (run_query categories_query [] false w0) as [[r1|e1] w1];
      cbn [fst snd] in *.
    2: { rewrite (new_output_app _ _ ([st_title "Cardápio"] ++ o1))
           by (by rewrite Hp1, <- app_assoc).
         apply Forall_app. split; [|by apply Herr].
         constructor; [by left|constructor]. }
    destruct (run_query_idle menu_query [category] false w1 Hx1) as (Hr2 & _).
    destruct (idle_result_cases w1 Hx1) as (_ & Hcases).
    destruct (run_query_frame menu_query [category] false w1)
      as (_ & _ & _ & _ & _ & o2 & Hp2 & Hf2).
    unfold bind at 1.
    destruct (run_query menu_query [category] false w1) as [r2 w2];
      cbn [fst snd] in *.
    rewrite Hr2. destruct Hcases as [[e ->]| ->]; cbn [truthy snd].
    + rewrite (new_output_app _ _ ([st_title "Cardápio"] ++ o1 ++ o2))
        by (by rewrite Hp2, Hp1, <- !app_assoc).
      apply Forall_app. split; [constructor; [by left|constructor]|].
      apply Forall_app. split; by apply Herr.
    + unfold show. cbn [snd page set_page].
      rewrite (new_output_app _ _ ([st_title "Cardápio"] ++ o1 ++ o2
                 ++ [st_warning "Nenhum produto encontrado para esta categoria."]))
        by (by rewrite Hp2, Hp1, <- !app_assoc).
      apply Forall_app. split; [constructor; [by left|constructor]|].
      apply Forall_app. split; [by apply Herr|].
      apply Forall_app. split; [by apply Herr|].
      constructor; [by right; right|constructor].
  - intros c Hc. unfold menu_page. rewrite Hcat, bind_show_eq.
    set (w0 := set_page _ w).
    assert (Hc0 : (get_db_connection w0).1 = Return (Some c)).
    { unfold w0. by rewrite (proj1 (get_db_connection_set_page _ w)). }
    pose proof (run_query_result categories_query [] false w0) as Hr1.
    destruct (run_query_exhausts categories_query [] false w0) as (Hc1 & Hx1).
    rewrite Hc0 in Hc1.
    unfold bind at 1.
    destruct (run_query categories_query [] false w0) as [r1 w1];
      cbn [fst snd] in *.
    destruct (executes w0).
    2: { subst r1. unfold idle_result. by rewrite Hc0. }
    subst r1.
    destruct (run_query_idle menu_query [category] false w1 Hx1) as (Hr2 & _).
    unfold idle_result in Hr2. rewrite Hc1 in Hr2.
    unfold bind at 1.
    destruct (run_query menu_query [category] false w1) as [r2 w2];
      cbn [fst snd] in *.
    by subst r2.
Qed.

Lemma menu_page_never_lists_products_witness :
  (menu_page py_str (VStr "Bebidas") (fresh_process reliable club_database)).1
  = Raise already_closed
  ∧ new_output (fresh_process reliable club_database)
      (menu_page py_str (VStr "Bebidas")
         (fresh_process reliable club_database)).2
    = [st_title "Cardápio"].
Proof.
  destruct (menu_page_never_lists_products py_str (VStr "Bebidas")
              (fresh_process reliable club_database))
    as (_ & Hr & _); [reflexivity|].
  split; [by apply (Hr 0%nat)|reflexivity].
Defined.

(** ** The administrator's parts *)

Lemma handed_shown2 w p q :
  (get_db_connection (set_page q (set_page p w))).1 = (get_db_connection w).1.
Proof.
  rewrite (proj1 (get_db_connection_set_page q _)).
  apply get_db_connection_set_page.
Qed.

Lemma executes_none w : (get_db_connection w).1 = Return None → executes w = false.
Proof.
  unfold executes. by destruct (get_db_connection w) as [[[c|]|e] w1].
Qed.

(** X17: the settings page lets a user take any name, also [admin], and
    the home page asks for nothing but the name.  A session that has a
    user name and saves the name [admin] on the settings page gets the
    administrator's part of the home page: whenever the first query of the
    page returns, the heading of the summary of open orders is written.
    On a connection the page then ends in [InterfaceError], at the query of
    that summary. *)
Theorem renamed_user_reaches_admin_parts format_currency theme_choice
    save_preferences s w conn :
  is_Some (ss_username s) →
  (get_db_connection w).1 = Return conn →
  (∀ c, conn = Some c → connections (get_db_connection w).2 !! c = Some true) →
  let s' := (settings_page "admin" true theme_choice save_preferences s).1 in
  let run := home_page format_currency (ss_username s') w in
  ss_username s' = Some "admin"
  ∧ st_markdown "**Open Orders Summary**" ∈ new_output w run.2
  ∧ (∀ c, conn = Some c → run.1 = Raise already_closed).
Proof.
  intros [old Hold] Hc Ho s' run.
  assert (Hs' : ss_username s' = Some "admin").
  { subst s'. unfold settings_page. rewrite Hold. by destruct save_preferences. }
  split; [exact Hs'|]. subst run. rewrite Hs'. clear s' Hs' Hold old.
  pose (reached := λ r : Res unit * World,
          (∃ out1 out2,
             page r.2
             = page w ++ out1 ++ st_markdown "**Open Orders Summary**" :: out2)
          ∧ (∀ c, conn = Some c → r.1 = Raise already_closed)).
  assert (Hrun : reached (home_page format_currency (Some "admin") w)).
  2: { destruct Hrun as [(out1 & out2 & Hp) Hraise]. split; [|exact Hraise].
       unfold new_output. rewrite Hp, drop_app_length.
       apply elem_of_app. right. by apply elem_of_cons; left. }
  unfold home_page. rewrite decide_True by done. rewrite !bind_show_eq.
  set (w0 := set_page _ (set_page _ w)).
  assert (Hp0 : page w0 = page w ++ home_heading).
  { unfold w0, home_heading. simpl. by rewrite <- app_assoc. }
  assert (Hc0 : (get_db_connection w0).1 = Return conn)
    by (unfold w0; by rewrite handed_shown2).
  assert (Hx0 : executes w0 = executes w) by (unfold w0; apply executes_shown2).
  pose proof (run_query_result client_count_query [VStr "em aberto"] false w0)
    as Hr.
  destruct (run_query_frame client_count_query [VStr "em aberto"] false w0)
    as (_ & _ & _ & _ & _ & o1 & Hp1 & _).
  destruct (run_query_exhausts client_count_query [VStr "em aberto"] false w0)
    as (Hc1 & Hx1).
  rewrite Hc0 in Hc1. rewrite Hp0 in Hp1.
  assert (Hcc : ∃ cc, (run_query client_count_query [VStr "em aberto"] false w0).1
                      = Return cc).
  { rewrite Hr, Hx0. destruct conn as [c|].
    - rewrite (executes_open w c Hc (Ho c eq_refl)). eauto.
    - rewrite (executes_none w Hc). unfold idle_result. rewrite Hc0. eauto. }
  clear Hr. destruct Hcc as [cc Hcc].
  unfold bind at 1.
  destruct (run_query client_count_query [VStr "em aberto"] false w0)
    as [r w1].
  cbn [fst snd] in Hcc, Hp1, Hc1, Hx1. subst r.
  unfold bind at 1.
  match goal with
  | |- context [if ?b then show ?x else show ?y] =>
      replace (if b then show x else show y) with (show (if b then x else y))
        by (by destruct b);
      set (note := if b then x else y)
  end.
  unfold show at 1. rewrite bind_show_eq.
  set (w3 := set_page _ (set_page _ w1)).
  assert (Hp3 : page w3
                = page w ++ home_heading ++ o1
                  ++ [note; st_markdown "**Open Orders Summary**"]).
  { unfold w3. simpl. rewrite Hp1, <- !app_assoc. reflexivity. }
  assert (Hc3 : (get_db_connection w3).1 = Return conn)
    by (unfold w3; by rewrite handed_shown2).
  assert (Hx3 : executes w3 = false)
    by (unfold w3; by rewrite executes_shown2).
  destruct (run_query_idle open_orders_query [VStr "em aberto"] false w3 Hx3)
    as (Hr & _).
  unfold idle_result in Hr. rewrite Hc3 in Hr.
  destruct (run_query_frame open_orders_query [VStr "em aberto"] false w3)
    as (_ & _ & _ & _ & _ & o2 & Hp2 & _).
  unfold bind at 1.
  destruct (run_query open_orders_query [VStr "em aberto"] false w3)
    as [r w4].
  cbn [fst snd] in Hr, Hp2. subst r.
  destruct conn as [c|].
  - subst reached. cbn [fst snd]. split; [|done].
    exists (home_heading ++ o1 ++ [note]), o2.
    rewrite Hp2, Hp3, <- !app_assoc. reflexivity.
  - match goal with
    | |- reached (?m w4) =>
        assert (Hw : writes (λ _, True) m)
          by (unfold stock_vs_orders_summary, df_sort_values; writes_steps)
    end.
    destruct (Hw w4) as (o3 & Hp5 & _).
    subst reached. cbn beta. split; [|by intros c [=]].
    exists (home_heading ++ o1 ++ [note]), (o2 ++ o3).
    rewrite Hp5, Hp2, Hp3, <- !app_assoc. reflexivity.
Qed.

Lemma renamed_user_reaches_admin_parts_witness :
  ss_username (settings_page "admin" true "Claro" false session_of_ana).1
  = Some "admin"
  ∧ st_markdown "**Open Orders Summary**"
    ∈ new_output (fresh_process reliable club_database)
        (home_page py_str
           (ss_username (settings_page "admin" true "Claro" false session_of_ana).1)
           (fresh_process reliable club_database)).2.
Proof.
  destruct (renamed_user_reaches_admin_parts py_str "Claro" false
              session_of_ana (fresh_process reliable club_database) (Some 0))
    as (Hname & Hout & _); [by eexists|reflexivity|by intros c [= <-]|].
  split; [exact Hname|exact Hout].
Defined.

(** ** After a registration *)

(** X21: a registration that succeeds empties the snapshot.  When the
    [INSERT] of a valid submission gets to the server, over an open
    connection, and is committed, the order is stored and the success is
    written; the reload that follows is made on the connection the
    [INSERT] closed, its first query raises, and the session is left with
    a dictionary without any dataset, the orders included, and with the
    error of the load on the page. *)
Theorem successful_order_empties_the_snapshot w c client product quantity now :
  client ≠ "" → product ≠ "" → (1 ≤ quantity)%Z →
  (get_db_connection w).1 = Return (Some c) →
  connections (get_db_connection w).2 !! c = Some true →
  execute_raises (env w) insert_query
    [VStr client; VStr product; VInt quantity; VTime now] = None →
  let submit :=
    register_order true (VStr client) (VStr product) quantity now w in
  submit.1 = Return ()
  ∧ tb_pedido (database submit.2)
    = tb_pedido (database w)
      ++ [Pedido.mk client product quantity now "em aberto"]
  ∧ session_data submit.2 = ∅
  ∧ st_success "Order registrado com sucesso!" ∈ new_output w submit.2
  ∧ load_error already_closed ∈ new_output w submit.2.
Proof.
  intros Hcl Hpr Hq Hc Ho Hex submit. subst submit.
  pose proof (executes_open w c Hc Ho) as Hx.
  assert (Htrue : (run_query insert_query [VStr client; VStr product; VInt quantity; VTime now] true w).1 = Return QTrue).
  { rewrite run_query_result, Hx. unfold execution_fails.
    by rewrite Hex, execute_insert_query. }
  destruct (run_query_commit_succeeds insert_query [VStr client; VStr product; VInt quantity; VTime now] w Htrue)
    as (c' & cur & db' & _ & _ & Hexec & Hrun).
  rewrite execute_insert_query in Hexec.
  injection Hexec as _ <-.
  destruct (run_query_frame insert_query [VStr client; VStr product; VInt quantity; VTime now] true w)
    as (_ & _ & _ & _ & _ & out & Hp & _).
  destruct (run_query_exhausts insert_query [VStr client; VStr product; VInt quantity; VTime now] true w) as (Hc' & Hx').
  rewrite Hc in Hc'.
  assert (Hsub :
    register_order true (VStr client) (VStr product) quantity now w
    = refresh_data
        (set_page
           (page (run_query insert_query
                    [VStr client; VStr product; VInt quantity; VTime now]
                    true w).2
            ++ [st_success "Order registrado com sucesso!"])
           (run_query insert_query
              [VStr client; VStr product; VInt quantity; VTime now] true w).2)).
  { unfold register_order. rewrite !value_truthy_VStr by done. simpl.
    assert ((0 <? quantity)%Z = true) as -> by (apply Z.ltb_lt; lia).
    unfold bind at 1.
    destruct (run_query insert_query
                [VStr client; VStr product; VInt quantity; VTime now] true w)
      as [r wi].
    cbn [fst snd] in *. by subst r. }
  rewrite Hsub. clear Hsub.
  set (wi := (run_query insert_query
                [VStr client; VStr product; VInt quantity; VTime now]
                true w).2) in *.
  set (w3 := set_page _ wi).
  destruct (refresh_data_spec w3)
    as (Hr & Hs & _ & _ & Hd & _ & _ & _ & out' & Hp' & _ & Hin).
  assert (Hc3 : (get_db_connection w3).1 = Return (Some c))
    by (unfold w3; by rewrite (proj1 (get_db_connection_set_page _ wi))).
  assert (Hx3 : executes w3 = false)
    by (unfold w3; by rewrite (proj2 (get_db_connection_set_page _ wi))).
  split; [exact Hr|]. split.
  { rewrite Hd. unfold w3, wi. cbn [database set_page]. by rewrite Hrun. }
  split. { rewrite Hs. unfold snapshot_of. by rewrite Hx3, Hc3. }
  assert (Hout : new_output w (refresh_data w3).2
                 = out ++ [st_success "Order registrado com sucesso!"] ++ out').
  { apply new_output_app. rewrite Hp'. unfold w3. cbn [page set_page].
    by rewrite Hp, <- !app_assoc. }
  rewrite Hout. split.
  - apply elem_of_app. right. by apply elem_of_cons; left.
  - apply elem_of_app. right. apply elem_of_cons. right. by apply (Hin c).
Qed.

Lemma successful_order_empties_the_snapshot_witness :
  tb_pedido
    (database
       (register_order true (VStr "Bia") (VStr "Water") 1 evening
          (fresh_process reliable club_database)).2)
  = tb_pedido club_database ++ [Pedido.mk "Bia" "Water" 1 evening "em aberto"]
  ∧ session_data
      (register_order true (VStr "Bia") (VStr "Water") 1 evening
         (fresh_process reliable club_database)).2 = ∅.
Proof.
  destruct (successful_order_empties_the_snapshot
              (fresh_process reliable club_database) 0 "Bia" "Water" 1 evening)
    as (_ & Hdb & Hs & _);
    [discriminate|discriminate|lia|reflexivity|reflexivity|reflexivity|].
  split; [exact Hdb|exact Hs].
Defined.

(** ** Exceptions in a load *)

(** X22: [load_all_data] contains what [run_query] lets through.  When
    the connection attempt raises an exception that is not an
    [OperationalError] (a missing entry of [st.secrets], say) and nothing is
    cached, the load reports the exception, returns a dictionary without
    any dataset and makes no driver call; that empty dictionary is cached
    as the snapshot, so later loads return it without trying again, and
    write the error of the first load again, while the connection cache is
    still empty. *)
Theorem load_all_data_contains_exceptions w e :
  data_cache w = None →
  connection_cache w = None →
  connect_raises (env w) = Some e →
  exn_class e ≠ OperationalError →
  let run := load_all_data w in
  run.1 = Return ∅
  ∧ new_output w run.2 = [load_error e]
  ∧ log run.2 = log w
  ∧ connection_cache run.2 = None
  ∧ ∀ env', load_all_data (set_env env' run.2)
            = (Return ∅,
               set_page (page run.2 ++ [load_error e]) (set_env env' run.2)).
Proof.
  intros Hd Hc He Hclass run. subst run.
  assert (Hrq : run_query orders_query [] false w = (Raise e, w)).
  { rewrite run_query_on_connection, get_db_connection_eq, Hc, He.
    by rewrite decide_False. }
  unfold load_all_data, cache_data. rewrite Hd.
  unfold load_all_data_body. rewrite Hrq.
  unfold bind, show, ret. cbn [fst snd].
  split; [reflexivity|]. split.
  { unfold new_output. simpl. by rewrite drop_app_length. }
  split; [reflexivity|]. split; [exact Hc|].
  intros env'. simpl. by rewrite drop_app_length.
Qed.

Lemma load_all_data_contains_exceptions_witness :
  (load_all_data (fresh_process misconfigured club_database)).1 = Return ∅
  ∧ (load_all_data
       (set_env reliable
          (load_all_data (fresh_process misconfigured club_database)).2)).1
    = Return ∅
  ∧ log (load_all_data
           (set_env reliable
              (load_all_data (fresh_process misconfigured club_database)).2)).2
    = [].
Proof.
  destruct (load_all_data_contains_exceptions
              (fresh_process misconfigured club_database)
              (mk_exn KeyError "db"))
    as (Hr & _ & _ & _ & Hlater);
    [reflexivity|reflexivity|reflexivity|discriminate|].
  split; [exact Hr|]. rewrite Hlater. split; reflexivity.
Defined.
